(** * build.py: selection resolution and phase sequencing of the plug-in build script

    A shallow embedding of [Main] of [build.py].  The script threads one
    mutable context object ([CTX]) through the run, prints through
    [CTX.printer], touches the filesystem through [pathlib] and calls the
    tool-chain and plug-in manager modules.  The embedding keeps that shape:
    a state-and-exception monad over a [World] made of the context, the
    filesystem and the trace of everything printed or called. *)

From stdpp Require Import gmap strings list fin_maps.

(** ** Identifiers of [scripts.upi_cli_argument_options]

    [build.py] imports [PluginID], [PlatformID], [ConfigID], [BuildActionID]
    and [CleanActionID]; the module defining them is not part of the
    sources at hand, so their string values are parameters of the
    development. *)

Class CliArgumentOptions := {
  PluginID_ACCESSIBILITY : string;
  PluginID_CORE : string;
  PluginID_CORE_HAPTICS : string;
  PluginID_GAME_CONTROLLER : string;
  PluginID_GAME_KIT : string;
  PluginID_PHASE : string;
  PluginID_ALL : string;
  PlatformID_IOS : string;
  PlatformID_MACOS : string;
  PlatformID_TVOS : string;
  PlatformID_ALL : string;
  ConfigID_DEBUG : string;
  ConfigID_RELEASE : string;
  BuildActionID_BUILD : string;
  BuildActionID_PACK : string;
  BuildActionID_ALL : string;
  BuildActionID_NONE : string;
  CleanActionID_NATIVE : string;
  CleanActionID_PACKAGES : string;
  CleanActionID_TESTS : string;
  CleanActionID_ALL : string;
  CleanActionID_NONE : string
}.

(** ** Paths and the filesystem

    A [pathlib.Path] is its list of components.  The filesystem is the list
    of its entries in scan order: [iterdir] yields the children of a
    directory in the order in which they occur in that list.  The root (the
    empty path) always exists. *)

Abbreviation Path := (list string).

Inductive NodeKind := Directory | RegularFile.

Global Instance NodeKind_eq_dec : EqDecision NodeKind.
Proof. solve_decision. Defined.

Abbreviation FileSystem := (list (Path * NodeKind)).

Definition Path_joinpath (p : Path) (name : string) : Path := p ++ [name].

Definition Path_name (p : Path) : string := List.last p "".

Definition Path_parent (p : Path) : Path := removelast p.

(** [str(path)] as it appears in messages. *)
Definition Path_str (p : Path) : string := "/" +:+ String.concat "/" p.

Fixpoint fs_lookup (fs : FileSystem) (p : Path) : option NodeKind :=
  match fs with
  | [] => None
  | (q, k) :: rest => if decide (q = p) then Some k else fs_lookup rest p
  end.

Definition path_kind (fs : FileSystem) (p : Path) : option NodeKind :=
  match p with
  | [] => Some Directory
  | _ => fs_lookup fs p
  end.

Definition Path_exists (fs : FileSystem) (p : Path) : bool :=
  bool_decide (is_Some (path_kind fs p)).

Definition Path_is_dir (fs : FileSystem) (p : Path) : bool :=
  bool_decide (path_kind fs p = Some Directory).

Definition fs_children (fs : FileSystem) (p : Path) : list Path :=
  (filter (λ e : Path * NodeKind, e.1 ≠ [] ∧ Path_parent e.1 = p) fs).*1.

(** ** Time of invocation: [datetime.now()] and [strftime] *)

Record datetime := {
  year : nat; month : nat; day : nat;
  hour : nat; minute : nat; second : nat
}.

Definition digit (n : nat) : string :=
  String (Ascii.ascii_of_nat (48 + n mod 10)) EmptyString.

Definition pad2 (n : nat) : string := digit (n / 10) +:+ digit n.

Definition pad4 (n : nat) : string := pad2 (n / 100) +:+ pad2 n.

(** [invocation_time.strftime("%Y-%m-%d_%H-%M-%S")] *)
Definition strftime (t : datetime) : string :=
  pad4 (year t) +:+ "-" +:+ pad2 (month t) +:+ "-" +:+ pad2 (day t) +:+ "_"
  +:+ pad2 (hour t) +:+ "-" +:+ pad2 (minute t) +:+ "-" +:+ pad2 (second t).

(** ** Command line: the namespace returned by [argument_parser.parse_args()] *)

Record BuildArgs := {
  arg_plugin_list : list string;
  arg_platform_list : list string;
  arg_build_actions : list string;
  arg_simulator_build : bool;
  arg_codesign_identity : string;
  arg_skip_codesign : bool;
  arg_unity_installation_root : Path;
  arg_debug : bool;
  arg_output_path : Path;
  arg_clean_actions : list string;
  arg_force_clean : bool;
  arg_build_tests : bool;
  arg_test_output_path : Path
}.

(** ** The build context [CTX] *)

Record BuildContext := {
  unity_install_root : Path;
  build_output_path : Path;
  test_build_root : Path;
  plugin_root : Path;
  build_actions : gmap string bool;
  platforms : gmap string bool;
  plugins : gmap string bool;
  clean_actions : gmap string bool;
  simulator_build : bool;
  build_tests : bool;
  build_path : Path;
  test_build_output_path : Path;
  build_config : string;
  codesign_hash : string
}.

Definition set_unity_install_root (v : Path) (c : BuildContext) : BuildContext :=
  {| unity_install_root := v; build_output_path := build_output_path c;
     test_build_root := test_build_root c; plugin_root := plugin_root c;
     build_actions := build_actions c; platforms := platforms c;
     plugins := plugins c; clean_actions := clean_actions c;
     simulator_build := simulator_build c; build_tests := build_tests c;
     build_path := build_path c;
     test_build_output_path := test_build_output_path c;
     build_config := build_config c; codesign_hash := codesign_hash c |}.

Definition set_build_actions (v : gmap string bool) (c : BuildContext) : BuildContext :=
  {| unity_install_root := unity_install_root c; build_output_path := build_output_path c;
     test_build_root := test_build_root c; plugin_root := plugin_root c;
     build_actions := v; platforms := platforms c;
     plugins := plugins c; clean_actions := clean_actions c;
     simulator_build := simulator_build c; build_tests := build_tests c;
     build_path := build_path c;
     test_build_output_path := test_build_output_path c;
     build_config := build_config c; codesign_hash := codesign_hash c |}.

Definition set_platforms (v : gmap string bool) (c : BuildContext) : BuildContext :=
  {| unity_install_root := unity_install_root c; build_output_path := build_output_path c;
     test_build_root := test_build_root c; plugin_root := plugin_root c;
     build_actions := build_actions c; platforms := v;
     plugins := plugins c; clean_actions := clean_actions c;
     simulator_build := simulator_build c; build_tests := build_tests c;
     build_path := build_path c;
     test_build_output_path := test_build_output_path c;
     build_config := build_config c; codesign_hash := codesign_hash c |}.

Definition set_plugins (v : gmap string bool) (c : BuildContext) : BuildContext :=
  {| unity_install_root := unity_install_root c; build_output_path := build_output_path c;
     test_build_root := test_build_root c; plugin_root := plugin_root c;
     build_actions := build_actions c; platforms := platforms c;
     plugins := v; clean_actions := clean_actions c;
     simulator_build := simulator_build c; build_tests := build_tests c;
     build_path := build_path c;
     test_build_output_path := test_build_output_path c;
     build_config := build_config c; codesign_hash := codesign_hash c |}.

Definition set_clean_actions (v : gmap string bool) (c : BuildContext) : BuildContext :=
  {| unity_install_root := unity_install_root c; build_output_path := build_output_path c;
     test_build_root := test_build_root c; plugin_root := plugin_root c;
     build_actions := build_actions c; platforms := platforms c;
     plugins := plugins c; clean_actions := v;
     simulator_build := simulator_build c; build_tests := build_tests c;
     build_path := build_path c;
     test_build_output_path := test_build_output_path c;
     build_config := build_config c; codesign_hash := codesign_hash c |}.

Definition set_simulator_build (v : bool) (c : BuildContext) : BuildContext :=
  {| unity_install_root := unity_install_root c; build_output_path := build_output_path c;
     test_build_root := test_build_root c; plugin_root := plugin_root c;
     build_actions := build_actions c; platforms := platforms c;
     plugins := plugins c; clean_actions := clean_actions c;
     simulator_build := v; build_tests := build_tests c;
     build_path := build_path c;
     test_build_output_path := test_build_output_path c;
     build_config := build_config c; codesign_hash := codesign_hash c |}.

Definition set_build_tests (v : bool) (c : BuildContext) : BuildContext :=
  {| unity_install_root := unity_install_root c; build_output_path := build_output_path c;
     test_build_root := test_build_root c; plugin_root := plugin_root c;
     build_actions := build_actions c; platforms := platforms c;
     plugins := plugins c; clean_actions := clean_actions c;
     simulator_build := simulator_build c; build_tests := v;
     build_path := build_path c;
     test_build_output_path := test_build_output_path c;
     build_config := build_config c; codesign_hash := codesign_hash c |}.

Definition set_build_path (v : Path) (c : BuildContext) : BuildContext :=
  {| unity_install_root := unity_install_root c; build_output_path := build_output_path c;
     test_build_root := test_build_root c; plugin_root := plugin_root c;
     build_actions := build_actions c; platforms := platforms c;
     plugins := plugins c; clean_actions := clean_actions c;
     simulator_build := simulator_build c; build_tests := build_tests c;
     build_path := v;
     test_build_output_path := test_build_output_path c;
     build_config := build_config c; codesign_hash := codesign_hash c |}.

Definition set_test_build_output_path (v : Path) (c : BuildContext) : BuildContext :=
  {| unity_install_root := unity_install_root c; build_output_path := build_output_path c;
     test_build_root := test_build_root c; plugin_root := plugin_root c;
     build_actions := build_actions c; platforms := platforms c;
     plugins := plugins c; clean_actions := clean_actions c;
     simulator_build := simulator_build c; build_tests := build_tests c;
     build_path := build_path c;
     test_build_output_path := v;
     build_config := build_config c; codesign_hash := codesign_hash c |}.

Definition set_build_config (v : string) (c : BuildContext) : BuildContext :=
  {| unity_install_root := unity_install_root c; build_output_path := build_output_path c;
     test_build_root := test_build_root c; plugin_root := plugin_root c;
     build_actions := build_actions c; platforms := platforms c;
     plugins := plugins c; clean_actions := clean_actions c;
     simulator_build := simulator_build c; build_tests := build_tests c;
     build_path := build_path c;
     test_build_output_path := test_build_output_path c;
     build_config := v; codesign_hash := codesign_hash c |}.

Definition set_codesign_hash (v : string) (c : BuildContext) : BuildContext :=
  {| unity_install_root := unity_install_root c; build_output_path := build_output_path c;
     test_build_root := test_build_root c; plugin_root := plugin_root c;
     build_actions := build_actions c; platforms := platforms c;
     plugins := plugins c; clean_actions := clean_actions c;
     simulator_build := simulator_build c; build_tests := build_tests c;
     build_path := build_path c;
     test_build_output_path := test_build_output_path c;
     build_config := build_config c; codesign_hash := v |}.

(** ** Exceptions, output and collaborator calls *)

Inductive Exn :=
| FileExistsError (p : Path)
| FileNotFoundError (p : Path)
| NotADirectoryError (p : Path)
| KeyError (key : string)
| UnboundLocalError (name : string)
| ExternalError (what : string).

(** The calls [Main] makes into [scripts.upi_utility], [scripts.upi_toolchain]
    and [scripts.upi_unity_native_plugin_manager]. *)
Inductive Call :=
| RemoveFolder (folder : Path) (prompt : bool)
| GetToolchainVersions
| PromptForCodesignIdentity
| NativeUnityPluginManager
| ScanForUnityInstallations
| ProcessNativeUnityPlugin (plugin_path : Path)
| ValidateProjectVersions
| BuildTests
| GeneratePlugInPackages.

(** What the two bare [print] calls at the top of [Main] show; the layout of
    the text is left to the printer. *)
Inductive Printout :=
| Banner
| OptionSummary (args : BuildArgs)
| CodesignIdentityLine (identity : string)
| TestOutputPathLine (p : Path).

Inductive Event :=
| Printed (what : Printout)
| SectionHeading (text : string)
| WarningMessage (text : string)
| InfoMessage (text : string)
| StatusMessage (text prefix : string)
| StatusMessageWithContext (text context : string)
| Message (text prefix : string)
| MessageWithContext (text context prefix : string)
| UtilityWarningMessage (text : string)
| Called (c : Call).

(** The collaborators are outside [build.py]: a call either raises or
    returns, possibly after changing the filesystem.  [Printer_Bold] is the
    static text decoration [Printer.Bold]. *)
Class Collaborators := {
  Printer_Bold : string → string;
  collaborator : Call → BuildContext → FileSystem → Exn + FileSystem;
  toolchain_versions : BuildContext → FileSystem → Exn + (string * string);
  codesign_identity_prompt : BuildContext → FileSystem → Exn + string
}.

(** ** The state of a run and the monad of [Main] *)

Record World := {
  CTX : BuildContext;
  fs : FileSystem;
  trace : list Event
}.

Inductive Res (A : Type) :=
| Ok (a : A) (w : World)
| Raise (e : Exn) (w : World).
Arguments Ok {A} a w.
Arguments Raise {A} e w.

Definition M (A : Type) : Type := World → Res A.

Global Instance M_ret : MRet M := λ A a w, Ok a w.

Global Instance M_bind : MBind M := λ A B f m w,
  match m w with
  | Ok a w' => f a w'
  | Raise e w' => Raise e w'
  end.

Global Instance M_fmap : FMap M := λ A B f m w,
  match m w with
  | Ok a w' => Ok (f a) w'
  | Raise e w' => Raise e w'
  end.

Definition raise {A} (e : Exn) : M A := λ w, Raise e w.

Definition get_ctx : M BuildContext := λ w, Ok (CTX w) w.

Definition get_fs : M FileSystem := λ w, Ok (fs w) w.

Definition set_CTX (c : BuildContext) (w : World) : World :=
  {| CTX := c; fs := fs w; trace := trace w |}.

Definition set_fs (fs' : FileSystem) (w : World) : World :=
  {| CTX := CTX w; fs := fs'; trace := trace w |}.

Definition add_trace (es : list Event) (w : World) : World :=
  {| CTX := CTX w; fs := fs w; trace := trace w ++ es |}.

Definition modify_ctx (f : BuildContext → BuildContext) : M unit := λ w,
  Ok () (set_CTX (f (CTX w)) w).

Definition put_fs (fs' : FileSystem) : M unit := λ w,
  Ok () (set_fs fs' w).

Definition emit (e : Event) : M unit := λ w,
  Ok () (add_trace [e] w).

Definition when (b : bool) (m : M unit) : M unit := if b then m else mret ().

(** [d[key]] *)
Definition dict_getitem (d : gmap string bool) (key : string) : M bool :=
  match d !! key with
  | Some b => mret b
  | None => raise (KeyError key)
  end.

(** [for key in d.keys(): d[key] = value] *)
Definition dict_fill (value : bool) (d : gmap string bool) : gmap string bool :=
  (λ _, value) <$> d.

(** [key in d] *)
Definition dict_contains (d : gmap string bool) (key : string) : bool :=
  bool_decide (is_Some (d !! key)).

(** [path.mkdir()]: neither [parents] nor [exist_ok]. *)
Definition Path_mkdir (p : Path) : M unit :=
  fs0 ← get_fs;
  if Path_exists fs0 p then raise (FileExistsError p)
  else match path_kind fs0 (Path_parent p) with
       | None => raise (FileNotFoundError p)
       | Some RegularFile => raise (NotADirectoryError p)
       | Some Directory => put_fs (fs0 ++ [(p, Directory)])
       end.

(** [path.iterdir()], listed when the loop starts. *)
Definition Path_iterdir (p : Path) : M (list Path) :=
  fs0 ← get_fs;
  match path_kind fs0 p with
  | None => raise (FileNotFoundError p)
  | Some RegularFile => raise (NotADirectoryError p)
  | Some Directory => mret (fs_children fs0 p)
  end.

Section WithCollaborators.
Context `{Ids : CliArgumentOptions} `{Ext : Collaborators}.

(** A call into a collaborator that returns nothing: logged, then run. *)
Definition call (c : Call) : M unit :=
  emit (Called c);;
  ctx ← get_ctx;
  fs0 ← get_fs;
  match collaborator c ctx fs0 with
  | inl e => raise e
  | inr fs' => put_fs fs'
  end.

Definition call_GetToolchainVersions : M (string * string) :=
  emit (Called GetToolchainVersions);;
  ctx ← get_ctx;
  fs0 ← get_fs;
  match toolchain_versions ctx fs0 with
  | inl e => raise e
  | inr v => mret v
  end.

Definition call_PromptForCodesignIdentity : M string :=
  emit (Called PromptForCodesignIdentity);;
  ctx ← get_ctx;
  fs0 ← get_fs;
  match codesign_identity_prompt ctx fs0 with
  | inl e => raise e
  | inr v => mret v
  end.

(** *** Command line option summary (lines 94-117) *)

Definition print_option_summary (build_args : BuildArgs) : M unit :=
  emit (Printed Banner);;
  emit (SectionHeading "Command Line Option Summary");;
  emit (Printed (OptionSummary build_args));;
  when (negb (arg_skip_codesign build_args))
    (emit (Printed (CodesignIdentityLine
       (if bool_decide (0 < String.length (arg_codesign_identity build_args))
        then arg_codesign_identity build_args
        else "None supplied; user will be prompted."))));;
  when (arg_build_tests build_args)
    (emit (Printed (TestOutputPathLine (arg_test_output_path build_args)))).

(** *** Build actions (lines 123-149) *)

Definition unknown_build_action_warning (action : string) : string :=
  "Ignoring unknown build action '" +:+ action +:+ "'. Valid options are "
  +:+ BuildActionID_BUILD +:+ ", " +:+ BuildActionID_PACK +:+ ", "
  +:+ BuildActionID_ALL +:+ " (Default), or " +:+ BuildActionID_NONE.

Fixpoint build_actions_loop (tokens : list string)
    (valid_build_action_found : bool) : M bool :=
  match tokens with
  | [] => mret valid_build_action_found
  | action :: rest =>
    ctx ← get_ctx;
    if dict_contains (build_actions ctx) action then
      modify_ctx (set_build_actions (<[action:=true]> (build_actions ctx)));;
      build_actions_loop rest true
    else if bool_decide (action = BuildActionID_ALL) then
      modify_ctx (set_build_actions (dict_fill true (build_actions ctx)));;
      mret true
    else if bool_decide (action = BuildActionID_NONE) then
      modify_ctx (set_build_actions (dict_fill false (build_actions ctx)));;
      mret true
    else
      emit (WarningMessage (unknown_build_action_warning action));;
      build_actions_loop rest valid_build_action_found
  end.

(** Lines 123-144: the dictionary literal, then the loop. *)
Definition resolve_build_actions (tokens : list string) : M bool :=
  modify_ctx (set_build_actions
    (<[BuildActionID_PACK:=false]> (<[BuildActionID_BUILD:=false]> ∅)));;
  build_actions_loop tokens false.

Definition validate_build_actions (build_args : BuildArgs) : M unit :=
  valid_build_action_found ← resolve_build_actions (arg_build_actions build_args);
  when (negb valid_build_action_found)
    (emit (WarningMessage
       ("No valid build action passed to build script. Using default argument: "
        +:+ BuildActionID_ALL));;
     ctx ← get_ctx;
     modify_ctx (set_build_actions (dict_fill true (build_actions ctx)))).

(** *** Platforms (lines 153-177) *)

Definition unknown_platform_warning (platform_id : string) : string :=
  "Ignoring unknown platform '" +:+ platform_id +:+ "'. Valid options are "
  +:+ PlatformID_IOS +:+ ", " +:+ PlatformID_MACOS +:+ ", "
  +:+ PlatformID_TVOS +:+ ", or " +:+ PlatformID_ALL +:+ " (Default)".

Fixpoint platforms_loop (tokens : list string)
    (valid_platform_found : bool) : M bool :=
  match tokens with
  | [] => mret valid_platform_found
  | platform_id :: rest =>
    ctx ← get_ctx;
    if bool_decide (platform_id = PlatformID_ALL) then
      modify_ctx (set_platforms (dict_fill true (platforms ctx)));;
      mret true
    else if dict_contains (platforms ctx) platform_id then
      modify_ctx (set_platforms (<[platform_id:=true]> (platforms ctx)));;
      platforms_loop rest true
    else
      emit (WarningMessage (unknown_platform_warning platform_id));;
      platforms_loop rest valid_platform_found
  end.

(** Lines 153-170. *)
Definition resolve_platforms (tokens : list string) : M bool :=
  modify_ctx (set_platforms
    (<[PlatformID_TVOS:=false]> (<[PlatformID_MACOS:=false]>
       (<[PlatformID_IOS:=false]> ∅))));;
  platforms_loop tokens false.

Definition validate_platforms (build_args : BuildArgs) : M unit :=
  valid_platform_found ← resolve_platforms (arg_platform_list build_args);
  when (negb valid_platform_found)
    (emit (WarningMessage
       ("No valid platform passed to build script. Using default argument: "
        +:+ PlatformID_ALL));;
     ctx ← get_ctx;
     modify_ctx (set_platforms (dict_fill true (platforms ctx))));;
  modify_ctx (set_simulator_build (arg_simulator_build build_args)).

(** *** Plug-ins (lines 181-217) *)

Definition unknown_plugin_warning (plugin_id : string) : string :=
  "Ignoring unknown plug-in '" +:+ plugin_id +:+ "'. Valid options are "
  +:+ PluginID_ACCESSIBILITY +:+ ", " +:+ PluginID_CORE +:+ ", "
  +:+ PluginID_CORE_HAPTICS +:+ ", " +:+ PluginID_GAME_CONTROLLER +:+ ", "
  +:+ PluginID_GAME_KIT +:+ ", " +:+ PluginID_PHASE +:+ ", or "
  +:+ PluginID_ALL +:+ " (Default)".

(** Modelled from the spec: [utility.WarningMessage], the module-level
    function of [scripts.upi_utility] that line 201 calls in place of
    [CTX.printer.WarningMessage]; its module is not among the sources.  The
    spec has an unrecognized token emit a non-fatal warning, so the call
    records the warning and returns. *)
Definition utility_WarningMessage (text : string) : M unit :=
  emit (UtilityWarningMessage text).

Fixpoint plugins_loop (tokens : list string)
    (valid_plugin_found : bool) : M bool :=
  match tokens with
  | [] => mret valid_plugin_found
  | plugin_id :: rest =>
    ctx ← get_ctx;
    if dict_contains (plugins ctx) plugin_id then
      modify_ctx (set_plugins (<[plugin_id:=true]> (plugins ctx)));;
      plugins_loop rest true
    else if bool_decide (plugin_id = PluginID_ALL) then
      modify_ctx (set_plugins (dict_fill true (plugins ctx)));;
      mret true
    else
      utility_WarningMessage (unknown_plugin_warning plugin_id);;
      plugins_loop rest valid_plugin_found
  end.

Definition core_not_selected_warning : string :=
  "Build Tests(" +:+ Printer_Bold "-t"
  +:+ ") set to true, but Apple.Core has not been selected to process.".

Definition core_dependency_info : string :=
  "All plug-ins are dependent upon Apple.Core, so it must be built for tests build successfully.".

Definition no_valid_plugin_warning : string :=
  "No valid plug-in passed to build script. Using default argument: "
  +:+ PluginID_ALL.

Definition nl : string := String (Ascii.ascii_of_nat 10) EmptyString.

(** The three messages of lines 209-211. *)
Definition core_forced_messages : list Event :=
  [WarningMessage core_not_selected_warning;
   InfoMessage core_dependency_info;
   StatusMessage "Adding Apple.Core to selected plug-ins." nl].

(** Lines 205-212: tests need Apple.Core. *)
Definition force_core_for_tests (build_args : BuildArgs) : M unit :=
  modify_ctx (set_build_tests (arg_build_tests build_args));;
  ctx ← get_ctx;
  core_missing ←
    (if build_tests ctx
     then negb <$> dict_getitem (plugins ctx) PluginID_CORE
     else mret false);
  when core_missing
    (emit (WarningMessage core_not_selected_warning);;
     emit (InfoMessage core_dependency_info);;
     emit (StatusMessage "Adding Apple.Core to selected plug-ins." nl);;
     ctx ← get_ctx;
     modify_ctx (set_plugins (<[PluginID_CORE:=true]> (plugins ctx)))).

(** Lines 181-201. *)
Definition resolve_plugins (tokens : list string) : M bool :=
  modify_ctx (set_plugins
    (<[PluginID_PHASE:=false]> (<[PluginID_GAME_KIT:=false]>
      (<[PluginID_GAME_CONTROLLER:=false]> (<[PluginID_CORE_HAPTICS:=false]>
        (<[PluginID_CORE:=false]> (<[PluginID_ACCESSIBILITY:=false]> ∅)))))));;
  plugins_loop tokens false.

Definition validate_plugins (build_args : BuildArgs) : M unit :=
  valid_plugin_found ← resolve_plugins (arg_plugin_list build_args);
  force_core_for_tests build_args;;
  when (negb valid_plugin_found)
    (emit (WarningMessage no_valid_plugin_warning);;
     ctx ← get_ctx;
     modify_ctx (set_plugins (dict_fill true (plugins ctx)))).

(** *** Clean actions (lines 221-248) *)

Definition unknown_clean_action_warning (action : string) : string :=
  "Ignoring unknown clean action '" +:+ action +:+ "'. Valid options are "
  +:+ CleanActionID_NATIVE +:+ ", " +:+ CleanActionID_PACKAGES +:+ ", "
  +:+ CleanActionID_TESTS +:+ ", " +:+ CleanActionID_ALL +:+ ", or "
  +:+ CleanActionID_NONE +:+ " (Default)".

Fixpoint clean_actions_loop (tokens : list string)
    (valid_clean_action_found : bool) : M bool :=
  match tokens with
  | [] => mret valid_clean_action_found
  | action :: rest =>
    ctx ← get_ctx;
    if dict_contains (clean_actions ctx) action then
      modify_ctx (set_clean_actions (<[action:=true]> (clean_actions ctx)));;
      clean_actions_loop rest true
    else if bool_decide (action = CleanActionID_ALL) then
      modify_ctx (set_clean_actions (dict_fill true (clean_actions ctx)));;
      mret true
    else if bool_decide (action = CleanActionID_NONE) then
      modify_ctx (set_clean_actions (dict_fill false (clean_actions ctx)));;
      mret true
    else
      emit (WarningMessage (unknown_clean_action_warning action));;
      clean_actions_loop rest valid_clean_action_found
  end.

(** Lines 221-243. *)
Definition resolve_clean_actions (tokens : list string) : M bool :=
  modify_ctx (set_clean_actions
    (<[CleanActionID_TESTS:=false]> (<[CleanActionID_PACKAGES:=false]>
       (<[CleanActionID_NATIVE:=false]> ∅))));;
  clean_actions_loop tokens false.

Definition validate_clean_actions (build_args : BuildArgs) : M unit :=
  valid_clean_action_found ← resolve_clean_actions (arg_clean_actions build_args);
  when (negb valid_clean_action_found)
    (emit (WarningMessage
       ("No valid clean action passed to build script. Using default argument: "
        +:+ CleanActionID_NONE));;
     ctx ← get_ctx;
     modify_ctx (set_clean_actions (dict_fill false (clean_actions ctx)))).

(** *** Unity installation root (lines 252-254) *)

Definition validate_unity_install_root (build_args : BuildArgs) : M unit :=
  let unity_install_root := arg_unity_installation_root build_args in
  fs0 ← get_fs;
  when (Path_is_dir fs0 unity_install_root)
    (modify_ctx (set_unity_install_root unity_install_root)).

(** Lines 119-254. *)
Definition validate_input (build_args : BuildArgs) : M unit :=
  emit (SectionHeading "Validate Input");;
  validate_build_actions build_args;;
  validate_platforms build_args;;
  validate_plugins build_args;;
  validate_clean_actions build_args;;
  validate_unity_install_root build_args.

(** *** Build paths (lines 258-298) *)

(** Lines 261-266. *)
Definition clean_packages (build_args : BuildArgs) : M unit :=
  modify_ctx (set_build_path (arg_output_path build_args));;
  ctx ← get_ctx;
  packages_selected ← dict_getitem (clean_actions ctx) CleanActionID_PACKAGES;
  fs0 ← get_fs;
  when (packages_selected && Path_exists fs0 (build_path ctx))
    (emit (StatusMessage "Cleaning packages." nl);;
     emit (StatusMessageWithContext "Removing folder at path:"
             (Path_str (build_path ctx)));;
     call (RemoveFolder (build_path ctx) (negb (arg_force_clean build_args)))).

(** Lines 268-272. *)
Definition create_build_path : M unit :=
  ctx ← get_ctx;
  build_selected ← dict_getitem (build_actions ctx) BuildActionID_BUILD;
  build_or_pack ←
    (if build_selected : bool then mret true
     else dict_getitem (build_actions ctx) BuildActionID_PACK);
  when build_or_pack
    (fs0 ← get_fs;
     when (negb (Path_exists fs0 (build_path ctx)))
       (emit (Message "Build output path not found." nl);;
        emit (StatusMessageWithContext "Creating: " (Path_str (build_path ctx)));;
        Path_mkdir (build_path ctx))).

(** Lines 279-288. *)
Fixpoint clean_test_players_loop (build_args : BuildArgs)
    (listing : list Path) : M unit :=
  match listing with
  | [] => mret ()
  | curr_plugin_path :: rest =>
    fs0 ← get_fs;
    if negb (Path_is_dir fs0 curr_plugin_path) then
      clean_test_players_loop build_args rest
    else
      let curr_unity_project_path :=
        Path_joinpath curr_plugin_path (Path_name curr_plugin_path +:+ "_Unity") in
      let curr_test_player_path :=
        Path_joinpath curr_unity_project_path "TestPlayers" in
      when (Path_is_dir fs0 curr_unity_project_path
            && Path_is_dir fs0 curr_test_player_path)
        (call (RemoveFolder curr_test_player_path
                 (negb (arg_force_clean build_args))));;
      clean_test_players_loop build_args rest
  end.

(** Lines 275-288. *)
Definition clean_tests (build_args : BuildArgs) : M unit :=
  let test_build_root_path := arg_test_output_path build_args in
  ctx ← get_ctx;
  tests_selected ← dict_getitem (clean_actions ctx) CleanActionID_TESTS;
  fs0 ← get_fs;
  when (tests_selected && Path_exists fs0 test_build_root_path)
    (emit (StatusMessage
             ("Clean tests option '" +:+ CleanActionID_TESTS +:+ "' set.") nl);;
     call (RemoveFolder test_build_root_path (negb (arg_force_clean build_args)));;
     listing ← Path_iterdir (plugin_root ctx);
     clean_test_players_loop build_args listing).

(** Lines 290-298. *)
Definition prepare_test_build (build_args : BuildArgs)
    (invocation_time_string : string) : M unit :=
  let test_build_root_path := arg_test_output_path build_args in
  ctx ← get_ctx;
  when (build_tests ctx)
    (fs0 ← get_fs;
     when (negb (Path_exists fs0 (test_build_root ctx)))
       (emit (StatusMessage "Test build output root not found." nl);;
        emit (StatusMessageWithContext "Creating: "
                (Path_str (test_build_root ctx)));;
        Path_mkdir test_build_root_path);;
     modify_ctx (set_test_build_output_path
       (Path_joinpath (test_build_root ctx)
          ("TestBuild_" +:+ invocation_time_string)));;
     ctx' ← get_ctx;
     Path_mkdir (test_build_output_path ctx')).

Definition configure_build_paths (build_args : BuildArgs)
    (invocation_time_string : string) : M unit :=
  emit (SectionHeading "Configure Build Paths");;
  clean_packages build_args;;
  create_build_path;;
  clean_tests build_args;;
  prepare_test_build build_args invocation_time_string.

(** *** Native build (lines 302-338) *)

(** Lines 324-332: Apple.Core goes to the front, the rest is appended. *)
Fixpoint plugin_path_list_loop (fs0 : FileSystem) (listing : list Path)
    (plugin_path_list : list Path) : list Path :=
  match listing with
  | [] => plugin_path_list
  | curr_plugin_path :: rest =>
    if negb (Path_is_dir fs0 curr_plugin_path) then
      plugin_path_list_loop fs0 rest plugin_path_list
    else if bool_decide (Path_name curr_plugin_path = "Apple.Core") then
      plugin_path_list_loop fs0 rest (curr_plugin_path :: plugin_path_list)
    else
      plugin_path_list_loop fs0 rest (plugin_path_list ++ [curr_plugin_path])
  end.

(** Lines 334-335. *)
Fixpoint process_plugins_loop (plugin_path_list : list Path) : M unit :=
  match plugin_path_list with
  | [] => mret ()
  | plugin_path :: rest =>
    call (ProcessNativeUnityPlugin plugin_path);;
    process_plugins_loop rest
  end.

Definition xcode_select_info : string :=
  "If this is incorrect, please update your environment with "
  +:+ Printer_Bold "xcode-select" +:+ ". (Call '"
  +:+ Printer_Bold "xcode-select -h"
  +:+ "' from the command line for more info.)".

(** The handle bound to the local [unity_plugin_manager]. *)
Inductive PluginManagerHandle := unity_plugin_manager_object.

Definition build_phase (build_args : BuildArgs) : M PluginManagerHandle :=
  emit (SectionHeading "Configure Native Library Build Options");;
  '(xcode_version, xcode_build_number) ← call_GetToolchainVersions;
  emit (MessageWithContext "Native library build using: "
          ("Xcode " +:+ xcode_version +:+ " (" +:+ xcode_build_number +:+ ")") nl);;
  emit (InfoMessage xcode_select_info);;
  modify_ctx (set_build_config
    (if arg_debug build_args then ConfigID_DEBUG else ConfigID_RELEASE));;
  (if arg_skip_codesign build_args then
     modify_ctx (set_codesign_hash "")
   else
     hash ← (if bool_decide (0 < String.length (arg_codesign_identity build_args))
             then mret (arg_codesign_identity build_args)
             else call_PromptForCodesignIdentity);
     modify_ctx (set_codesign_hash hash));;
  emit (SectionHeading "Gather Unity Installation Info");;
  call NativeUnityPluginManager;;
  let unity_plugin_manager := unity_plugin_manager_object in
  call ScanForUnityInstallations;;
  emit (SectionHeading "Process Plug-Ins");;
  ctx ← get_ctx;
  listing ← Path_iterdir (plugin_root ctx);
  fs0 ← get_fs;
  let plugin_path_list := plugin_path_list_loop fs0 listing [] in
  process_plugins_loop plugin_path_list;;
  emit (SectionHeading "Update and Create Unity .meta Files");;
  call ValidateProjectVersions;;
  mret unity_plugin_manager.

(** A method call on the local [unity_plugin_manager]: the name is bound
    only when the native build ran. *)
Definition unity_plugin_manager_call
    (unity_plugin_manager : option PluginManagerHandle) (c : Call) : M unit :=
  match unity_plugin_manager with
  | Some _ => call c
  | None => raise (UnboundLocalError "unity_plugin_manager")
  end.

(** Lines 302-348. *)
Definition run_phases (build_args : BuildArgs) : M unit :=
  ctx ← get_ctx;
  build_selected ← dict_getitem (build_actions ctx) BuildActionID_BUILD;
  unity_plugin_manager ←
    (if build_selected : bool
     then Some <$> build_phase build_args else mret None);
  ctx ← get_ctx;
  when (build_tests ctx)
    (emit (SectionHeading "Build Unity Tests");;
     unity_plugin_manager_call unity_plugin_manager BuildTests);;
  ctx ← get_ctx;
  pack_selected ← dict_getitem (build_actions ctx) BuildActionID_PACK;
  when pack_selected
    (emit (SectionHeading "Create Plug-In Packages");;
     unity_plugin_manager_call unity_plugin_manager GeneratePlugInPackages);;
  emit (Message "Finished running Unity plug-in build script." nl).

Definition Main (build_args : BuildArgs) (invocation_time : datetime) : M unit :=
  let invocation_time_string := strftime invocation_time in
  print_option_summary build_args;;
  validate_input build_args;;
  configure_build_paths build_args invocation_time_string;;
  run_phases build_args.

End WithCollaborators.

(** ** Reading the token loops as one fold

    The four loops of [Main] differ in the dictionary they update, in the
    sentinels they know and in whether membership or the ALL sentinel is
    tested first.  [resolve_tokens] is the loop over a bare dictionary,
    with those differences as parameters; it returns the dictionary, the
    "valid token found" flag and the tokens that were warned about. *)

Inductive TokenClass := Member | AllSentinel | NoneSentinel | Unrecognized.

Global Instance TokenClass_eq_dec : EqDecision TokenClass.
Proof. solve_decision. Defined.

Definition sentinel_class (all : string) (none : option string)
    (token : string) : TokenClass :=
  if bool_decide (token = all) then AllSentinel
  else if bool_decide (Some token = none) then NoneSentinel
  else Unrecognized.

Definition classify (member_first : bool) (all : string) (none : option string)
    (d : gmap string bool) (token : string) : TokenClass :=
  if member_first then
    if dict_contains d token then Member else sentinel_class all none token
  else
    match sentinel_class all none token with
    | Unrecognized => if dict_contains d token then Member else Unrecognized
    | c => c
    end.

Fixpoint resolve_tokens (member_first : bool) (all : string)
    (none : option string) (tokens : list string) (d : gmap string bool)
    (valid : bool) : gmap string bool * bool * list string :=
  match tokens with
  | [] => (d, valid, [])
  | token :: rest =>
    match classify member_first all none d token with
    | Member =>
        resolve_tokens member_first all none rest (<[token:=true]> d) true
    | AllSentinel => (dict_fill true d, true, [])
    | NoneSentinel => (dict_fill false d, true, [])
    | Unrecognized =>
        let '(d', valid', unknown) :=
          resolve_tokens member_first all none rest d valid in
        (d', valid', token :: unknown)
    end
  end.

(** A selection in which exactly the members [keys] are present, all with
    the value [v]. *)
Definition every_member (v : bool) (keys : list string)
    (d : gmap string bool) : Prop :=
  ∀ k, d !! k = if decide (k ∈ keys) then Some v else None.

Section Vocabulary.
Context `{Ids : CliArgumentOptions}.

Definition build_action_keys : list string :=
  [BuildActionID_BUILD; BuildActionID_PACK].

Definition platform_keys : list string :=
  [PlatformID_IOS; PlatformID_MACOS; PlatformID_TVOS].

Definition plugin_keys : list string :=
  [PluginID_ACCESSIBILITY; PluginID_CORE; PluginID_CORE_HAPTICS;
   PluginID_GAME_CONTROLLER; PluginID_GAME_KIT; PluginID_PHASE].

Definition clean_action_keys : list string :=
  [CleanActionID_NATIVE; CleanActionID_PACKAGES; CleanActionID_TESTS].

(** The dictionary literals of lines 123, 153, 181 and 221. *)
Definition initial_build_actions : gmap string bool :=
  <[BuildActionID_PACK:=false]> (<[BuildActionID_BUILD:=false]> ∅).

Definition initial_platforms : gmap string bool :=
  <[PlatformID_TVOS:=false]> (<[PlatformID_MACOS:=false]>
    (<[PlatformID_IOS:=false]> ∅)).

Definition initial_plugins : gmap string bool :=
  <[PluginID_PHASE:=false]> (<[PluginID_GAME_KIT:=false]>
    (<[PluginID_GAME_CONTROLLER:=false]> (<[PluginID_CORE_HAPTICS:=false]>
      (<[PluginID_CORE:=false]> (<[PluginID_ACCESSIBILITY:=false]> ∅))))).

Definition initial_clean_actions : gmap string bool :=
  <[CleanActionID_TESTS:=false]> (<[CleanActionID_PACKAGES:=false]>
    (<[CleanActionID_NATIVE:=false]> ∅)).

End Vocabulary.

(** Resolving [pre ++ sentinel :: post] on one axis: the loop reports a
    valid token, leaves every member of the axis at [v], and does exactly
    what it does on [pre ++ [sentinel]], so that [post] is never looked
    at.  [resolve] is the loop of the axis with its dictionary literal and
    [selection] the field of [CTX] it fills. *)
Definition sentinel_wins_on (resolve : list string → M bool)
    (selection : BuildContext → gmap string bool) (keys : list string)
    (sentinel : string) (v : bool) (pre post : list string) (w : World) : Prop :=
  ∃ w', resolve (pre ++ sentinel :: post) w = Ok true w'
    ∧ every_member v keys (selection (CTX w'))
    ∧ resolve (pre ++ sentinel :: post) w = resolve (pre ++ [sentinel]) w.

(** The directories of a listing, those of them named Apple.Core, and the
    others, each in the order of the listing. *)
Definition plugin_dirs (fs0 : FileSystem) (listing : list Path) : list Path :=
  filter (λ p, Path_is_dir fs0 p = true) listing.

Definition core_dirs (fs0 : FileSystem) (listing : list Path) : list Path :=
  filter (λ p, Path_name p = "Apple.Core") (plugin_dirs fs0 listing).

Definition other_dirs (fs0 : FileSystem) (listing : list Path) : list Path :=
  filter (λ p, Path_name p ≠ "Apple.Core") (plugin_dirs fs0 listing).

(** The collaborator calls of a trace, in order. *)
Definition calls_of (events : list Event) : list Call :=
  omap (λ e, match e with Called c => Some c | _ => None end) events.

(** The world a computation ends in, whether it returned or raised. *)
Definition final_world {A} (r : Res A) : World :=
  match r with
  | Ok _ w => w
  | Raise _ w => w
  end.

(** [m] only adds to the output, and everything it adds satisfies [P],
    also on the runs that end in an exception. *)
Definition emits {A} (P : Event → Prop) (m : M A) : Prop :=
  ∀ w, ∃ es, trace (final_world (m w)) = trace w ++ es ∧ Forall P es.

(** The keys of the dictionary [d] are exactly [keys]. *)
Definition has_keys (keys : list string) (d : gmap string bool) : Prop :=
  ∀ k, is_Some (d !! k) ↔ k ∈ keys.

(** Resolving a token list without sentinel on one axis: the loop reports
    whether some token is a member, every member is true exactly when it
    is named, and each token that is not a member is warned about, in the
    order of the list. *)
Definition accumulates_on (resolve : list string → M bool)
    (selection : BuildContext → gmap string bool) (keys : list string)
    (warning : string → Event) (tokens : list string) (w : World) : Prop :=
  ∃ w', resolve tokens w = Ok (bool_decide (Exists (λ t, t ∈ keys) tokens)) w'
    ∧ (∀ k, k ∈ keys → selection (CTX w') !! k = Some (bool_decide (k ∈ tokens)))
    ∧ trace w' = trace w ++ (warning <$> filter (λ t, t ∉ keys) tokens).



(** The folders [Main] may ask to remove: the [-o] path, the [-to] path,
    and the TestPlayers folder of the Unity project of a plug-in,
    [root/<name>/<name>_Unity/TestPlayers]. *)
Definition removal_target (build_args : BuildArgs) (root folder : Path) : Prop :=
  folder = arg_output_path build_args
  ∨ folder = arg_test_output_path build_args
  ∨ ∃ name, folder = root ++ [name; name +:+ "_Unity"; "TestPlayers"].

(** An event that, if it is a call of RemoveFolder, names such a folder. *)
Definition removes_targets_only (build_args : BuildArgs) (root : Path)
    (e : Event) : Prop :=
  ∀ folder prompt, e = Called (RemoveFolder folder prompt) →
    removal_target build_args root folder.

(** [emits] for the runs that start in a world satisfying [I];
    [emits_between] says in addition that the run ends, normally or not,
    in a world satisfying [J]. *)
Definition emits_from {A} (I : World → Prop) (P : Event → Prop) (m : M A) : Prop :=
  ∀ w, I w →
    ∃ es, trace (final_world (m w)) = trace w ++ es ∧ Forall P es.

Definition emits_between {A} (I J : World → Prop) (P : Event → Prop)
    (m : M A) : Prop :=
  ∀ w, I w →
    ∃ es, trace (final_world (m w)) = trace w ++ es ∧ Forall P es
      ∧ J (final_world (m w)).

(** The plug-in root of the context is [root]. *)
Definition has_plugin_root (root : Path) (w : World) : Prop :=
  plugin_root (CTX w) = root.

(** No clean action of the context is selected. *)
Definition nothing_to_clean (w : World) : Prop :=
  ∀ k, clean_actions (CTX w) !! k ≠ Some true.

(** An event that is not a call of RemoveFolder. *)
Definition no_removal (e : Event) : Prop :=
  ∀ folder prompt, e ≠ Called (RemoveFolder folder prompt).

(** [needle] occurs in [text]. *)
Definition occurs_in (needle text : string) : Prop :=
  ∃ before after, text = before +:+ needle +:+ after.

(** ** A concrete vocabulary and concrete collaborators

    Used to run the embedding on explicit inputs.  The identifiers take the
    spellings the specification uses where it names them. *)

Definition example_ids : CliArgumentOptions := {|
  PluginID_ACCESSIBILITY := "accessibility";
  PluginID_CORE := "core";
  PluginID_CORE_HAPTICS := "corehaptics";
  PluginID_GAME_CONTROLLER := "gamecontroller";
  PluginID_GAME_KIT := "gamekit";
  PluginID_PHASE := "phase";
  PluginID_ALL := "ALL";
  PlatformID_IOS := "ios";
  PlatformID_MACOS := "macos";
  PlatformID_TVOS := "tvos";
  PlatformID_ALL := "ALL";
  ConfigID_DEBUG := "Debug";
  ConfigID_RELEASE := "Release";
  BuildActionID_BUILD := "build";
  BuildActionID_PACK := "pack";
  BuildActionID_ALL := "ALL";
  BuildActionID_NONE := "NONE";
  CleanActionID_NATIVE := "native";
  CleanActionID_PACKAGES := "packages";
  CleanActionID_TESTS := "tests";
  CleanActionID_ALL := "ALL";
  CleanActionID_NONE := "NONE"
|}.

(** Removing a folder drops it and everything below it. *)
Definition remove_tree (folder : Path) (fs0 : FileSystem) : FileSystem :=
  filter (λ e : Path * NodeKind, ¬ folder `prefix_of` e.1) fs0.

Definition example_collaborators : Collaborators := {|
  Printer_Bold := λ text, text;
  collaborator := λ c _ fs0,
    match c with
    | RemoveFolder folder _ => inr (remove_tree folder fs0)
    | _ => inr fs0
    end;
  toolchain_versions := λ _ _, inr ("15.0", "15A240d");
  codesign_identity_prompt := λ _ _, inr "-"
|}.

Definition example_ctx : BuildContext := {|
  unity_install_root := ["Applications"; "Unity"];
  build_output_path := ["repo"; "Build"];
  test_build_root := ["repo"; "TestBuilds"];
  plugin_root := ["repo"; "plug-ins"];
  build_actions := ∅; platforms := ∅; plugins := ∅; clean_actions := ∅;
  simulator_build := false; build_tests := false;
  build_path := []; test_build_output_path := [];
  build_config := ""; codesign_hash := ""
|}.

Definition example_fs : FileSystem := [
  (["repo"], Directory);
  (["repo"; "plug-ins"], Directory);
  (["repo"; "plug-ins"; "Apple.GameKit"], Directory);
  (["repo"; "plug-ins"; "README.md"], RegularFile);
  (["repo"; "plug-ins"; "Apple.Core"], Directory);
  (["repo"; "plug-ins"; "Apple.PHASE"], Directory)
].

Definition example_world : World :=
  {| CTX := example_ctx; fs := example_fs; trace := [] |}.

(** An invocation with the given plug-in, build-action and clean-action
    lists, [-t] and [-to]; every other option has the default of the
    argument parser. *)
Definition example_invocation (plugin_list build_actions clean_actions : list string)
    (build_tests : bool) (test_output_path : Path) : BuildArgs := {|
  arg_plugin_list := plugin_list;
  arg_platform_list := ["ALL"];
  arg_build_actions := build_actions;
  arg_simulator_build := false;
  arg_codesign_identity := "";
  arg_skip_codesign := false;
  arg_unity_installation_root := ["Applications"; "Unity"];
  arg_debug := false;
  arg_output_path := ["repo"; "Build"];
  arg_clean_actions := clean_actions;
  arg_force_clean := false;
  arg_build_tests := build_tests;
  arg_test_output_path := test_output_path
|}.

(** [python3 build.py] with no option. *)
Definition example_args : BuildArgs :=
  example_invocation ["ALL"] ["build"; "pack"] ["NONE"] false
    ["repo"; "TestBuilds"].

Definition with_unity_installation_root (root : Path) (args : BuildArgs)
    : BuildArgs := {|
  arg_plugin_list := arg_plugin_list args;
  arg_platform_list := arg_platform_list args;
  arg_build_actions := arg_build_actions args;
  arg_simulator_build := arg_simulator_build args;
  arg_codesign_identity := arg_codesign_identity args;
  arg_skip_codesign := arg_skip_codesign args;
  arg_unity_installation_root := root;
  arg_debug := arg_debug args;
  arg_output_path := arg_output_path args;
  arg_clean_actions := arg_clean_actions args;
  arg_force_clean := arg_force_clean args;
  arg_build_tests := arg_build_tests args;
  arg_test_output_path := arg_test_output_path args
|}.

(** [-t -p accessibility] *)
Definition example_tests_accessibility_args : BuildArgs :=
  example_invocation ["accessibility"] ["build"; "pack"] ["NONE"] true
    ["repo"; "TestBuilds"].

(** [-t -p bogus nope] *)
Definition example_tests_unknown_plugins_args : BuildArgs :=
  example_invocation ["bogus"; "nope"] ["build"; "pack"] ["NONE"] true
    ["repo"; "TestBuilds"].

(** [-k packages] *)
Definition example_clean_packages_args : BuildArgs :=
  example_invocation ["ALL"] ["build"; "pack"] ["packages"] false
    ["repo"; "TestBuilds"].

(** [-b NONE -t] *)
Definition example_tests_only_args : BuildArgs :=
  example_invocation ["ALL"] ["NONE"] ["NONE"] true ["repo"; "TestBuilds"].

(** [-b pack] *)
Definition example_pack_only_args : BuildArgs :=
  example_invocation ["ALL"] ["pack"] ["NONE"] false ["repo"; "TestBuilds"].

(** [-t -to repo/MyTests] *)
Definition example_custom_test_output_args : BuildArgs :=
  example_invocation ["ALL"] ["build"; "pack"] ["NONE"] true ["repo"; "MyTests"].

(** The world after [example_args] went through input validation. *)
Definition example_validated_world : World :=
  match validate_input (Ids:=example_ids) (Ext:=example_collaborators)
          example_args example_world with
  | Ok _ w => w
  | Raise _ w => w
  end.

(** The same tree with the default test-output root present. *)
Definition example_world_with_test_root : World :=
  {| CTX := example_ctx;
     fs := example_fs ++ [(["repo"; "TestBuilds"], Directory)];
     trace := [] |}.

Definition example_time : datetime :=
  {| year := 2024; month := 3; day := 7; hour := 9; minute := 5; second := 42 |}.

(** [-b bogus nope -m bogus nope -p bogus nope -k bogus nope] *)
Definition example_unknown_tokens_args : BuildArgs := {|
  arg_plugin_list := ["bogus"; "nope"];
  arg_platform_list := ["bogus"; "nope"];
  arg_build_actions := ["bogus"; "nope"];
  arg_simulator_build := false;
  arg_codesign_identity := "";
  arg_skip_codesign := false;
  arg_unity_installation_root := ["Applications"; "Unity"];
  arg_debug := false;
  arg_output_path := ["repo"; "Build"];
  arg_clean_actions := ["bogus"; "nope"];
  arg_force_clean := false;
  arg_build_tests := false;
  arg_test_output_path := ["repo"; "TestBuilds"]
|}.

(** The validated world once line 261 has set [CTX.build_path]. *)
Definition example_configured_world : World :=
  set_CTX (set_build_path (arg_output_path example_args)
             (CTX example_validated_world)) example_validated_world.

(** The worlds after [-t -p accessibility] went through input validation,
    without and with the default test-output root. *)
Definition example_tests_world : World :=
  final_world (validate_input (Ids:=example_ids) (Ext:=example_collaborators)
                 example_tests_accessibility_args example_world).

Definition example_tests_world_with_root : World :=
  final_world (validate_input (Ids:=example_ids) (Ext:=example_collaborators)
                 example_tests_accessibility_args example_world_with_test_root).

(** * Properties *)

(** ** Dictionaries *)

Lemma dict_fill_lookup (v : bool) (d : gmap string bool) (k : string) :
  dict_fill v d !! k = (λ _, v) <$> (d !! k).
Proof. unfold dict_fill. by rewrite lookup_fmap. Qed.

Lemma dict_fill_dom (v : bool) (d : gmap string bool) :
  dom (dict_fill v d) = dom d.
Proof. unfold dict_fill. by rewrite dom_fmap_L. Qed.

Lemma dict_fill_same_dom (v : bool) (d d' : gmap string bool) :
  dom d = dom d' → dict_fill v d = dict_fill v d'.
Proof.
  intros Hdom. apply map_eq. intros k. rewrite !dict_fill_lookup.
  assert (is_Some (d !! k) ↔ is_Some (d' !! k)) as Hk
    by (rewrite <- !elem_of_dom, Hdom; done).
  destruct (d !! k) as [b|] eqn:E, (d' !! k) as [b'|] eqn:E'; simpl; try done.
  - destruct Hk as [Hk _]. destruct Hk as [? ?]; [by eexists | done].
  - destruct Hk as [_ Hk]. destruct Hk as [? ?]; [by eexists | done].
Qed.

Lemma dict_contains_true (d : gmap string bool) (k : string) :
  dict_contains d k = true ↔ k ∈ dom d.
Proof.
  unfold dict_contains. rewrite bool_decide_eq_true. by rewrite elem_of_dom.
Qed.

Lemma dict_contains_same_dom (d d' : gmap string bool) (k : string) :
  dom d = dom d' → dict_contains d k = dict_contains d' k.
Proof.
  intros Hdom. destruct (dict_contains d' k) eqn:E.
  - apply dict_contains_true. rewrite Hdom. by apply dict_contains_true.
  - destruct (dict_contains d k) eqn:E'; [|done].
    apply dict_contains_true in E'. rewrite Hdom in E'.
    apply dict_contains_true in E'. congruence.
Qed.

Lemma dom_insert_member (d : gmap string bool) (k : string) (v : bool) :
  dict_contains d k = true → dom (<[k:=v]> d) = dom d.
Proof.
  intros Hk%dict_contains_true. rewrite dom_insert_L. set_solver.
Qed.

Lemma every_member_fill (v : bool) (keys : list string) (d : gmap string bool) :
  (∀ k, k ∈ dom d ↔ k ∈ keys) → every_member v keys (dict_fill v d).
Proof.
  intros Hkeys k. rewrite dict_fill_lookup.
  destruct (decide (k ∈ keys)) as [Hin|Hnin].
  - apply Hkeys, elem_of_dom in Hin as [b ->]. done.
  - destruct (d !! k) eqn:E; [|done].
    exfalso. apply Hnin, Hkeys, elem_of_dom. by eexists.
Qed.

(** ** The fold over bare dictionaries *)

Section ResolveTokens.
Variables (member_first : bool) (all : string) (none : option string).

Abbreviation classify' := (classify member_first all none).
Abbreviation resolve' := (resolve_tokens member_first all none).

Lemma classify_same_dom (d d' : gmap string bool) (token : string) :
  dom d = dom d' → classify' d token = classify' d' token.
Proof.
  intros Hdom. unfold classify.
  by rewrite (dict_contains_same_dom d d' token Hdom).
Qed.

Lemma classify_Member (d : gmap string bool) (token : string) :
  classify' d token = Member → dict_contains d token = true.
Proof.
  unfold classify, sentinel_class.
  destruct member_first, (dict_contains d token); try done;
    repeat case_bool_decide; done.
Qed.

Lemma resolve_tokens_dom (tokens : list string) (d : gmap string bool) (valid : bool) :
  dom (resolve' tokens d valid).1.1 = dom d.
Proof.
  revert d valid. induction tokens as [|token rest IH]; intros d valid; [done|].
  simpl. destruct (classify' d token) eqn:Hc.
  - rewrite IH. by apply dom_insert_member, classify_Member.
  - apply dict_fill_dom.
  - apply dict_fill_dom.
  - specialize (IH d valid).
    destruct (resolve' rest d valid) as [[d' v'] u]. done.
Qed.

(** Tokens in front of a sentinel only switch members on, or are warned
    about; the sentinel then overwrites every member and ends the loop. *)
Lemma resolve_tokens_sentinel (pre post : list string) (s : string)
    (d : gmap string bool) (valid : bool) :
  Forall (λ t, classify' d t = Member ∨ classify' d t = Unrecognized) pre →
  classify' d s = AllSentinel ∨ classify' d s = NoneSentinel →
  resolve' (pre ++ s :: post) d valid =
    (dict_fill (bool_decide (classify' d s = AllSentinel)) d, true,
     filter (λ t, classify' d t = Unrecognized) pre).
Proof.
  intros Hpre Hs. revert valid.
  assert (∀ d0 valid, dom d0 = dom d →
    resolve' (pre ++ s :: post) d0 valid =
    (dict_fill (bool_decide (classify' d s = AllSentinel)) d, true,
     filter (λ t, classify' d t = Unrecognized) pre)) as Hgen.
  { induction Hpre as [|t pre Ht Hpre IH]; intros d0 valid Hdom.
    - simpl. rewrite (classify_same_dom d0 d s Hdom).
      destruct Hs as [Hs|Hs]; rewrite Hs; simpl.
      + by rewrite (dict_fill_same_dom true d0 d Hdom).
      + by rewrite (dict_fill_same_dom false d0 d Hdom).
    - simpl. rewrite (classify_same_dom d0 d t Hdom).
      destruct Ht as [Ht|Ht]; rewrite Ht.
      + rewrite IH.
        * rewrite filter_cons_False; [done|]. rewrite Ht. done.
        * rewrite <- Hdom. apply dom_insert_member.
          rewrite (dict_contains_same_dom d0 d t Hdom).
          by apply classify_Member.
      + rewrite (IH d0 valid Hdom).
        rewrite filter_cons_True; done. }
  intros valid. by apply Hgen.
Qed.

Lemma resolve_tokens_unrecognized (tokens : list string)
    (d : gmap string bool) (valid : bool) :
  Forall (λ t, classify' d t = Unrecognized) tokens →
  resolve' tokens d valid = (d, valid, tokens).
Proof.
  induction 1 as [|t tokens Ht _ IH]; [done|].
  simpl. by rewrite Ht, IH.
Qed.

Lemma classify_all (d : gmap string bool) :
  (member_first = true → dict_contains d all = false) →
  classify' d all = AllSentinel.
Proof.
  intros Hkey. unfold classify, sentinel_class.
  rewrite bool_decide_eq_true_2 by done.
  destruct member_first; [|done]. by rewrite Hkey.
Qed.

Lemma classify_none (d : gmap string bool) (n : string) :
  none = Some n → n ≠ all →
  (member_first = true → dict_contains d n = false) →
  classify' d n = NoneSentinel.
Proof.
  intros -> Hne Hkey. unfold classify, sentinel_class.
  rewrite bool_decide_eq_false_2 by done.
  rewrite bool_decide_eq_true_2 by done.
  destruct member_first; [|done]. by rewrite Hkey.
Qed.

Lemma classify_plain (d : gmap string bool) (t : string) :
  t ≠ all → Some t ≠ none →
  classify' d t = if dict_contains d t then Member else Unrecognized.
Proof.
  intros Hall Hnone. unfold classify, sentinel_class.
  rewrite !bool_decide_eq_false_2 by done.
  by destruct member_first.
Qed.

(** Whatever comes after a sentinel is never looked at. *)
Lemma resolve_tokens_after_sentinel (pre post : list string) (s : string)
    (d : gmap string bool) (valid : bool) :
  classify' d s = AllSentinel ∨ classify' d s = NoneSentinel →
  resolve' (pre ++ s :: post) d valid = resolve' (pre ++ [s]) d valid.
Proof.
  intros Hs.
  assert (∀ d0 valid, dom d0 = dom d →
    resolve' (pre ++ s :: post) d0 valid = resolve' (pre ++ [s]) d0 valid)
    as Hgen; [|by apply Hgen].
  clear valid. induction pre as [|t pre IH]; intros d0 valid Hdom.
  - simpl. rewrite (classify_same_dom d0 d s Hdom).
    by destruct Hs as [-> | ->].
  - simpl. destruct (classify' d0 t) eqn:Ht; try done.
    + apply IH. rewrite <- Hdom.
      by apply dom_insert_member, classify_Member.
    + by rewrite (IH d0 valid Hdom).
Qed.

Lemma classify_sentinel_inv (d : gmap string bool) (t : string) :
  (classify' d t = AllSentinel → t = all)
  ∧ (classify' d t = NoneSentinel → Some t = none).
Proof.
  unfold classify, sentinel_class.
  destruct member_first, (dict_contains d t);
    repeat case_bool_decide; split; intros; simplify_eq; done.
Qed.

(** Members that are not named, in a list without sentinel, keep their value. *)
Lemma resolve_tokens_untouched (tokens : list string) (d : gmap string bool)
    (valid : bool) (k : string) :
  all ∉ tokens → (∀ n, none = Some n → n ∉ tokens) → k ∉ tokens →
  (resolve' tokens d valid).1.1 !! k = d !! k.
Proof.
  revert d valid. induction tokens as [|t rest IH]; intros d valid Hall Hnone Hk;
    [done|].
  apply not_elem_of_cons in Hall as [Hall1 Hall2].
  apply not_elem_of_cons in Hk as [Hk1 Hk2].
  assert (∀ n, none = Some n → n ∉ rest) as Hnone2.
  { intros n Hn Hin. apply (Hnone n Hn). by right. }
  simpl. destruct (classify' d t) eqn:Hc.
  - rewrite IH by done. by rewrite lookup_insert_ne.
  - by apply classify_sentinel_inv in Hc.
  - apply classify_sentinel_inv in Hc. exfalso.
    apply (Hnone t); [done|by left].
  - specialize (IH d valid Hall2 Hnone2 Hk2).
    by destruct (resolve' rest d valid) as [[d' v'] u].
Qed.

Lemma plain_tokens_classes (d : gmap string bool) (l : list string) :
  all ∉ l → (∀ n, none = Some n → n ∉ l) →
  Forall (λ t, classify' d t = Member ∨ classify' d t = Unrecognized) l.
Proof.
  intros Hall Hnone. apply Forall_forall. intros t Ht.
  rewrite classify_plain.
  - destruct (dict_contains d t); auto.
  - intros ->. done.
  - intros Heq. by apply (Hnone t).
Qed.

(** The first ALL makes every member true, when no NONE comes before it. *)
Lemma resolve_tokens_all_wins (pre post : list string)
    (d : gmap string bool) (valid : bool) :
  (member_first = true → dict_contains d all = false) →
  (∀ n, none = Some n → n ∉ pre) →
  ∃ unknown,
    resolve' (pre ++ all :: post) d valid = (dict_fill true d, true, unknown).
Proof.
  intros Hkey Hnone.
  pose proof (classify_all d Hkey) as Hc.
  destruct (decide (all ∈ pre)) as [Hin|Hnin].
  - apply list_elem_of_split_l in Hin as (l1 & l2 & -> & Hl1).
    rewrite <- app_assoc. simpl.
    rewrite resolve_tokens_sentinel; [|apply plain_tokens_classes; [done|]|by left].
    + rewrite Hc. rewrite bool_decide_eq_true_2 by done. by eexists.
    + intros n Hn Hin. apply (Hnone n Hn). set_solver.
  - rewrite resolve_tokens_sentinel; [|by apply plain_tokens_classes|by left].
    rewrite Hc. rewrite bool_decide_eq_true_2 by done. by eexists.
Qed.

(** The first NONE makes every member false, when no ALL comes before it. *)
Lemma resolve_tokens_none_wins (pre post : list string) (n : string)
    (d : gmap string bool) (valid : bool) :
  none = Some n → n ≠ all →
  (member_first = true → dict_contains d n = false) →
  all ∉ pre →
  ∃ unknown,
    resolve' (pre ++ n :: post) d valid = (dict_fill false d, true, unknown).
Proof.
  intros Hn Hne Hkey Hall.
  pose proof (classify_none d n Hn Hne Hkey) as Hc.
  destruct (decide (n ∈ pre)) as [Hin|Hnin].
  - apply list_elem_of_split_l in Hin as (l1 & l2 & -> & Hl1).
    rewrite <- app_assoc. simpl.
    rewrite resolve_tokens_sentinel; [|apply plain_tokens_classes|by right].
    + rewrite Hc. rewrite bool_decide_eq_false_2 by done. by eexists.
    + set_solver.
    + intros n' Hn'. congruence.
  - rewrite resolve_tokens_sentinel; [|apply plain_tokens_classes|by right].
    + rewrite Hc. rewrite bool_decide_eq_false_2 by done. by eexists.
    + done.
    + intros n' Hn'. congruence.
Qed.

End ResolveTokens.

(** ** Text of the messages *)

Lemma string_app_assoc (a b c : string) : (a +:+ b) +:+ c = a +:+ b +:+ c.
Proof.
  induction a as [|x a IH]; [done|].
  change (String x ((a +:+ b) +:+ c) = String x (a +:+ b +:+ c)).
  by rewrite IH.
Qed.

Lemma string_app_nil_r (a : string) : a +:+ "" = a.
Proof.
  induction a as [|x a IH]; [done|].
  change (String x (a +:+ "") = String x a). by rewrite IH.
Qed.

Lemma occurs_in_here (needle after : string) : occurs_in needle (needle +:+ after).
Proof. by exists "", after. Qed.

Lemma occurs_in_end (needle : string) : occurs_in needle needle.
Proof. exists "", "". simpl. by rewrite string_app_nil_r. Qed.

Lemma occurs_in_later (needle before text : string) :
  occurs_in needle text → occurs_in needle (before +:+ text).
Proof.
  intros (b & a & ->). exists (before +:+ b), a. by rewrite string_app_assoc.
Qed.

(** Finds [needle] among the pieces of a message built with [+:+]. *)
Ltac find_occurrence :=
  solve [ repeat first
    [ apply occurs_in_here | apply occurs_in_end | apply occurs_in_later ] ].

(** ** Worlds and the monad *)

Lemma add_trace_nil (w : World) : add_trace [] w = w.
Proof. destruct w. unfold add_trace. simpl. by rewrite app_nil_r. Qed.

Lemma set_build_actions_id (c : BuildContext) :
  set_build_actions (build_actions c) c = c.
Proof. by destruct c. Qed.

Lemma set_platforms_id (c : BuildContext) : set_platforms (platforms c) c = c.
Proof. by destruct c. Qed.

Lemma set_plugins_id (c : BuildContext) : set_plugins (plugins c) c = c.
Proof. by destruct c. Qed.

Lemma set_clean_actions_id (c : BuildContext) :
  set_clean_actions (clean_actions c) c = c.
Proof. by destruct c. Qed.

Lemma set_CTX_id (w : World) : set_CTX (CTX w) w = w.
Proof. by destruct w. Qed.

(** Steps of the monad that compute on their own. *)
Ltac run_step :=
  unfold mbind, M_bind, fmap, M_fmap, mret, M_ret, get_ctx, get_fs,
    modify_ctx, put_fs, emit, raise, when, utility_WarningMessage; simpl.

(** ** The loops of [Main] are the fold *)

Section Loops.
Context `{Ids : CliArgumentOptions} `{Ext : Collaborators}.

Lemma build_actions_loop_fold (tokens : list string) (valid : bool) (w : World) :
  build_actions_loop tokens valid w =
  let '(d, valid', unknown) :=
    resolve_tokens true BuildActionID_ALL (Some BuildActionID_NONE) tokens
      (build_actions (CTX w)) valid in
  Ok valid' (add_trace ((λ t, WarningMessage (unknown_build_action_warning t)) <$> unknown)
               (set_CTX (set_build_actions d (CTX w)) w)).
Proof.
  revert valid w. induction tokens as [|token rest IH]; intros valid w.
  - simpl. by rewrite add_trace_nil, set_build_actions_id, set_CTX_id.
  - simpl. run_step. unfold classify, sentinel_class.
    destruct (dict_contains (build_actions (CTX w)) token).
    + rewrite IH. simpl.
      by destruct (resolve_tokens _ _ _ rest _ true) as [[d v'] u].
    + case_bool_decide; [simpl; by rewrite add_trace_nil|].
      destruct (bool_decide (token = BuildActionID_NONE)) eqn:E.
      * rewrite bool_decide_eq_true_2; [simpl; by rewrite add_trace_nil|].
        apply bool_decide_eq_true in E. by subst.
      * rewrite bool_decide_eq_false_2.
        2:{ apply bool_decide_eq_false in E. congruence. }
        rewrite IH. simpl.
        destruct (resolve_tokens _ _ _ rest _ valid) as [[d v'] u].
        unfold add_trace. simpl. by rewrite <- app_assoc.
Qed.

Lemma clean_actions_loop_fold (tokens : list string) (valid : bool) (w : World) :
  clean_actions_loop tokens valid w =
  let '(d, valid', unknown) :=
    resolve_tokens true CleanActionID_ALL (Some CleanActionID_NONE) tokens
      (clean_actions (CTX w)) valid in
  Ok valid' (add_trace ((λ t, WarningMessage (unknown_clean_action_warning t)) <$> unknown)
               (set_CTX (set_clean_actions d (CTX w)) w)).
Proof.
  revert valid w. induction tokens as [|token rest IH]; intros valid w.
  - simpl. by rewrite add_trace_nil, set_clean_actions_id, set_CTX_id.
  - simpl. run_step. unfold classify, sentinel_class.
    destruct (dict_contains (clean_actions (CTX w)) token).
    + rewrite IH. simpl.
      by destruct (resolve_tokens _ _ _ rest _ true) as [[d v'] u].
    + case_bool_decide; [simpl; by rewrite add_trace_nil|].
      destruct (bool_decide (token = CleanActionID_NONE)) eqn:E.
      * rewrite bool_decide_eq_true_2; [simpl; by rewrite add_trace_nil|].
        apply bool_decide_eq_true in E. by subst.
      * rewrite bool_decide_eq_false_2.
        2:{ apply bool_decide_eq_false in E. congruence. }
        rewrite IH. simpl.
        destruct (resolve_tokens _ _ _ rest _ valid) as [[d v'] u].
        unfold add_trace. simpl. by rewrite <- app_assoc.
Qed.

Lemma plugins_loop_fold (tokens : list string) (valid : bool) (w : World) :
  plugins_loop tokens valid w =
  let '(d, valid', unknown) :=
    resolve_tokens true PluginID_ALL None tokens (plugins (CTX w)) valid in
  Ok valid' (add_trace ((λ t, UtilityWarningMessage (unknown_plugin_warning t)) <$> unknown)
               (set_CTX (set_plugins d (CTX w)) w)).
Proof.
  revert valid w. induction tokens as [|token rest IH]; intros valid w.
  - simpl. by rewrite add_trace_nil, set_plugins_id, set_CTX_id.
  - simpl. run_step. unfold classify, sentinel_class.
    destruct (dict_contains (plugins (CTX w)) token).
    + rewrite IH. simpl.
      by destruct (resolve_tokens _ _ _ rest _ true) as [[d v'] u].
    + case_bool_decide; [simpl; by rewrite add_trace_nil|].
      rewrite bool_decide_eq_false_2 by done.
      rewrite IH. simpl.
      destruct (resolve_tokens _ _ _ rest _ valid) as [[d v'] u].
      unfold add_trace. simpl. by rewrite <- app_assoc.
Qed.

Lemma platforms_loop_fold (tokens : list string) (valid : bool) (w : World) :
  platforms_loop tokens valid w =
  let '(d, valid', unknown) :=
    resolve_tokens false PlatformID_ALL None tokens (platforms (CTX w)) valid in
  Ok valid' (add_trace ((λ t, WarningMessage (unknown_platform_warning t)) <$> unknown)
               (set_CTX (set_platforms d (CTX w)) w)).
Proof.
  revert valid w. induction tokens as [|token rest IH]; intros valid w.
  - simpl. by rewrite add_trace_nil, set_platforms_id, set_CTX_id.
  - simpl. run_step. unfold classify, sentinel_class.
    case_bool_decide; [simpl; by rewrite add_trace_nil|].
    rewrite bool_decide_eq_false_2 by done.
    destruct (dict_contains (platforms (CTX w)) token).
    + rewrite IH. simpl.
      by destruct (resolve_tokens _ _ _ rest _ true) as [[d v'] u].
    + rewrite IH. simpl.
      destruct (resolve_tokens _ _ _ rest _ valid) as [[d v'] u].
      unfold add_trace. simpl. by rewrite <- app_assoc.
Qed.

Lemma resolve_build_actions_fold (tokens : list string) (w : World) :
  resolve_build_actions tokens w =
  let '(d, valid, unknown) :=
    resolve_tokens true BuildActionID_ALL (Some BuildActionID_NONE) tokens
      initial_build_actions false in
  Ok valid (add_trace ((λ t, WarningMessage (unknown_build_action_warning t)) <$> unknown)
              (set_CTX (set_build_actions d (CTX w)) w)).
Proof.
  unfold resolve_build_actions. run_step. rewrite build_actions_loop_fold.
  simpl. fold initial_build_actions. by destruct (resolve_tokens _ _ _ _ _ _) as [[d v] u].
Qed.

Lemma resolve_platforms_fold (tokens : list string) (w : World) :
  resolve_platforms tokens w =
  let '(d, valid, unknown) :=
    resolve_tokens false PlatformID_ALL None tokens initial_platforms false in
  Ok valid (add_trace ((λ t, WarningMessage (unknown_platform_warning t)) <$> unknown)
              (set_CTX (set_platforms d (CTX w)) w)).
Proof.
  unfold resolve_platforms. run_step. rewrite platforms_loop_fold.
  simpl. fold initial_platforms. by destruct (resolve_tokens _ _ _ _ _ _) as [[d v] u].
Qed.

Lemma resolve_plugins_fold (tokens : list string) (w : World) :
  resolve_plugins tokens w =
  let '(d, valid, unknown) :=
    resolve_tokens true PluginID_ALL None tokens initial_plugins false in
  Ok valid (add_trace ((λ t, UtilityWarningMessage (unknown_plugin_warning t)) <$> unknown)
              (set_CTX (set_plugins d (CTX w)) w)).
Proof.
  unfold resolve_plugins. run_step. rewrite plugins_loop_fold.
  simpl. fold initial_plugins. by destruct (resolve_tokens _ _ _ _ _ _) as [[d v] u].
Qed.

Lemma resolve_clean_actions_fold (tokens : list string) (w : World) :
  resolve_clean_actions tokens w =
  let '(d, valid, unknown) :=
    resolve_tokens true CleanActionID_ALL (Some CleanActionID_NONE) tokens
      initial_clean_actions false in
  Ok valid (add_trace ((λ t, WarningMessage (unknown_clean_action_warning t)) <$> unknown)
              (set_CTX (set_clean_actions d (CTX w)) w)).
Proof.
  unfold resolve_clean_actions. run_step. rewrite clean_actions_loop_fold.
  simpl. fold initial_clean_actions. by destruct (resolve_tokens _ _ _ _ _ _) as [[d v] u].
Qed.

Lemma initial_build_actions_dom (k : string) :
  k ∈ dom initial_build_actions ↔ k ∈ build_action_keys.
Proof.
  unfold initial_build_actions, build_action_keys.
  rewrite !dom_insert_L, dom_empty_L. set_solver.
Qed.

Lemma initial_platforms_dom (k : string) :
  k ∈ dom initial_platforms ↔ k ∈ platform_keys.
Proof.
  unfold initial_platforms, platform_keys.
  rewrite !dom_insert_L, dom_empty_L. set_solver.
Qed.

Lemma initial_plugins_dom (k : string) :
  k ∈ dom initial_plugins ↔ k ∈ plugin_keys.
Proof.
  unfold initial_plugins, plugin_keys.
  rewrite !dom_insert_L, dom_empty_L. set_solver.
Qed.

Lemma initial_clean_actions_dom (k : string) :
  k ∈ dom initial_clean_actions ↔ k ∈ clean_action_keys.
Proof.
  unfold initial_clean_actions, clean_action_keys.
  rewrite !dom_insert_L, dom_empty_L. set_solver.
Qed.

Lemma not_key_not_contained (d : gmap string bool) (keys : list string)
    (k : string) :
  (∀ k, k ∈ dom d ↔ k ∈ keys) → k ∉ keys → dict_contains d k = false.
Proof.
  intros Hdom Hk. destruct (dict_contains d k) eqn:E; [|done].
  apply dict_contains_true, Hdom in E. done.
Qed.

(** ** Unrecognized tokens *)

Lemma not_in_dom_not_contained (d : gmap string bool) (k : string) :
  k ∉ dom d → dict_contains d k = false.
Proof.
  intros Hk. destruct (dict_contains d k) eqn:E; [|done].
  by apply dict_contains_true in E.
Qed.

Lemma build_actions_loop_skip (action : string) (rest : list string)
    (valid : bool) (w : World) :
  action ∉ dom (build_actions (CTX w)) →
  action ≠ BuildActionID_ALL → action ≠ BuildActionID_NONE →
  build_actions_loop (action :: rest) valid w =
  build_actions_loop rest valid
    (add_trace [WarningMessage (unknown_build_action_warning action)] w).
Proof.
  intros Hkey%not_in_dom_not_contained Hall Hnone. simpl. run_step.
  rewrite Hkey. by rewrite !bool_decide_eq_false_2 by done.
Qed.

Lemma platforms_loop_skip (platform_id : string) (rest : list string)
    (valid : bool) (w : World) :
  platform_id ∉ dom (platforms (CTX w)) → platform_id ≠ PlatformID_ALL →
  platforms_loop (platform_id :: rest) valid w =
  platforms_loop rest valid
    (add_trace [WarningMessage (unknown_platform_warning platform_id)] w).
Proof.
  intros Hkey%not_in_dom_not_contained Hall. simpl. run_step.
  rewrite Hkey. by rewrite !bool_decide_eq_false_2 by done.
Qed.

Lemma plugins_loop_skip (plugin_id : string) (rest : list string)
    (valid : bool) (w : World) :
  plugin_id ∉ dom (plugins (CTX w)) → plugin_id ≠ PluginID_ALL →
  plugins_loop (plugin_id :: rest) valid w =
  plugins_loop rest valid
    (add_trace [UtilityWarningMessage (unknown_plugin_warning plugin_id)] w).
Proof.
  intros Hkey%not_in_dom_not_contained Hall. simpl. run_step.
  rewrite Hkey. by rewrite !bool_decide_eq_false_2 by done.
Qed.

Lemma clean_actions_loop_skip (action : string) (rest : list string)
    (valid : bool) (w : World) :
  action ∉ dom (clean_actions (CTX w)) →
  action ≠ CleanActionID_ALL → action ≠ CleanActionID_NONE →
  clean_actions_loop (action :: rest) valid w =
  clean_actions_loop rest valid
    (add_trace [WarningMessage (unknown_clean_action_warning action)] w).
Proof.
  intros Hkey%not_in_dom_not_contained Hall Hnone. simpl. run_step.
  rewrite Hkey. by rewrite !bool_decide_eq_false_2 by done.
Qed.

Lemma unknown_warnings_name_options (token valid_option : string) :
  (valid_option ∈ [BuildActionID_BUILD; BuildActionID_PACK; BuildActionID_ALL;
             BuildActionID_NONE] →
   occurs_in valid_option (unknown_build_action_warning token))
  ∧ (valid_option ∈ [PlatformID_IOS; PlatformID_MACOS; PlatformID_TVOS;
               PlatformID_ALL] →
     occurs_in valid_option (unknown_platform_warning token))
  ∧ (valid_option ∈ [PluginID_ACCESSIBILITY; PluginID_CORE; PluginID_CORE_HAPTICS;
               PluginID_GAME_CONTROLLER; PluginID_GAME_KIT; PluginID_PHASE;
               PluginID_ALL] →
     occurs_in valid_option (unknown_plugin_warning token))
  ∧ (valid_option ∈ [CleanActionID_NATIVE; CleanActionID_PACKAGES;
               CleanActionID_TESTS; CleanActionID_ALL; CleanActionID_NONE] →
     occurs_in valid_option (unknown_clean_action_warning token)).
Proof.
  repeat split; intros Hin;
    repeat (apply elem_of_cons in Hin as [->|Hin]);
    try (by apply elem_of_nil in Hin);
    unfold unknown_build_action_warning, unknown_platform_warning,
      unknown_plugin_warning, unknown_clean_action_warning;
    find_occurrence.
Qed.

(** ** Validation never raises *)

(** Brings a world built by several updates to one record. *)
Ltac world_eq :=
  unfold add_trace, set_CTX, set_fs, set_unity_install_root, set_build_actions,
    set_platforms, set_plugins, set_clean_actions, set_simulator_build,
    set_build_tests, set_build_path, set_test_build_output_path,
    set_build_config, set_codesign_hash;
  simpl; rewrite <- ?app_assoc;
  first [reflexivity | rewrite ?app_nil_r; reflexivity].

Lemma validate_build_actions_ok (build_args : BuildArgs) (w : World) :
  ∃ d es,
    validate_build_actions build_args w
    = Ok () (add_trace es (set_CTX (set_build_actions d (CTX w)) w))
    ∧ dom d = dom initial_build_actions.
Proof.
  unfold validate_build_actions, mbind, M_bind.
  rewrite resolve_build_actions_fold.
  pose proof (resolve_tokens_dom true BuildActionID_ALL (Some BuildActionID_NONE)
                (arg_build_actions build_args) initial_build_actions false) as Hdom.
  destruct (resolve_tokens _ _ _ _ _ _) as [[d v] u]. simpl in Hdom.
  destruct v; run_step.
  - exists d, ((λ t, WarningMessage (unknown_build_action_warning t)) <$> u).
    split; [world_eq|done].
  - eexists (dict_fill true d), _. split; [world_eq|].
    by rewrite dict_fill_dom.
Qed.

Lemma validate_platforms_ok (build_args : BuildArgs) (w : World) :
  ∃ d es,
    validate_platforms build_args w
    = Ok () (add_trace es
               (set_CTX (set_simulator_build (arg_simulator_build build_args)
                           (set_platforms d (CTX w))) w))
    ∧ dom d = dom initial_platforms.
Proof.
  unfold validate_platforms, mbind, M_bind.
  rewrite resolve_platforms_fold.
  pose proof (resolve_tokens_dom false PlatformID_ALL None
                (arg_platform_list build_args) initial_platforms false) as Hdom.
  destruct (resolve_tokens _ _ _ _ _ _) as [[d v] u]. simpl in Hdom.
  destruct v; run_step.
  - exists d, ((λ t, WarningMessage (unknown_platform_warning t)) <$> u).
    split; [world_eq|done].
  - eexists (dict_fill true d), _. split; [world_eq|].
    by rewrite dict_fill_dom.
Qed.

Lemma validate_clean_actions_ok (build_args : BuildArgs) (w : World) :
  ∃ d es,
    validate_clean_actions build_args w
    = Ok () (add_trace es (set_CTX (set_clean_actions d (CTX w)) w))
    ∧ dom d = dom initial_clean_actions.
Proof.
  unfold validate_clean_actions, mbind, M_bind.
  rewrite resolve_clean_actions_fold.
  pose proof (resolve_tokens_dom true CleanActionID_ALL (Some CleanActionID_NONE)
                (arg_clean_actions build_args) initial_clean_actions false) as Hdom.
  destruct (resolve_tokens _ _ _ _ _ _) as [[d v] u]. simpl in Hdom.
  destruct v; run_step.
  - exists d, ((λ t, WarningMessage (unknown_clean_action_warning t)) <$> u).
    split; [world_eq|done].
  - eexists (dict_fill false d), _. split; [world_eq|].
    by rewrite dict_fill_dom.
Qed.

Lemma validate_unity_install_root_cases (build_args : BuildArgs) (w : World) :
  validate_unity_install_root build_args w =
  if Path_is_dir (fs w) (arg_unity_installation_root build_args)
  then Ok () (set_CTX (set_unity_install_root
                         (arg_unity_installation_root build_args) (CTX w)) w)
  else Ok () w.
Proof.
  unfold validate_unity_install_root. run_step.
  by destruct (Path_is_dir _ _).
Qed.

(** ** Plug-ins and the tests *)

Lemma resolved_plugins_core (tokens : list string) (valid : bool) :
  is_Some ((resolve_tokens true PluginID_ALL None tokens initial_plugins valid).1.1
           !! PluginID_CORE).
Proof.
  apply elem_of_dom. rewrite resolve_tokens_dom.
  apply initial_plugins_dom. unfold plugin_keys. set_solver.
Qed.

(** What lines 181-217 leave behind, in terms of the fold over the tokens. *)
Lemma validate_plugins_result (build_args : BuildArgs) (w : World)
    (d : gmap string bool) (valid : bool) (unknown : list string) :
  resolve_tokens true PluginID_ALL None (arg_plugin_list build_args)
    initial_plugins false = (d, valid, unknown) →
  ∃ selected,
    d !! PluginID_CORE = Some selected
    ∧ let forced := arg_build_tests build_args && negb selected in
      let d1 := if forced then <[PluginID_CORE:=true]> d else d in
      validate_plugins build_args w =
      Ok () (add_trace
               (((λ t, UtilityWarningMessage (unknown_plugin_warning t)) <$> unknown)
                ++ (if forced then core_forced_messages else [])
                ++ (if valid then [] else [WarningMessage no_valid_plugin_warning]))
               (set_CTX
                  (set_plugins (if valid then d1 else dict_fill true d1)
                     (set_build_tests (arg_build_tests build_args) (CTX w)))
                  w)).
Proof.
  intros Hres.
  pose proof (resolved_plugins_core (arg_plugin_list build_args) false) as [b Hb].
  rewrite Hres in Hb. simpl in Hb. exists b. split; [done|].
  unfold validate_plugins, mbind, M_bind.
  rewrite resolve_plugins_fold, Hres.
  unfold force_core_for_tests. run_step.
  destruct (arg_build_tests build_args); simpl.
  - unfold dict_getitem. rewrite Hb. run_step.
    destruct b, valid; simpl; f_equal; world_eq.
  - destruct valid; simpl; f_equal; world_eq.
Qed.

(** Lines 119-254 as a whole: they always return; the plug-in selection
    and the tests flag are those left by lines 181-217; what is printed
    afterwards is added behind; the filesystem is not touched. *)
Lemma validate_input_ok (build_args : BuildArgs) (w : World) :
  ∃ wp wq es w',
    validate_plugins build_args wp = Ok () wq
    ∧ validate_input build_args w = Ok () w'
    ∧ plugins (CTX w') = plugins (CTX wq)
    ∧ build_tests (CTX w') = build_tests (CTX wq)
    ∧ trace w' = trace wq ++ es
    ∧ fs w' = fs w
    ∧ dom (build_actions (CTX w')) = dom initial_build_actions
    ∧ dom (clean_actions (CTX w')) = dom initial_clean_actions.
Proof.
  unfold validate_input, mbind, M_bind. unfold emit at 1.
  destruct (validate_build_actions_ok build_args
              (add_trace [SectionHeading "Validate Input"] w))
    as (d1 & es1 & -> & Hd1).
  match goal with |- context [validate_platforms ?a ?w0] =>
    destruct (validate_platforms_ok a w0) as (d2 & es2 & -> & Hd2) end.
  destruct (resolve_tokens true PluginID_ALL None (arg_plugin_list build_args)
              initial_plugins false) as [[d v] u] eqn:Hres.
  match goal with |- context [validate_plugins ?a ?w0] =>
    destruct (validate_plugins_result a w0 d v u Hres) as (b & Hb & Hvp) end.
  cbv zeta in Hvp. rewrite Hvp.
  match goal with |- context [validate_clean_actions ?a ?w0] =>
    destruct (validate_clean_actions_ok a w0) as (d4 & es4 & -> & Hd4) end.
  rewrite validate_unity_install_root_cases.
  match type of Hvp with validate_plugins _ ?w0 = _ => exists w0 end.
  destruct (Path_is_dir _ _); eexists _, es4, _; (split; [exact Hvp|]);
    simpl; repeat split; done.
Qed.

Lemma initial_plugins_false (k : string) (b : bool) :
  initial_plugins !! k = Some b → b = false.
Proof.
  unfold initial_plugins. intros H.
  repeat (apply lookup_insert_Some in H as [[_ H]|[_ H]]; [done|]).
  by rewrite lookup_empty in H.
Qed.

Lemma initial_plugins_member (k : string) :
  k ∈ plugin_keys → initial_plugins !! k = Some false.
Proof.
  intros Hk%initial_plugins_dom%elem_of_dom. destruct Hk as [b Hb].
  by rewrite Hb, (initial_plugins_false k b Hb).
Qed.

Lemma core_is_plugin_key : PluginID_CORE ∈ plugin_keys.
Proof. unfold plugin_keys. set_solver. Qed.

Lemma accessibility_is_plugin_key : PluginID_ACCESSIBILITY ∈ plugin_keys.
Proof. unfold plugin_keys. set_solver. Qed.

Lemma validate_plugins_tests (build_args : BuildArgs) (wp wq : World) :
  arg_build_tests build_args = true →
  validate_plugins build_args wp = Ok () wq →
  plugins (CTX wq) !! PluginID_CORE = Some true
  ∧ (arg_plugin_list build_args = [PluginID_ACCESSIBILITY] →
     plugins (CTX wq) !! PluginID_ACCESSIBILITY = Some true
     ∧ (PluginID_ACCESSIBILITY ≠ PluginID_CORE →
        InfoMessage core_dependency_info ∈ trace wq))
  ∧ (PluginID_CORE ∉ arg_plugin_list build_args →
     PluginID_ALL ∉ arg_plugin_list build_args →
     InfoMessage core_dependency_info ∈ trace wq).
Proof.
  intros Htests Hrun.
  destruct (resolve_tokens true PluginID_ALL None (arg_plugin_list build_args)
              initial_plugins false) as [[d v] u] eqn:Hres.
  destruct (validate_plugins_result build_args wp d v u Hres) as (b & Hb & Hvp).
  cbv zeta in Hvp. rewrite Hrun, Htests in Hvp. simpl in Hvp.
  injection Hvp as ->. simpl.
  assert (∀ d', d' !! PluginID_CORE = Some true →
            (if v then d' else dict_fill true d') !! PluginID_CORE = Some true)
    as Hfill.
  { intros d' Hd'. destruct v; [done|]. by rewrite dict_fill_lookup, Hd'. }
  split; [|split].
  - apply Hfill. destruct b; simpl; [done|]. by rewrite lookup_insert_eq.
  - intros Htokens. rewrite Htokens in Hres. simpl in Hres.
    unfold classify in Hres.
    rewrite (proj2 (dict_contains_true initial_plugins PluginID_ACCESSIBILITY))
      in Hres
      by (apply initial_plugins_dom, accessibility_is_plugin_key).
    injection Hres as <- <- <-. split.
    + destruct b; simpl; [by rewrite lookup_insert_eq|].
      destruct (decide (PluginID_CORE = PluginID_ACCESSIBILITY)) as [->|Hne];
        [by rewrite lookup_insert_eq|].
      rewrite lookup_insert_ne by done. by rewrite lookup_insert_eq.
    + intros Hne. rewrite lookup_insert_ne in Hb by done.
      rewrite (initial_plugins_member _ core_is_plugin_key) in Hb.
      injection Hb as <-. simpl. unfold core_forced_messages. set_solver.
  - intros Hcore Hall.
    pose proof (resolve_tokens_untouched true PluginID_ALL None
                  (arg_plugin_list build_args) initial_plugins false
                  PluginID_CORE Hall) as Hsame.
    rewrite Hres in Hsame. simpl in Hsame.
    rewrite Hsame, (initial_plugins_member _ core_is_plugin_key) in Hb
      by done.
    injection Hb as <-. simpl. unfold core_forced_messages. set_solver.
Qed.

(** C4.  When tests are requested, input validation always ends with the
    Apple.Core entry of the plug-in selection true.  With the plug-in list
    [accessibility] both accessibility and core end up true, and the
    informational message about the dependency is in the output; that
    message is there whenever the token list names neither core nor ALL. *)
Theorem tests_select_core (build_args : BuildArgs) (w : World) :
  arg_build_tests build_args = true →
  ∃ w', validate_input build_args w = Ok () w'
    ∧ build_tests (CTX w') = true
    ∧ plugins (CTX w') !! PluginID_CORE = Some true
    ∧ (arg_plugin_list build_args = [PluginID_ACCESSIBILITY] →
       plugins (CTX w') !! PluginID_ACCESSIBILITY = Some true
       ∧ (PluginID_ACCESSIBILITY ≠ PluginID_CORE →
          InfoMessage core_dependency_info ∈ trace w'))
    ∧ (PluginID_CORE ∉ arg_plugin_list build_args →
       PluginID_ALL ∉ arg_plugin_list build_args →
       InfoMessage core_dependency_info ∈ trace w').
Proof.
  intros Htests.
  destruct (validate_input_ok build_args w)
    as (wp & wq & es & w' & Hvp & Hrun & Hplugins & Hbt & Htrace & _).
  destruct (validate_plugins_tests build_args wp wq Htests Hvp)
    as (Hcore & Hacc & Hinfo).
  exists w'. rewrite Hplugins, Htrace, Hbt.
  split; [done|]. split.
  { destruct (resolve_tokens true PluginID_ALL None (arg_plugin_list build_args)
                initial_plugins false) as [[d v] u] eqn:Hres.
    destruct (validate_plugins_result build_args wp d v u Hres) as (b & _ & Hvp').
    cbv zeta in Hvp'. rewrite Hvp in Hvp'. injection Hvp' as ->. done. }
  split; [done|]. split.
  - intros Htokens. destruct (Hacc Htokens) as [? Hi]. split; [done|].
    intros Hne. apply elem_of_app. left. by apply Hi.
  - intros H1 H2. apply elem_of_app. left. by apply Hinfo.
Qed.

(** C9.  With tests requested and no valid token in the plug-in list, Apple.Core
    is forced on first and the default is applied after it: every plug-in
    ends up true, and the output gains, in this order, one warning per
    token, the three messages about Apple.Core and the warning that the
    default is used. *)
Theorem no_valid_plugin_with_tests (build_args : BuildArgs) (w : World) :
  arg_build_tests build_args = true →
  Forall (λ t, (t ∉ plugin_keys) ∧ t ≠ PluginID_ALL)
    (arg_plugin_list build_args) →
  validate_plugins build_args w =
    Ok () (add_trace
             (((λ t, UtilityWarningMessage (unknown_plugin_warning t))
                 <$> arg_plugin_list build_args)
              ++ core_forced_messages
              ++ [WarningMessage no_valid_plugin_warning])
             (set_CTX
                (set_plugins
                   (dict_fill true (<[PluginID_CORE:=true]> initial_plugins))
                   (set_build_tests true (CTX w)))
                w))
  ∧ every_member true plugin_keys
      (dict_fill true (<[PluginID_CORE:=true]> initial_plugins)).
Proof.
  intros Htests Htokens. split.
  - assert (resolve_tokens true PluginID_ALL None (arg_plugin_list build_args)
              initial_plugins false
            = (initial_plugins, false, arg_plugin_list build_args)) as Hres.
    { apply resolve_tokens_unrecognized.
      eapply Forall_impl; [exact Htokens|]. intros t [Hkey Hall]. cbv beta.
      rewrite classify_plain by done.
      by rewrite (not_key_not_contained _ _ _ initial_plugins_dom Hkey). }
    destruct (validate_plugins_result build_args w _ _ _ Hres) as (b & Hb & Hvp).
    rewrite (initial_plugins_member _ core_is_plugin_key) in Hb.
    injection Hb as <-. cbv zeta in Hvp. rewrite Htests in Hvp. exact Hvp.
  - apply every_member_fill. intros k.
    rewrite dom_insert_member; [apply initial_plugins_dom|].
    apply dict_contains_true, initial_plugins_dom, core_is_plugin_key.
Qed.

(** C10.  A unity-installation-root argument that is not an existing
    directory changes nothing at all: the context, the filesystem and the
    output stay as they were.  One that is an existing directory replaces
    [unity_install_root] and nothing else. *)
Theorem unity_install_root_override (build_args : BuildArgs) (w : World) :
  (Path_is_dir (fs w) (arg_unity_installation_root build_args) = false →
   validate_unity_install_root build_args w = Ok () w)
  ∧ (Path_is_dir (fs w) (arg_unity_installation_root build_args) = true →
     validate_unity_install_root build_args w =
     Ok () (set_CTX (set_unity_install_root
                       (arg_unity_installation_root build_args) (CTX w)) w)).
Proof.
  rewrite validate_unity_install_root_cases.
  split; intros ->; done.
Qed.

(** C5.  A token that is neither a key of the dictionary nor a sentinel of
    the axis makes the loop emit one warning and go on with the next token,
    the "valid token found" flag unchanged; the warning names every valid
    option; and input validation as a whole never raises, whatever the
    token lists are.  The plug-in loop warns through [utility.WarningMessage]. *)
Theorem unrecognized_token_only_warns (token valid_option : string)
    (rest : list string) (valid : bool) (build_args : BuildArgs) (w : World) :
  (token ∉ dom (build_actions (CTX w)) →
   token ≠ BuildActionID_ALL → token ≠ BuildActionID_NONE →
   build_actions_loop (token :: rest) valid w =
   build_actions_loop rest valid
     (add_trace [WarningMessage (unknown_build_action_warning token)] w))
  ∧ (token ∉ dom (platforms (CTX w)) → token ≠ PlatformID_ALL →
     platforms_loop (token :: rest) valid w =
     platforms_loop rest valid
       (add_trace [WarningMessage (unknown_platform_warning token)] w))
  ∧ (token ∉ dom (plugins (CTX w)) → token ≠ PluginID_ALL →
     plugins_loop (token :: rest) valid w =
     plugins_loop rest valid
       (add_trace [UtilityWarningMessage (unknown_plugin_warning token)] w))
  ∧ (token ∉ dom (clean_actions (CTX w)) →
     token ≠ CleanActionID_ALL → token ≠ CleanActionID_NONE →
     clean_actions_loop (token :: rest) valid w =
     clean_actions_loop rest valid
       (add_trace [WarningMessage (unknown_clean_action_warning token)] w))
  ∧ (valid_option ∈ [BuildActionID_BUILD; BuildActionID_PACK; BuildActionID_ALL;
               BuildActionID_NONE] →
     occurs_in valid_option (unknown_build_action_warning token))
  ∧ (valid_option ∈ [PlatformID_IOS; PlatformID_MACOS; PlatformID_TVOS;
               PlatformID_ALL] →
     occurs_in valid_option (unknown_platform_warning token))
  ∧ (valid_option ∈ [PluginID_ACCESSIBILITY; PluginID_CORE; PluginID_CORE_HAPTICS;
               PluginID_GAME_CONTROLLER; PluginID_GAME_KIT; PluginID_PHASE;
               PluginID_ALL] →
     occurs_in valid_option (unknown_plugin_warning token))
  ∧ (valid_option ∈ [CleanActionID_NATIVE; CleanActionID_PACKAGES;
               CleanActionID_TESTS; CleanActionID_ALL; CleanActionID_NONE] →
     occurs_in valid_option (unknown_clean_action_warning token))
  ∧ (∃ w', validate_input build_args w = Ok () w').
Proof.
  split; [apply build_actions_loop_skip|].
  split; [apply platforms_loop_skip|].
  split; [apply plugins_loop_skip|].
  split; [apply clean_actions_loop_skip|].
  destruct (unknown_warnings_name_options token valid_option) as (H1 & H2 & H3 & H4).
  do 4 (split; [done|]).
  destruct (validate_input_ok build_args w) as (? & ? & ? & w' & _ & Hrun & _).
  by exists w'.
Qed.

(** ** Build paths *)

(** C8.  After input validation, when the build-output path does not
    exist, lines 261-266 only record the path in [CTX.build_path]: they
    return normally, and the filesystem and the output, hence the list of
    collaborator calls, are what they were; no removal is asked for,
    whether "packages" was selected or not. *)
Theorem clean_packages_without_output_path (build_args : BuildArgs) (w : World) :
  Path_exists (fs w) (arg_output_path build_args) = false →
  ∃ w1, validate_input build_args w = Ok () w1
    ∧ fs w1 = fs w
    ∧ clean_packages build_args w1 =
      Ok () (set_CTX (set_build_path (arg_output_path build_args) (CTX w1)) w1).
Proof.
  intros Hmissing.
  destruct (validate_input_ok build_args w)
    as (_ & _ & _ & w1 & _ & Hrun & _ & _ & _ & Hfs & _ & Hclean).
  exists w1. split; [done|]. split; [done|].
  assert (is_Some (clean_actions (CTX w1) !! CleanActionID_PACKAGES)) as [b Hb].
  { apply elem_of_dom. rewrite Hclean. apply initial_clean_actions_dom.
    unfold clean_action_keys. set_solver. }
  unfold clean_packages. run_step. unfold dict_getitem. rewrite Hb. run_step.
  rewrite Hfs, Hmissing. by rewrite andb_false_r.
Qed.

(** ** Order of the plug-ins *)

Lemma plugin_path_list_loop_acc (fs0 : FileSystem) (listing acc : list Path) :
  plugin_path_list_loop fs0 listing acc =
  reverse (core_dirs fs0 listing) ++ acc ++ other_dirs fs0 listing.
Proof.
  revert acc. unfold core_dirs, other_dirs, plugin_dirs.
  induction listing as [|p rest IH]; intros acc.
  - simpl. by rewrite app_nil_r.
  - simpl. rewrite (filter_cons _ p rest).
    destruct (Path_is_dir fs0 p) eqn:Hdir; simpl.
    + rewrite !filter_cons. case_bool_decide as Hname.
      * rewrite decide_True by done. rewrite decide_False by (by intros []).
        rewrite IH, reverse_cons. by rewrite <- !app_assoc.
      * rewrite decide_False by done. rewrite decide_True by done.
        rewrite IH. by rewrite <- !app_assoc.
    + apply IH.
Qed.

Lemma children_NoDup (fs0 : FileSystem) (root : Path) :
  NoDup fs0.*1 → NoDup (fs_children fs0 root).
Proof.
  unfold fs_children. induction fs0 as [|[q k] rest IH]; [done|].
  csimpl. intros [Hq Hrest]%NoDup_cons. rewrite filter_cons.
  destruct (decide _); [|by apply IH].
  csimpl. apply NoDup_cons. split; [|by apply IH].
  intros Hin. apply Hq.
  apply list_elem_of_fmap in Hin as ([q' k'] & Heq & Hin).
  apply list_elem_of_filter in Hin as [_ Hin].
  apply list_elem_of_fmap. by exists (q', k').
Qed.

Lemma child_named (fs0 : FileSystem) (root p : Path) (name : string) :
  p ∈ fs_children fs0 root → Path_name p = name → p = Path_joinpath root name.
Proof.
  unfold fs_children. intros Hin Hname.
  apply list_elem_of_fmap in Hin as ([q k] & -> & Hin).
  apply list_elem_of_filter in Hin as [[Hne Hparent] _]. simpl in *.
  unfold Path_joinpath, Path_parent, Path_name in *.
  by rewrite (app_removelast_last "" Hne), Hparent, Hname.
Qed.

Lemma dir_is_child (fs0 : FileSystem) (root : Path) (name : string) :
  Path_is_dir fs0 (Path_joinpath root name) = true →
  Path_joinpath root name ∈ fs_children fs0 root.
Proof.
  unfold Path_is_dir, path_kind, Path_joinpath. intros Hdir.
  apply bool_decide_eq_true in Hdir.
  destruct (root ++ [name]) as [|x l] eqn:Hpath; [by destruct root|].
  rewrite <- Hpath in *. clear x l Hpath.
  unfold fs_children. induction fs0 as [|[q k] rest IH]; [done|].
  simpl in Hdir. rewrite filter_cons. destruct (decide (q = root ++ [name])) as [->|Hq].
  - rewrite decide_True; [csimpl; by left|].
    simpl. split; [by destruct root|]. apply removelast_last.
  - destruct (decide _); [csimpl; right|]; by apply IH.
Qed.

Lemma singleton_of_NoDup {A} (l : list A) (c : A) :
  NoDup l → (∀ x, x ∈ l → x = c) → c ∈ l → l = [c].
Proof.
  intros Hnd Hall Hc. destruct l as [|a [|b l]].
  - by apply elem_of_nil in Hc.
  - f_equal. apply Hall. by left.
  - exfalso. apply NoDup_cons in Hnd as [Ha _].
    apply Ha. rewrite (Hall a), (Hall b); [by left|right; by left|by left].
Qed.

Lemma core_dirs_of_children (fs0 : FileSystem) (root : Path) :
  NoDup fs0.*1 →
  core_dirs fs0 (fs_children fs0 root) =
  if Path_is_dir fs0 (Path_joinpath root "Apple.Core")
  then [Path_joinpath root "Apple.Core"] else [].
Proof.
  intros Hnd. unfold core_dirs, plugin_dirs.
  destruct (Path_is_dir fs0 (Path_joinpath root "Apple.Core")) eqn:Hdir.
  - apply singleton_of_NoDup.
    + do 2 apply NoDup_filter. by apply children_NoDup.
    + intros p [Hname [_ Hin]%list_elem_of_filter]%list_elem_of_filter.
      by apply (child_named fs0 root).
    + apply list_elem_of_filter. split.
      { unfold Path_name, Path_joinpath. apply last_last. }
      apply list_elem_of_filter. split; [done|]. by apply dir_is_child.
  - destruct (filter _ _) as [|p l] eqn:Hfilter; [done|]. exfalso.
    assert (p ∈ filter (λ p, Path_name p = "Apple.Core")
                  (filter (λ p, Path_is_dir fs0 p = true) (fs_children fs0 root)))
      as Hp by (rewrite Hfilter; by left).
    apply list_elem_of_filter in Hp as [Hname [Hd Hin]%list_elem_of_filter].
    rewrite (child_named fs0 root p _ Hin Hname) in Hd. congruence.
Qed.

Lemma process_plugins_loop_calls (plugin_path_list : list Path) (w : World) :
  (∀ p ctx fs0, ∃ fs', collaborator (ProcessNativeUnityPlugin p) ctx fs0 = inr fs') →
  ∃ w', process_plugins_loop plugin_path_list w = Ok () w'
    ∧ CTX w' = CTX w
    ∧ trace w' =
      trace w ++ ((λ p, Called (ProcessNativeUnityPlugin p)) <$> plugin_path_list).
Proof.
  intros Hreturns. revert w.
  induction plugin_path_list as [|p rest IH]; intros w.
  - exists w. simpl. by rewrite app_nil_r.
  - simpl. unfold call. run_step.
    destruct (Hreturns p (CTX w) (fs w)) as [fs' ->]. simpl.
    match goal with |- context [process_plugins_loop rest ?w0] =>
      destruct (IH w0) as (w' & -> & Hctx & Htrace) end.
    exists w'. split; [done|]. split; [done|].
    rewrite Htrace. simpl. by rewrite <- app_assoc.
Qed.

(** C7.  The processing order computed from a directory listing is: the
    directories named Apple.Core, then every other directory in the order
    of the listing (files are left out).  For the listing of the plug-in
    root of a filesystem there is at most one Apple.Core, so that when it
    is a directory it comes first, followed by the others in scan order, and
    when it is not the order is the scan order.  When each call to
    ProcessNativeUnityPlugin returns, the plug-in manager is called once
    per entry of that list, in that order. *)
Theorem core_plugin_is_processed_first (fs0 : FileSystem) (root : Path)
    (listing : list Path) (w : World) :
  plugin_path_list_loop fs0 listing [] =
    reverse (core_dirs fs0 listing) ++ other_dirs fs0 listing
  ∧ (NoDup fs0.*1 →
     plugin_path_list_loop fs0 (fs_children fs0 root) [] =
       (if Path_is_dir fs0 (Path_joinpath root "Apple.Core")
        then [Path_joinpath root "Apple.Core"] else [])
       ++ other_dirs fs0 (fs_children fs0 root))
  ∧ ((∀ p ctx fs1, ∃ fs', collaborator (ProcessNativeUnityPlugin p) ctx fs1 = inr fs') →
     ∃ w', process_plugins_loop (plugin_path_list_loop fs0 listing []) w = Ok () w'
       ∧ trace w' =
         trace w ++ ((λ p, Called (ProcessNativeUnityPlugin p))
                       <$> plugin_path_list_loop fs0 listing [])).
Proof.
  split; [by rewrite plugin_path_list_loop_acc|]. split.
  - intros Hnd. rewrite plugin_path_list_loop_acc, core_dirs_of_children by done.
    simpl. by destruct (Path_is_dir _ _).
  - intros Hreturns.
    destruct (process_plugins_loop_calls (plugin_path_list_loop fs0 listing []) w
                Hreturns) as (w' & Hrun & _ & Htrace).
    by exists w'.
Qed.

(** ** Tests and packages without a native build *)

(** The local [unity_plugin_manager] is bound inside the branch of the
    build action only: without that action, the first use of the name
    raises, right after the section heading was printed. *)
Lemma run_phases_without_build (build_args : BuildArgs) (w : World) :
  build_actions (CTX w) !! BuildActionID_BUILD = Some false →
  (build_tests (CTX w) = true →
   run_phases build_args w =
   Raise (UnboundLocalError "unity_plugin_manager")
     (add_trace [SectionHeading "Build Unity Tests"] w))
  ∧ (build_tests (CTX w) = false →
     build_actions (CTX w) !! BuildActionID_PACK = Some true →
     run_phases build_args w =
     Raise (UnboundLocalError "unity_plugin_manager")
       (add_trace [SectionHeading "Create Plug-In Packages"] w)).
Proof.
  intros Hbuild. unfold run_phases, dict_getitem. run_step. rewrite Hbuild.
  run_step. split.
  - intros ->. done.
  - intros -> ->. done.
Qed.

(** ** The directory of a test run *)

Lemma is_dir_exists (fs0 : FileSystem) (p : Path) :
  Path_is_dir fs0 p = true → Path_exists fs0 p = true.
Proof.
  unfold Path_is_dir, Path_exists. intros H%bool_decide_eq_true.
  apply bool_decide_eq_true. rewrite H. by eexists.
Qed.

(** Lines 290-298 look at [CTX.test_build_root] only: when it is a
    directory, the timestamped directory is made below it, whatever
    [-to] says; if that directory is already there, [mkdir] raises. *)
Lemma prepare_test_build_under_context_root (build_args : BuildArgs)
    (invocation_time_string : string) (w : World) :
  let run_path := Path_joinpath (test_build_root (CTX w))
                    ("TestBuild_" +:+ invocation_time_string) in
  build_tests (CTX w) = true →
  Path_is_dir (fs w) (test_build_root (CTX w)) = true →
  prepare_test_build build_args invocation_time_string w =
  if Path_exists (fs w) run_path
  then Raise (FileExistsError run_path)
         (set_CTX (set_test_build_output_path run_path (CTX w)) w)
  else Ok () (set_fs (fs w ++ [(run_path, Directory)])
                (set_CTX (set_test_build_output_path run_path (CTX w)) w)).
Proof.
  intros run_path Htests Hdir.
  unfold prepare_test_build, Path_mkdir. run_step.
  rewrite Htests, (is_dir_exists _ _ Hdir). run_step. fold run_path.
  destruct (Path_exists (fs w) run_path); [done|].
  unfold run_path at 1, Path_joinpath, Path_parent. rewrite removelast_last.
  unfold Path_is_dir in Hdir. apply bool_decide_eq_true in Hdir.
  by rewrite Hdir.
Qed.

(** ** Sentinels *)

Lemma build_actions_all_wins (pre post : list string) (w : World) :
  BuildActionID_ALL ∉ build_action_keys → BuildActionID_NONE ∉ pre →
  sentinel_wins_on resolve_build_actions build_actions build_action_keys
    BuildActionID_ALL true pre post w.
Proof.
  intros Hall Hnone. unfold sentinel_wins_on.
  pose proof (not_key_not_contained _ _ _ initial_build_actions_dom Hall) as Hkey.
  destruct (resolve_tokens_all_wins true BuildActionID_ALL
              (Some BuildActionID_NONE) pre post initial_build_actions false)
    as [u Hu]; [done| by intros n [= <-] |].
  rewrite !resolve_build_actions_fold.
  rewrite <- (resolve_tokens_after_sentinel _ _ _ pre post);
    [|left; by apply classify_all].
  rewrite Hu. eexists. split; [done|]. split; [|done].
  simpl. apply every_member_fill, initial_build_actions_dom.
Qed.

Lemma clean_actions_all_wins (pre post : list string) (w : World) :
  CleanActionID_ALL ∉ clean_action_keys → CleanActionID_NONE ∉ pre →
  sentinel_wins_on resolve_clean_actions clean_actions clean_action_keys
    CleanActionID_ALL true pre post w.
Proof.
  intros Hall Hnone. unfold sentinel_wins_on.
  pose proof (not_key_not_contained _ _ _ initial_clean_actions_dom Hall) as Hkey.
  destruct (resolve_tokens_all_wins true CleanActionID_ALL
              (Some CleanActionID_NONE) pre post initial_clean_actions false)
    as [u Hu]; [done| by intros n [= <-] |].
  rewrite !resolve_clean_actions_fold.
  rewrite <- (resolve_tokens_after_sentinel _ _ _ pre post);
    [|left; by apply classify_all].
  rewrite Hu. eexists. split; [done|]. split; [|done].
  simpl. apply every_member_fill, initial_clean_actions_dom.
Qed.

Lemma plugins_all_wins (pre post : list string) (w : World) :
  PluginID_ALL ∉ plugin_keys →
  sentinel_wins_on resolve_plugins plugins plugin_keys
    PluginID_ALL true pre post w.
Proof.
  intros Hall. unfold sentinel_wins_on.
  pose proof (not_key_not_contained _ _ _ initial_plugins_dom Hall) as Hkey.
  destruct (resolve_tokens_all_wins true PluginID_ALL None pre post
              initial_plugins false) as [u Hu]; [done|done|].
  rewrite !resolve_plugins_fold.
  rewrite <- (resolve_tokens_after_sentinel _ _ _ pre post);
    [|left; by apply classify_all].
  rewrite Hu. eexists. split; [done|]. split; [|done].
  simpl. apply every_member_fill, initial_plugins_dom.
Qed.

Lemma platforms_all_wins (pre post : list string) (w : World) :
  sentinel_wins_on resolve_platforms platforms platform_keys
    PlatformID_ALL true pre post w.
Proof.
  unfold sentinel_wins_on.
  destruct (resolve_tokens_all_wins false PlatformID_ALL None pre post
              initial_platforms false) as [u Hu]; [done|done|].
  rewrite !resolve_platforms_fold.
  rewrite <- (resolve_tokens_after_sentinel _ _ _ pre post);
    [|left; by apply classify_all].
  rewrite Hu. eexists. split; [done|]. split; [|done].
  simpl. apply every_member_fill, initial_platforms_dom.
Qed.

Lemma build_actions_none_wins (pre post : list string) (w : World) :
  BuildActionID_NONE ∉ build_action_keys →
  BuildActionID_ALL ≠ BuildActionID_NONE → BuildActionID_ALL ∉ pre →
  sentinel_wins_on resolve_build_actions build_actions build_action_keys
    BuildActionID_NONE false pre post w.
Proof.
  intros Hnone Hne Hall. unfold sentinel_wins_on.
  pose proof (not_key_not_contained _ _ _ initial_build_actions_dom Hnone) as Hkey.
  destruct (resolve_tokens_none_wins true BuildActionID_ALL
              (Some BuildActionID_NONE) pre post BuildActionID_NONE
              initial_build_actions false)
    as [u Hu]; [done|done|done|done|].
  rewrite !resolve_build_actions_fold.
  rewrite <- (resolve_tokens_after_sentinel _ _ _ pre post);
    [|right; by apply classify_none].
  rewrite Hu. eexists. split; [done|]. split; [|done].
  simpl. apply every_member_fill, initial_build_actions_dom.
Qed.

Lemma clean_actions_none_wins (pre post : list string) (w : World) :
  CleanActionID_NONE ∉ clean_action_keys →
  CleanActionID_ALL ≠ CleanActionID_NONE → CleanActionID_ALL ∉ pre →
  sentinel_wins_on resolve_clean_actions clean_actions clean_action_keys
    CleanActionID_NONE false pre post w.
Proof.
  intros Hnone Hne Hall. unfold sentinel_wins_on.
  pose proof (not_key_not_contained _ _ _ initial_clean_actions_dom Hnone) as Hkey.
  destruct (resolve_tokens_none_wins true CleanActionID_ALL
              (Some CleanActionID_NONE) pre post CleanActionID_NONE
              initial_clean_actions false)
    as [u Hu]; [done|done|done|done|].
  rewrite !resolve_clean_actions_fold.
  rewrite <- (resolve_tokens_after_sentinel _ _ _ pre post);
    [|right; by apply classify_none].
  rewrite Hu. eexists. split; [done|]. split; [|done].
  simpl. apply every_member_fill, initial_clean_actions_dom.
Qed.

(** C6.  On every axis, a token list with the ALL sentinel in it, and on
    the two axes that know NONE no NONE in front of that ALL, resolves to
    every member true with the axis marked valid, and the tokens after the
    ALL are ignored: the loop behaves as if the list ended at the ALL.  The
    loops that test membership first need ALL not to be a member itself. *)
Theorem all_sentinel_selects_every_member (pre post : list string) (w : World) :
  sentinel_wins_on resolve_platforms platforms platform_keys
    PlatformID_ALL true pre post w
  ∧ (PluginID_ALL ∉ plugin_keys →
     sentinel_wins_on resolve_plugins plugins plugin_keys
       PluginID_ALL true pre post w)
  ∧ (BuildActionID_ALL ∉ build_action_keys → BuildActionID_NONE ∉ pre →
     sentinel_wins_on resolve_build_actions build_actions build_action_keys
       BuildActionID_ALL true pre post w)
  ∧ (CleanActionID_ALL ∉ clean_action_keys → CleanActionID_NONE ∉ pre →
     sentinel_wins_on resolve_clean_actions clean_actions clean_action_keys
       CleanActionID_ALL true pre post w).
Proof.
  split; [apply platforms_all_wins|].
  split; [apply plugins_all_wins|].
  split; [apply build_actions_all_wins|apply clean_actions_all_wins].
Qed.

(** C2, as the code has it.  On the build-action and clean-action axes the
    first sentinel of the list decides and nothing after it is looked at:
    [member; NONE; ALL] and [NONE; member] both leave every member false,
    and in general a list whose first sentinel is ALL leaves every member
    true, one whose first sentinel is NONE leaves every member false. *)
Theorem first_sentinel_wins (member : string) (pre post : list string) (w : World) :
  (BuildActionID_ALL ∉ build_action_keys →
   BuildActionID_NONE ∉ build_action_keys →
   BuildActionID_ALL ≠ BuildActionID_NONE →
   member ∈ build_action_keys →
   sentinel_wins_on resolve_build_actions build_actions build_action_keys
     BuildActionID_NONE false [member] [BuildActionID_ALL] w
   ∧ sentinel_wins_on resolve_build_actions build_actions build_action_keys
       BuildActionID_NONE false [] [member] w
   ∧ (BuildActionID_ALL ∉ pre → BuildActionID_NONE ∉ pre →
      sentinel_wins_on resolve_build_actions build_actions build_action_keys
        BuildActionID_ALL true pre post w
      ∧ sentinel_wins_on resolve_build_actions build_actions build_action_keys
          BuildActionID_NONE false pre post w))
  ∧ (CleanActionID_ALL ∉ clean_action_keys →
     CleanActionID_NONE ∉ clean_action_keys →
     CleanActionID_ALL ≠ CleanActionID_NONE →
     member ∈ clean_action_keys →
     sentinel_wins_on resolve_clean_actions clean_actions clean_action_keys
       CleanActionID_NONE false [member] [CleanActionID_ALL] w
     ∧ sentinel_wins_on resolve_clean_actions clean_actions clean_action_keys
         CleanActionID_NONE false [] [member] w
     ∧ (CleanActionID_ALL ∉ pre → CleanActionID_NONE ∉ pre →
        sentinel_wins_on resolve_clean_actions clean_actions clean_action_keys
          CleanActionID_ALL true pre post w
        ∧ sentinel_wins_on resolve_clean_actions clean_actions clean_action_keys
            CleanActionID_NONE false pre post w)).
Proof.
  split.
  - intros Hall Hnone Hne Hmember.
    assert (BuildActionID_ALL ∉ [member]) by set_solver.
    split; [by apply build_actions_none_wins|].
    split; [apply build_actions_none_wins; [done|done|set_solver]|].
    intros Hpre_all Hpre_none.
    split; [by apply build_actions_all_wins|by apply build_actions_none_wins].
  - intros Hall Hnone Hne Hmember.
    assert (CleanActionID_ALL ∉ [member]) by set_solver.
    split; [by apply clean_actions_none_wins|].
    split; [apply clean_actions_none_wins; [done|done|set_solver]|].
    intros Hpre_all Hpre_none.
    split; [by apply clean_actions_all_wins|by apply clean_actions_none_wins].
Qed.

End Loops.

(** * Runs on explicit inputs *)

Section Examples.
Local Existing Instance example_ids.
Local Existing Instance example_collaborators.

(** Settles a disequality of two concrete strings. *)
Ltac differ := let H := fresh in intros H; vm_compute in H; discriminate H.

(** Settles that a concrete string is not in a concrete list. *)
Ltac absent := vm_compute; set_solver.

(** C1, at two inputs.  With [-b NONE -t] the run stops with an
    UnboundLocalError on [unity_plugin_manager] before BuildTests is called;
    with [-b pack] it stops the same way before GeneratePlugInPackages is
    called.  In both runs no collaborator was called at all. *)
Theorem tests_or_pack_without_build_raise :
  (∃ w', Main example_tests_only_args example_time example_world
         = Raise (UnboundLocalError "unity_plugin_manager") w'
     ∧ calls_of (trace w') = [])
  ∧ (∃ w', Main example_pack_only_args example_time example_world
           = Raise (UnboundLocalError "unity_plugin_manager") w'
       ∧ calls_of (trace w') = []).
Proof.
  split; eexists; (split; [vm_compute; reflexivity|]); vm_compute; reflexivity.
Qed.

(** C2 fails as stated: on the build-action axis [build; NONE; ALL] leaves
    every member false, not true. *)
Lemma member_none_all_is_not_all_true :
  ∃ w', resolve_build_actions ["build"; "NONE"; "ALL"] example_world = Ok true w'
    ∧ build_actions (CTX w') !! "build" = Some false
    ∧ build_actions (CTX w') !! "pack" = Some false
    ∧ ¬ every_member true build_action_keys (build_actions (CTX w')).
Proof.
  eexists. split; [vm_compute; reflexivity|].
  split; [vm_compute; reflexivity|]. split; [vm_compute; reflexivity|].
  intros H. specialize (H "build"). vm_compute in H. discriminate H.
Qed.

(** C2 as amended, on the concrete vocabulary. *)
Lemma first_sentinel_wins_witness :
  sentinel_wins_on resolve_build_actions build_actions build_action_keys
    BuildActionID_NONE false ["build"] [BuildActionID_ALL] example_world
  ∧ sentinel_wins_on resolve_build_actions build_actions build_action_keys
      BuildActionID_NONE false [] ["build"] example_world
  ∧ sentinel_wins_on resolve_build_actions build_actions build_action_keys
      BuildActionID_ALL true ["pack"; "bogus"] ["NONE"] example_world
  ∧ sentinel_wins_on resolve_clean_actions clean_actions clean_action_keys
      CleanActionID_NONE false ["tests"] [CleanActionID_ALL] example_world.
Proof.
  destruct (first_sentinel_wins "build" ["pack"; "bogus"] ["NONE"] example_world)
    as [Hbuild _].
  destruct (first_sentinel_wins "tests" [] [] example_world) as [_ Hclean].
  destruct Hbuild as (H1 & H2 & H3); [absent|absent|differ|vm_compute; set_solver|].
  destruct Hclean as (H4 & _); [absent|absent|differ|vm_compute; set_solver|].
  destruct H3 as [H3 _]; [absent|absent|].
  exact (conj H1 (conj H2 (conj H3 H4))).
Defined.

(** C4 on [-t -p accessibility]. *)
Lemma tests_select_core_witness :
  ∃ w', validate_input example_tests_accessibility_args example_world = Ok () w'
    ∧ plugins (CTX w') !! "accessibility" = Some true
    ∧ plugins (CTX w') !! "core" = Some true
    ∧ InfoMessage core_dependency_info ∈ trace w'.
Proof.
  destruct (tests_select_core example_tests_accessibility_args example_world eq_refl)
    as (w' & Hrun & _ & Hcore & Hacc & _).
  destruct (Hacc eq_refl) as [Ha Hinfo].
  exists w'. split; [exact Hrun|]. split; [exact Ha|]. split; [exact Hcore|].
  apply Hinfo. differ.
Defined.

(** C5 on the token [bogus], in the world left by input validation. *)
Lemma unrecognized_token_only_warns_witness :
  build_actions_loop ["bogus"; "pack"] false example_validated_world
  = build_actions_loop ["pack"] false
      (add_trace [WarningMessage (unknown_build_action_warning "bogus")]
         example_validated_world)
  ∧ platforms_loop ["bogus"; "ios"] false example_validated_world
    = platforms_loop ["ios"] false
        (add_trace [WarningMessage (unknown_platform_warning "bogus")]
           example_validated_world)
  ∧ plugins_loop ["bogus"; "core"] false example_validated_world
    = plugins_loop ["core"] false
        (add_trace [UtilityWarningMessage (unknown_plugin_warning "bogus")]
           example_validated_world)
  ∧ clean_actions_loop ["bogus"; "tests"] false example_validated_world
    = clean_actions_loop ["tests"] false
        (add_trace [WarningMessage (unknown_clean_action_warning "bogus")]
           example_validated_world)
  ∧ occurs_in "pack" (unknown_build_action_warning "bogus").
Proof.
  assert (∀ d : gmap string bool, d !! "bogus" = None → "bogus" ∉ dom d)
    as Hdom by (intros d; apply not_elem_of_dom).
  split; [|split; [|split; [|split]]].
  - apply (unrecognized_token_only_warns "bogus" "pack" ["pack"] false
             example_args example_validated_world);
      [apply Hdom; vm_compute; reflexivity|differ|differ].
  - apply (unrecognized_token_only_warns "bogus" "pack" ["ios"] false
             example_args example_validated_world);
      [apply Hdom; vm_compute; reflexivity|differ].
  - apply (unrecognized_token_only_warns "bogus" "pack" ["core"] false
             example_args example_validated_world);
      [apply Hdom; vm_compute; reflexivity|differ].
  - apply (unrecognized_token_only_warns "bogus" "pack" ["tests"] false
             example_args example_validated_world);
      [apply Hdom; vm_compute; reflexivity|differ|differ].
  - apply (unrecognized_token_only_warns "bogus" "pack" [] false
             example_args example_validated_world).
    vm_compute. set_solver.
Defined.

(** C6 on token lists with ALL in the middle. *)
Lemma all_sentinel_selects_every_member_witness :
  sentinel_wins_on resolve_platforms platforms platform_keys
    PlatformID_ALL true ["bogus"] ["more"] example_world
  ∧ sentinel_wins_on resolve_plugins plugins plugin_keys
      PluginID_ALL true ["bogus"] ["more"] example_world
  ∧ sentinel_wins_on resolve_build_actions build_actions build_action_keys
      BuildActionID_ALL true ["bogus"] ["more"] example_world
  ∧ sentinel_wins_on resolve_clean_actions clean_actions clean_action_keys
      CleanActionID_ALL true ["bogus"] ["more"] example_world.
Proof.
  destruct (all_sentinel_selects_every_member ["bogus"] ["more"] example_world)
    as (H1 & H2 & H3 & H4).
  split; [exact H1|]. split; [apply H2; absent|].
  split; [apply H3; absent|apply H4; absent].
Defined.

(** C7 on the example tree: Apple.GameKit is scanned first, Apple.Core is
    processed first. *)
Lemma core_plugin_is_processed_first_witness :
  plugin_path_list_loop example_fs
    (fs_children example_fs ["repo"; "plug-ins"]) []
  = [["repo"; "plug-ins"; "Apple.Core"];
     ["repo"; "plug-ins"; "Apple.GameKit"];
     ["repo"; "plug-ins"; "Apple.PHASE"]]
  ∧ ∃ w', process_plugins_loop
            (plugin_path_list_loop example_fs
               (fs_children example_fs ["repo"; "plug-ins"]) [])
            example_world = Ok () w'
      ∧ calls_of (trace w')
        = [ProcessNativeUnityPlugin ["repo"; "plug-ins"; "Apple.Core"];
           ProcessNativeUnityPlugin ["repo"; "plug-ins"; "Apple.GameKit"];
           ProcessNativeUnityPlugin ["repo"; "plug-ins"; "Apple.PHASE"]].
Proof.
  destruct (core_plugin_is_processed_first example_fs ["repo"; "plug-ins"]
              (fs_children example_fs ["repo"; "plug-ins"]) example_world)
    as (_ & Horder & Hcalls).
  split.
  - rewrite Horder; [vm_compute; reflexivity|].
    apply (bool_decide_unpack (NoDup example_fs.*1)). vm_compute. exact I.
  - destruct Hcalls as (w' & Hrun & Htrace).
    + intros p ctx fs1. by exists fs1.
    + exists w'. split; [exact Hrun|]. rewrite Htrace. vm_compute. reflexivity.
Defined.

(** C8 on [-k packages] with no Build folder. *)
Lemma clean_packages_without_output_path_witness :
  ∃ w1, validate_input example_clean_packages_args example_world = Ok () w1
    ∧ fs w1 = fs example_world
    ∧ clean_packages example_clean_packages_args w1 =
      Ok () (set_CTX (set_build_path
                        (arg_output_path example_clean_packages_args) (CTX w1)) w1).
Proof.
  apply (clean_packages_without_output_path example_clean_packages_args
           example_world).
  vm_compute. reflexivity.
Defined.

(** C9 on [-t -p bogus nope]. *)
Lemma no_valid_plugin_with_tests_witness :
  validate_plugins example_tests_unknown_plugins_args example_world =
    Ok () (add_trace
             ([UtilityWarningMessage (unknown_plugin_warning "bogus");
               UtilityWarningMessage (unknown_plugin_warning "nope")]
              ++ core_forced_messages
              ++ [WarningMessage no_valid_plugin_warning])
             (set_CTX
                (set_plugins
                   (dict_fill true (<[PluginID_CORE:=true]> initial_plugins))
                   (set_build_tests true (CTX example_world)))
                example_world))
  ∧ every_member true plugin_keys
      (dict_fill true (<[PluginID_CORE:=true]> initial_plugins)).
Proof.
  apply (no_valid_plugin_with_tests example_tests_unknown_plugins_args
           example_world); [reflexivity|].
  repeat constructor; first [absent | differ].
Defined.

(** C10 on a missing and on an existing directory. *)
Lemma unity_install_root_override_witness :
  validate_unity_install_root example_args example_world = Ok () example_world
  ∧ validate_unity_install_root
      (with_unity_installation_root ["repo"] example_args) example_world
    = Ok () (set_CTX (set_unity_install_root ["repo"] (CTX example_world))
               example_world).
Proof.
  split.
  - apply (proj1 (unity_install_root_override example_args example_world)).
    vm_compute. reflexivity.
  - apply (proj2 (unity_install_root_override
                    (with_unity_installation_root ["repo"] example_args)
                    example_world)).
    vm_compute. reflexivity.
Defined.

(** C3, at two inputs, both with [-t -to repo/MyTests].  When the default
    test-output root exists, the run ends normally without ever creating
    repo/MyTests, and the timestamped directory is made under the default
    root.  When the default root is missing, repo/MyTests is created, and
    the run then stops on the timestamped directory, whose parent, the
    default root, is still missing. *)
Theorem test_output_path_is_not_the_root_used :
  (∃ w', Main example_custom_test_output_args example_time
           example_world_with_test_root = Ok () w'
     ∧ Path_exists (fs w') ["repo"; "MyTests"] = false
     ∧ Path_is_dir (fs w')
         ["repo"; "TestBuilds"; "TestBuild_2024-03-07_09-05-42"] = true)
  ∧ (∃ w', Main example_custom_test_output_args example_time example_world
           = Raise (FileNotFoundError
                      ["repo"; "TestBuilds"; "TestBuild_2024-03-07_09-05-42"]) w'
       ∧ Path_is_dir (fs w') ["repo"; "MyTests"] = true
       ∧ Path_exists (fs w') ["repo"; "TestBuilds"] = false).
Proof.
  split; eexists; (split; [vm_compute; reflexivity|]);
    split; vm_compute; reflexivity.
Qed.

End Examples.

(** * What a run prints and calls *)

(** ** Rules for [emits] *)

Section EmitsRules.
Context {A B : Type} (P : Event → Prop).

Lemma emits_silent (m : M A) :
  (∀ w, trace (final_world (m w)) = trace w) → emits P m.
Proof. intros H w. exists []. by rewrite H, app_nil_r. Qed.

Lemma emits_ret (a : A) : emits P (mret a).
Proof. by apply emits_silent. Qed.

Lemma emits_raise (e : Exn) : emits P (raise e : M A).
Proof. by apply emits_silent. Qed.

Lemma emits_bind (m : M A) (f : A → M B) :
  emits P m → (∀ a, emits P (f a)) → emits P (m ≫= f).
Proof.
  intros Hm Hf w. unfold mbind, M_bind.
  destruct (Hm w) as (es1 & H1 & HP1).
  destruct (m w) as [a w1|e w1]; simpl in *.
  - destruct (Hf a w1) as (es2 & H2 & HP2).
    exists (es1 ++ es2). rewrite H2, H1, app_assoc.
    split; [done|by apply Forall_app].
  - by exists es1.
Qed.

Lemma emits_fmap (g : A → B) (m : M A) : emits P m → emits P (g <$> m).
Proof.
  intros Hm w. unfold fmap, M_fmap.
  destruct (Hm w) as (es & H & HP). exists es.
  by destruct (m w).
Qed.

End EmitsRules.

Lemma emits_get_ctx (P : Event → Prop) : emits P get_ctx.
Proof. by apply emits_silent. Qed.

Lemma emits_get_fs (P : Event → Prop) : emits P get_fs.
Proof. by apply emits_silent. Qed.

Lemma emits_modify_ctx (P : Event → Prop) (f : BuildContext → BuildContext) :
  emits P (modify_ctx f).
Proof. by apply emits_silent. Qed.

Lemma emits_put_fs (P : Event → Prop) (fs' : FileSystem) : emits P (put_fs fs').
Proof. by apply emits_silent. Qed.

Lemma emits_emit (P : Event → Prop) (e : Event) : P e → emits P (emit e).
Proof. intros He w. exists [e]. split; [done|]. by apply Forall_singleton. Qed.

Lemma emits_when (P : Event → Prop) (b : bool) (m : M ()) :
  emits P m → emits P (when b m).
Proof. intros Hm. destruct b; [done|]. apply emits_ret. Qed.

Lemma emits_dict_getitem (P : Event → Prop) (d : gmap string bool) (k : string) :
  emits P (dict_getitem d k).
Proof.
  unfold dict_getitem. destruct (d !! k); [apply emits_ret|apply emits_raise].
Qed.

Lemma emits_Path_mkdir (P : Event → Prop) (p : Path) : emits P (Path_mkdir p).
Proof.
  apply emits_silent. intros w. unfold Path_mkdir. run_step.
  destruct (Path_exists _ _); [done|].
  by destruct (path_kind _ _) as [[]|].
Qed.

Lemma emits_Path_iterdir (P : Event → Prop) (p : Path) : emits P (Path_iterdir p).
Proof.
  apply emits_silent. intros w. unfold Path_iterdir. run_step.
  by destruct (path_kind _ _) as [[]|].
Qed.

(** ** Every function of [Main] *)

(** One step of a proof of [emits]: the rule of the construct at the head. *)
Ltac emits_step :=
  lazymatch goal with
  | |- emits _ (mret _) => apply emits_ret
  | |- emits _ (raise _) => apply emits_raise
  | |- emits _ (_ ≫= _) => apply emits_bind; [|intros]
  | |- emits _ (_ <$> _) => apply emits_fmap
  | |- emits _ get_ctx => apply emits_get_ctx
  | |- emits _ get_fs => apply emits_get_fs
  | |- emits _ (modify_ctx _) => apply emits_modify_ctx
  | |- emits _ (put_fs _) => apply emits_put_fs
  | |- emits _ (when _ _) => apply emits_when
  | |- emits _ (dict_getitem _ _) => apply emits_dict_getitem
  | |- emits _ (Path_mkdir _) => apply emits_Path_mkdir
  | |- emits _ (Path_iterdir _) => apply emits_Path_iterdir
  | |- emits _ (if ?b then _ else _) => destruct b
  | |- emits _ (match ?x with _ => _ end) => destruct x
  end.

Section EmitsMain.
Context `{Ids : CliArgumentOptions} `{Ext : Collaborators}.
Variable P : Event → Prop.
Hypothesis P_output : ∀ e, (∀ c, e ≠ Called c) → P e.

Lemma emits_output (e : Event) : (∀ c, e ≠ Called c) → emits P (emit e).
Proof. intros He. by apply emits_emit, P_output. Qed.

(** Steps through a function that prints but calls no collaborator. *)
Ltac emits_quiet :=
  repeat first [ emits_step | apply emits_output; done ].

Lemma emits_print_option_summary (build_args : BuildArgs) :
  emits P (print_option_summary build_args).
Proof. unfold print_option_summary. emits_quiet. Qed.

Lemma emits_build_actions_loop (tokens : list string) (valid : bool) :
  emits P (build_actions_loop tokens valid).
Proof.
  revert valid. induction tokens as [|t rest IH]; intros valid; simpl;
    emits_quiet; apply IH.
Qed.

Lemma emits_platforms_loop (tokens : list string) (valid : bool) :
  emits P (platforms_loop tokens valid).
Proof.
  revert valid. induction tokens as [|t rest IH]; intros valid; simpl;
    emits_quiet; apply IH.
Qed.

Lemma emits_plugins_loop (tokens : list string) (valid : bool) :
  emits P (plugins_loop tokens valid).
Proof.
  revert valid. induction tokens as [|t rest IH]; intros valid; simpl;
    unfold utility_WarningMessage; emits_quiet; apply IH.
Qed.

Lemma emits_clean_actions_loop (tokens : list string) (valid : bool) :
  emits P (clean_actions_loop tokens valid).
Proof.
  revert valid. induction tokens as [|t rest IH]; intros valid; simpl;
    emits_quiet; apply IH.
Qed.

Lemma emits_validate_input (build_args : BuildArgs) :
  emits P (validate_input build_args).
Proof.
  unfold validate_input, validate_build_actions, resolve_build_actions,
    validate_platforms, resolve_platforms, validate_plugins, resolve_plugins,
    force_core_for_tests, validate_clean_actions, resolve_clean_actions,
    validate_unity_install_root.
  emits_quiet;
    first [ apply emits_build_actions_loop | apply emits_platforms_loop
          | apply emits_plugins_loop | apply emits_clean_actions_loop ].
Qed.

(** *** With collaborator calls *)

Variable build_args : BuildArgs.
Hypothesis P_remove :
  ∀ p, P (Called (RemoveFolder p (negb (arg_force_clean build_args)))).
Hypothesis P_call : ∀ c, (∀ p b, c ≠ RemoveFolder p b) → P (Called c).

Lemma emits_call (c : Call) : P (Called c) → emits P (call c).
Proof.
  intros Hc. unfold call.
  repeat first [ emits_step | by apply emits_emit ].
Qed.

Lemma emits_call_GetToolchainVersions : emits P call_GetToolchainVersions.
Proof.
  unfold call_GetToolchainVersions.
  repeat first [ emits_step | by apply emits_emit, P_call ].
Qed.

Lemma emits_call_PromptForCodesignIdentity :
  emits P call_PromptForCodesignIdentity.
Proof.
  unfold call_PromptForCodesignIdentity.
  repeat first [ emits_step | by apply emits_emit, P_call ].
Qed.

(** Steps through a function of [Main], calls included. *)
Ltac emits_run :=
  repeat first
    [ emits_step
    | apply emits_output; done
    | apply emits_call; first [ apply P_remove | by apply P_call ]
    | apply emits_call_GetToolchainVersions
    | apply emits_call_PromptForCodesignIdentity ].

Lemma emits_clean_packages : emits P (clean_packages build_args).
Proof. unfold clean_packages. emits_run. Qed.

Lemma emits_create_build_path : emits P create_build_path.
Proof. unfold create_build_path. emits_run. Qed.

Lemma emits_clean_test_players_loop (listing : list Path) :
  emits P (clean_test_players_loop build_args listing).
Proof.
  induction listing as [|p rest IH]; simpl; emits_run; apply IH.
Qed.

Lemma emits_clean_tests : emits P (clean_tests build_args).
Proof.
  unfold clean_tests. emits_run. apply emits_clean_test_players_loop.
Qed.

Lemma emits_prepare_test_build (invocation_time_string : string) :
  emits P (prepare_test_build build_args invocation_time_string).
Proof. unfold prepare_test_build. emits_run. Qed.

Lemma emits_configure_build_paths (invocation_time_string : string) :
  emits P (configure_build_paths build_args invocation_time_string).
Proof.
  unfold configure_build_paths.
  repeat first
    [ apply emits_clean_packages | apply emits_create_build_path
    | apply emits_clean_tests | apply emits_prepare_test_build
    | apply emits_output; done | emits_step ].
Qed.

Lemma emits_process_plugins_loop (plugin_path_list : list Path) :
  emits P (process_plugins_loop plugin_path_list).
Proof.
  induction plugin_path_list as [|p rest IH]; simpl; emits_run; apply IH.
Qed.

Lemma emits_build_phase : emits P (build_phase build_args).
Proof.
  unfold build_phase.
  repeat first [ apply emits_process_plugins_loop | progress emits_run ].
Qed.

Lemma emits_run_phases : emits P (run_phases build_args).
Proof.
  unfold run_phases, unity_plugin_manager_call.
  repeat first [ apply emits_build_phase | progress emits_run ].
Qed.

Lemma emits_Main (invocation_time : datetime) :
  emits P (Main build_args invocation_time).
Proof.
  unfold Main.
  repeat first
    [ apply emits_print_option_summary | apply emits_validate_input
    | apply emits_configure_build_paths | apply emits_run_phases
    | emits_step ].
Qed.

End EmitsMain.


Lemma calls_of_elem (es : list Event) (c : Call) :
  c ∈ calls_of es ↔ Called c ∈ es.
Proof.
  unfold calls_of. rewrite list_elem_of_omap. split.
  - intros (e & He & Hc). destruct e; simplify_eq. done.
  - intros He. by exists (Called c).
Qed.

Lemma calls_of_output (es : list Event) :
  Forall (λ e, ∀ c, e ≠ Called c) es → calls_of es = [].
Proof.
  intros Hes. destruct (calls_of es) as [|c l] eqn:E; [done|].
  assert (c ∈ calls_of es) as Hc by (rewrite E; by left).
  apply calls_of_elem in Hc. rewrite Forall_forall in Hes.
  by destruct (Hes _ Hc c).
Qed.

(** Two spellings of one world: unfolds the updates and compares. *)
Ltac same_world :=
  unfold add_trace, set_CTX, set_fs, set_unity_install_root, set_build_actions,
    set_platforms, set_plugins, set_clean_actions, set_simulator_build,
    set_build_tests, set_build_path, set_test_build_output_path,
    set_build_config, set_codesign_hash;
  simpl; rewrite <- ?app_assoc;
  first [reflexivity | rewrite ?app_nil_r; reflexivity].

(** ** Token lists without sentinel *)

Lemma resolve_tokens_plain (member_first : bool) (all : string)
    (none : option string) (tokens : list string) (d : gmap string bool)
    (valid : bool) :
  all ∉ tokens → (∀ n, none = Some n → n ∉ tokens) →
  ∃ d',
    resolve_tokens member_first all none tokens d valid
    = (d', valid || bool_decide (Exists (λ t, t ∈ dom d) tokens),
       filter (λ t, t ∉ dom d) tokens)
    ∧ dom d' = dom d
    ∧ ∀ k, d' !! k = if decide (k ∈ tokens ∧ k ∈ dom d) then Some true else d !! k.
Proof.
  revert d valid. induction tokens as [|t rest IH]; intros d valid Hall Hnone.
  - exists d. simpl. by rewrite orb_false_r.
  - apply not_elem_of_cons in Hall as [Hall1 Hall2].
    assert (∀ n, none = Some n → n ∉ rest) as Hnone2.
    { intros n Hn Hin. apply (Hnone n Hn). by right. }
    assert (Some t ≠ none) as Hnone1.
    { intros Heq. apply (Hnone t); [done|by left]. }
    simpl. rewrite classify_plain by done.
    destruct (dict_contains d t) eqn:Hkey.
    + pose proof (dom_insert_member d t true Hkey) as Hdom.
      apply dict_contains_true in Hkey.
      destruct (IH (<[t:=true]> d) true Hall2 Hnone2) as (d' & -> & Hd' & Hlook).
      exists d'. rewrite Hdom. split; [|split; [congruence|]].
      * rewrite filter_cons_False by (intros Hn; by apply Hn).
        rewrite (bool_decide_eq_true_2 (Exists _ (t :: rest)))
          by (by apply Exists_cons_hd).
        by rewrite orb_true_r.
      * intros k. rewrite Hlook, Hdom.
        destruct (decide (k = t)) as [->|Hne].
        { rewrite lookup_insert_eq. rewrite (decide_True (P:=t ∈ t :: rest ∧ _));
            [by destruct (decide _)|]. split; [by left|done]. }
        rewrite lookup_insert_ne by done.
        destruct (decide (k ∈ rest ∧ k ∈ dom d)) as [[H1 H2]|Hn].
        { rewrite decide_True; [done|]. split; [by right|done]. }
        rewrite decide_False; [done|]. intros [[?|?]%elem_of_cons ?]; [done|].
        by apply Hn.
    + assert (t ∉ dom d) as Hnkey.
      { intros Hin%dict_contains_true. congruence. }
      destruct (IH d valid Hall2 Hnone2) as (d' & -> & Hd' & Hlook).
      exists d'. split; [|split; [done|]].
      * rewrite filter_cons_True by done. f_equal. f_equal. f_equal.
        apply bool_decide_ext. rewrite Exists_cons. naive_solver.
      * intros k. rewrite Hlook.
        destruct (decide (k ∈ rest ∧ k ∈ dom d)) as [[H1 H2]|Hn].
        { rewrite decide_True; [done|]. split; [by right|done]. }
        rewrite decide_False; [done|].
        intros [[->|?]%elem_of_cons ?]; [done|]. by apply Hn.
Qed.

(** ** Creating directories *)

Lemma fs_lookup_app (fs0 : FileSystem) (p q : Path) (k : NodeKind) :
  fs_lookup (fs0 ++ [(p, k)]) q =
  match fs_lookup fs0 q with
  | Some k' => Some k'
  | None => if decide (p = q) then Some k else None
  end.
Proof.
  induction fs0 as [|[p' k'] rest IH]; simpl; [done|].
  by destruct (decide (p' = q)).
Qed.

Lemma path_kind_app (fs0 : FileSystem) (p q : Path) (k : NodeKind) :
  path_kind (fs0 ++ [(p, k)]) q =
  match path_kind fs0 q with
  | Some k' => Some k'
  | None => if decide (p = q) then Some k else None
  end.
Proof. destruct q; [done|]. apply fs_lookup_app. Qed.

(** What existed keeps its kind when a directory is added. *)
Lemma path_kind_app_old (fs0 : FileSystem) (p q : Path) (k : NodeKind) :
  Path_exists fs0 q = true → path_kind (fs0 ++ [(p, k)]) q = path_kind fs0 q.
Proof.
  unfold Path_exists. intros [k' Hk']%bool_decide_eq_true.
  by rewrite path_kind_app, Hk'.
Qed.

Lemma path_kind_app_new (fs0 : FileSystem) (p : Path) (k : NodeKind) :
  Path_exists fs0 p = false → path_kind (fs0 ++ [(p, k)]) p = Some k.
Proof.
  unfold Path_exists. intros Hp%bool_decide_eq_false.
  rewrite path_kind_app. destruct (path_kind fs0 p); [by destruct Hp|].
  by rewrite decide_True.
Qed.

Lemma path_kind_app_other (fs0 : FileSystem) (p q : Path) (k : NodeKind) :
  p ≠ q → path_kind (fs0 ++ [(p, k)]) q = path_kind fs0 q.
Proof.
  intros Hne. rewrite path_kind_app. destruct (path_kind fs0 q); [done|].
  by rewrite decide_False.
Qed.

(** [p.mkdir()]: it returns exactly when [p] is missing and its parent is
    a directory, and then [p] is a directory and nothing else changed. *)
Lemma Path_mkdir_cases (p : Path) (w : World) :
  Path_mkdir p w =
  if Path_exists (fs w) p then Raise (FileExistsError p) w
  else match path_kind (fs w) (Path_parent p) with
       | Some Directory => Ok () (set_fs (fs w ++ [(p, Directory)]) w)
       | Some RegularFile => Raise (NotADirectoryError p) w
       | None => Raise (FileNotFoundError p) w
       end.
Proof.
  unfold Path_mkdir. run_step. destruct (Path_exists _ _); [done|].
  by destruct (path_kind _ _) as [[]|].
Qed.

Lemma string_app_inj (a b c : string) : a +:+ b = a +:+ c → b = c.
Proof. induction a as [|x a IH]; simpl; [done|]. intros [= H]. by apply IH. Qed.

Section RunProperties.
Context `{Ids : CliArgumentOptions} `{Ext : Collaborators}.

(** X1.  Whatever the options, the filesystem state and the collaborators,
    and however the run ends, every call of RemoveFolder that [Main] makes
    asks for confirmation exactly when [-f] is not set. *)
Theorem remove_folder_prompts_unless_forced (build_args : BuildArgs)
    (invocation_time : datetime) (w : World) :
  ∃ es,
    trace (final_world (Main build_args invocation_time w)) = trace w ++ es
    ∧ ∀ folder prompt, RemoveFolder folder prompt ∈ calls_of es →
        prompt = negb (arg_force_clean build_args).
Proof.
  destruct (emits_Main
              (λ e, ∀ p b, e = Called (RemoveFolder p b) →
                      b = negb (arg_force_clean build_args))
              ltac:(intros e He p b ->; by destruct (He (RemoveFolder p b)))
              build_args
              ltac:(by intros p q b [= _ <-])
              ltac:(intros c Hc p b [= ->]; by destruct (Hc p b))
              invocation_time w) as (es & Htrace & Hes).
  exists es. split; [done|]. intros folder prompt Hin%calls_of_elem.
  rewrite Forall_forall in Hes. exact (Hes _ Hin folder prompt eq_refl).
Qed.

Lemma initial_build_actions_member (k : string) :
  k ∈ build_action_keys → initial_build_actions !! k = Some false.
Proof.
  intros Hk%initial_build_actions_dom%elem_of_dom. destruct Hk as [b Hb].
  rewrite Hb. f_equal. unfold initial_build_actions in Hb.
  repeat (apply lookup_insert_Some in Hb as [[_ Hb]|[_ Hb]]; [done|]).
  by rewrite lookup_empty in Hb.
Qed.

Lemma initial_platforms_member (k : string) :
  k ∈ platform_keys → initial_platforms !! k = Some false.
Proof.
  intros Hk%initial_platforms_dom%elem_of_dom. destruct Hk as [b Hb].
  rewrite Hb. f_equal. unfold initial_platforms in Hb.
  repeat (apply lookup_insert_Some in Hb as [[_ Hb]|[_ Hb]]; [done|]).
  by rewrite lookup_empty in Hb.
Qed.

Lemma initial_clean_actions_member (k : string) :
  k ∈ clean_action_keys → initial_clean_actions !! k = Some false.
Proof.
  intros Hk%initial_clean_actions_dom%elem_of_dom. destruct Hk as [b Hb].
  rewrite Hb. f_equal. unfold initial_clean_actions in Hb.
  repeat (apply lookup_insert_Some in Hb as [[_ Hb]|[_ Hb]]; [done|]).
  by rewrite lookup_empty in Hb.
Qed.

(** From the fold to the statement about one axis: [Hfold] is the
    equation of the loop, [Hdom] the keys of the dictionary literal and
    [Hmember] its values. *)
Ltac accumulate_with Hfold Hdom Hmember tokens Hres Hd' Hlook :=
  unfold accumulates_on; rewrite Hfold, Hres; eexists;
  split;
  [ simpl; f_equal; apply bool_decide_ext; rewrite !Exists_exists;
    split; intros (t & ? & ?); exists t; (split; [done|]); by apply Hdom
  | split;
    [ intros k Hk; simpl; rewrite Hlook, (Hmember k Hk);
      destruct (decide (k ∈ tokens)) as [Hin|Hin];
      [ rewrite (bool_decide_eq_true_2 _ Hin), decide_True; [done|];
        split; [done|by apply Hdom]
      | rewrite (bool_decide_eq_false_2 _ Hin), decide_False; [done|];
        by intros [? _] ]
    | simpl; f_equal; f_equal; apply list_filter_iff; intros t;
      split; intros Hn Hin; apply Hn; by apply Hdom ] ].

(** X3.  A token list without sentinel selects exactly the members it
    names, on each axis: every named member is true, every other member
    false, the tokens that are no members are warned about one by one,
    and the loop reports a valid token exactly when some token is a
    member. *)
Theorem members_accumulate (tokens : list string) (w : World) :
  (BuildActionID_ALL ∉ tokens → BuildActionID_NONE ∉ tokens →
   accumulates_on resolve_build_actions build_actions build_action_keys
     (λ t, WarningMessage (unknown_build_action_warning t)) tokens w)
  ∧ (PlatformID_ALL ∉ tokens →
     accumulates_on resolve_platforms platforms platform_keys
       (λ t, WarningMessage (unknown_platform_warning t)) tokens w)
  ∧ (PluginID_ALL ∉ tokens →
     accumulates_on resolve_plugins plugins plugin_keys
       (λ t, UtilityWarningMessage (unknown_plugin_warning t)) tokens w)
  ∧ (CleanActionID_ALL ∉ tokens → CleanActionID_NONE ∉ tokens →
     accumulates_on resolve_clean_actions clean_actions clean_action_keys
       (λ t, WarningMessage (unknown_clean_action_warning t)) tokens w).
Proof.
  split; [|split; [|split]].
  - intros Hall Hnone.
    destruct (resolve_tokens_plain true BuildActionID_ALL
                (Some BuildActionID_NONE) tokens initial_build_actions false
                Hall ltac:(by intros n [= <-])) as (d' & Hres & Hd' & Hlook).
    accumulate_with resolve_build_actions_fold initial_build_actions_dom
      initial_build_actions_member tokens Hres Hd' Hlook.
  - intros Hall.
    destruct (resolve_tokens_plain false PlatformID_ALL None tokens
                initial_platforms false Hall ltac:(done))
      as (d' & Hres & Hd' & Hlook).
    accumulate_with resolve_platforms_fold initial_platforms_dom
      initial_platforms_member tokens Hres Hd' Hlook.
  - intros Hall.
    destruct (resolve_tokens_plain true PluginID_ALL None tokens
                initial_plugins false Hall ltac:(done))
      as (d' & Hres & Hd' & Hlook).
    accumulate_with resolve_plugins_fold initial_plugins_dom
      initial_plugins_member tokens Hres Hd' Hlook.
  - intros Hall Hnone.
    destruct (resolve_tokens_plain true CleanActionID_ALL
                (Some CleanActionID_NONE) tokens initial_clean_actions false
                Hall ltac:(by intros n [= <-])) as (d' & Hres & Hd' & Hlook).
    accumulate_with resolve_clean_actions_fold initial_clean_actions_dom
      initial_clean_actions_member tokens Hres Hd' Hlook.
Qed.

(** X4.  A token list in which no token is a member or a sentinel of the
    axis (the empty list included) resolves to the default of the axis:
    every build action, every platform and, when tests are not requested,
    every plug-in true, every clean action false.  The output gains one
    warning per token, in order, and then the warning that the default is
    used. *)
Theorem no_valid_token_applies_default (build_args : BuildArgs) (w : World) :
  (Forall (λ t, (t ∉ build_action_keys)
                ∧ t ≠ BuildActionID_ALL ∧ t ≠ BuildActionID_NONE)
     (arg_build_actions build_args) →
   validate_build_actions build_args w =
   Ok () (add_trace
            (((λ t, WarningMessage (unknown_build_action_warning t))
                <$> arg_build_actions build_args)
             ++ [WarningMessage
                   ("No valid build action passed to build script. Using default argument: "
                    +:+ BuildActionID_ALL)])
            (set_CTX (set_build_actions (dict_fill true initial_build_actions)
                        (CTX w)) w))
   ∧ every_member true build_action_keys (dict_fill true initial_build_actions))
  ∧ (Forall (λ t, (t ∉ platform_keys) ∧ t ≠ PlatformID_ALL)
       (arg_platform_list build_args) →
     validate_platforms build_args w =
     Ok () (add_trace
              (((λ t, WarningMessage (unknown_platform_warning t))
                  <$> arg_platform_list build_args)
               ++ [WarningMessage
                     ("No valid platform passed to build script. Using default argument: "
                      +:+ PlatformID_ALL)])
              (set_CTX (set_simulator_build (arg_simulator_build build_args)
                          (set_platforms (dict_fill true initial_platforms)
                             (CTX w))) w))
     ∧ every_member true platform_keys (dict_fill true initial_platforms))
  ∧ (arg_build_tests build_args = false →
     Forall (λ t, (t ∉ plugin_keys) ∧ t ≠ PluginID_ALL)
       (arg_plugin_list build_args) →
     validate_plugins build_args w =
     Ok () (add_trace
              (((λ t, UtilityWarningMessage (unknown_plugin_warning t))
                  <$> arg_plugin_list build_args)
               ++ [WarningMessage no_valid_plugin_warning])
              (set_CTX (set_plugins (dict_fill true initial_plugins)
                          (set_build_tests false (CTX w))) w))
     ∧ every_member true plugin_keys (dict_fill true initial_plugins))
  ∧ (Forall (λ t, (t ∉ clean_action_keys)
                  ∧ t ≠ CleanActionID_ALL ∧ t ≠ CleanActionID_NONE)
       (arg_clean_actions build_args) →
     validate_clean_actions build_args w =
     Ok () (add_trace
              (((λ t, WarningMessage (unknown_clean_action_warning t))
                  <$> arg_clean_actions build_args)
               ++ [WarningMessage
                     ("No valid clean action passed to build script. Using default argument: "
                      +:+ CleanActionID_NONE)])
              (set_CTX (set_clean_actions (dict_fill false initial_clean_actions)
                          (CTX w)) w))
     ∧ every_member false clean_action_keys
         (dict_fill false initial_clean_actions)).
Proof.
  split; [|split; [|split]].
  - intros Htokens. split; [|apply every_member_fill, initial_build_actions_dom].
    assert (resolve_tokens true BuildActionID_ALL (Some BuildActionID_NONE)
              (arg_build_actions build_args) initial_build_actions false
            = (initial_build_actions, false, arg_build_actions build_args))
      as Hres.
    { apply resolve_tokens_unrecognized.
      eapply Forall_impl; [exact Htokens|]. intros t (Hkey & Hall & Hnone).
      cbv beta. rewrite classify_plain by congruence.
      by rewrite (not_key_not_contained _ _ _ initial_build_actions_dom Hkey). }
    unfold validate_build_actions, mbind, M_bind.
    rewrite resolve_build_actions_fold, Hres. run_step. f_equal. same_world.
  - intros Htokens. split; [|apply every_member_fill, initial_platforms_dom].
    assert (resolve_tokens false PlatformID_ALL None
              (arg_platform_list build_args) initial_platforms false
            = (initial_platforms, false, arg_platform_list build_args))
      as Hres.
    { apply resolve_tokens_unrecognized.
      eapply Forall_impl; [exact Htokens|]. intros t (Hkey & Hall).
      cbv beta. rewrite classify_plain by done.
      by rewrite (not_key_not_contained _ _ _ initial_platforms_dom Hkey). }
    unfold validate_platforms, mbind, M_bind.
    rewrite resolve_platforms_fold, Hres. run_step. f_equal. same_world.
  - intros Htests Htokens.
    split; [|apply every_member_fill, initial_plugins_dom].
    assert (resolve_tokens true PluginID_ALL None (arg_plugin_list build_args)
              initial_plugins false
            = (initial_plugins, false, arg_plugin_list build_args)) as Hres.
    { apply resolve_tokens_unrecognized.
      eapply Forall_impl; [exact Htokens|]. intros t [Hkey Hall]. cbv beta.
      rewrite classify_plain by done.
      by rewrite (not_key_not_contained _ _ _ initial_plugins_dom Hkey). }
    destruct (validate_plugins_result build_args w _ _ _ Hres) as (b & Hb & Hvp).
    cbv zeta in Hvp. rewrite Htests in Hvp. exact Hvp.
  - intros Htokens.
    split; [|apply every_member_fill, initial_clean_actions_dom].
    assert (resolve_tokens true CleanActionID_ALL (Some CleanActionID_NONE)
              (arg_clean_actions build_args) initial_clean_actions false
            = (initial_clean_actions, false, arg_clean_actions build_args))
      as Hres.
    { apply resolve_tokens_unrecognized.
      eapply Forall_impl; [exact Htokens|]. intros t (Hkey & Hall & Hnone).
      cbv beta. rewrite classify_plain by congruence.
      by rewrite (not_key_not_contained _ _ _ initial_clean_actions_dom Hkey). }
    unfold validate_clean_actions, mbind, M_bind.
    rewrite resolve_clean_actions_fold, Hres. run_step. f_equal. same_world.
Qed.

Lemma has_keys_dom (keys : list string) (d d0 : gmap string bool) :
  (∀ k, k ∈ dom d0 ↔ k ∈ keys) → dom d = dom d0 → has_keys keys d.
Proof.
  intros Hkeys Hdom k. rewrite <- elem_of_dom, Hdom. apply Hkeys.
Qed.

(** Input validation (lines 119-254) returns, keeps the plug-in root and
    calls no collaborator. *)
Lemma validate_input_quiet (build_args : BuildArgs) (w : World) :
  ∃ w' es,
    validate_input build_args w = Ok () w'
    ∧ plugin_root (CTX w') = plugin_root (CTX w)
    ∧ trace w' = trace w ++ es
    ∧ calls_of es = [].
Proof.
  destruct (emits_validate_input (λ e, ∀ c, e ≠ Called c) ltac:(done)
              build_args w) as (es & Htrace & Hes).
  apply calls_of_output in Hes. revert Htrace.
  unfold validate_input, mbind, M_bind. unfold emit at 1 2.
  destruct (validate_build_actions_ok build_args
              (add_trace [SectionHeading "Validate Input"] w))
    as (d1 & es1 & -> & Hd1).
  match goal with |- context [validate_platforms ?a ?w0] =>
    destruct (validate_platforms_ok a w0) as (d2 & es2 & -> & Hd2) end.
  destruct (resolve_tokens true PluginID_ALL None (arg_plugin_list build_args)
              initial_plugins false) as [[d v] u] eqn:Hres.
  match goal with |- context [validate_plugins ?a ?w0] =>
    destruct (validate_plugins_result a w0 d v u Hres) as (b & Hb & Hvp) end.
  cbv zeta in Hvp. rewrite Hvp.
  match goal with |- context [validate_clean_actions ?a ?w0] =>
    destruct (validate_clean_actions_ok a w0) as (d4 & es4 & -> & Hd4) end.
  rewrite validate_unity_install_root_cases.
  destruct (Path_is_dir _ _); simpl; intros Htrace; by eexists _, es.
Qed.

(** X2.  Input validation returns for every input, and afterwards: each
    of the four dictionaries has exactly the keys of its literal; the
    [-s] and [-t] flags are copied; [unity_install_root] is the argument
    when that is a directory and is unchanged otherwise; the other paths of
    the context, the build configuration and the codesign hash are
    untouched; the filesystem is untouched; and what was added to the
    output contains no collaborator call. *)
Theorem validate_input_summary (build_args : BuildArgs) (w : World) :
  ∃ w' es,
    validate_input build_args w = Ok () w'
    ∧ has_keys build_action_keys (build_actions (CTX w'))
    ∧ has_keys platform_keys (platforms (CTX w'))
    ∧ has_keys plugin_keys (plugins (CTX w'))
    ∧ has_keys clean_action_keys (clean_actions (CTX w'))
    ∧ simulator_build (CTX w') = arg_simulator_build build_args
    ∧ build_tests (CTX w') = arg_build_tests build_args
    ∧ unity_install_root (CTX w')
      = (if Path_is_dir (fs w) (arg_unity_installation_root build_args)
         then arg_unity_installation_root build_args
         else unity_install_root (CTX w))
    ∧ (build_output_path (CTX w'), test_build_root (CTX w'), plugin_root (CTX w'),
       build_path (CTX w'), test_build_output_path (CTX w'),
       build_config (CTX w'), codesign_hash (CTX w'))
      = (build_output_path (CTX w), test_build_root (CTX w), plugin_root (CTX w),
         build_path (CTX w), test_build_output_path (CTX w),
         build_config (CTX w), codesign_hash (CTX w))
    ∧ fs w' = fs w
    ∧ trace w' = trace w ++ es
    ∧ calls_of es = [].
Proof.
  destruct (emits_validate_input (λ e, ∀ c, e ≠ Called c) ltac:(done)
              build_args w) as (es & Htrace & Hes).
  apply calls_of_output in Hes. revert Htrace.
  unfold validate_input, mbind, M_bind. unfold emit at 1 2.
  destruct (validate_build_actions_ok build_args
              (add_trace [SectionHeading "Validate Input"] w))
    as (d1 & es1 & -> & Hd1).
  match goal with |- context [validate_platforms ?a ?w0] =>
    destruct (validate_platforms_ok a w0) as (d2 & es2 & -> & Hd2) end.
  destruct (resolve_tokens true PluginID_ALL None (arg_plugin_list build_args)
              initial_plugins false) as [[d v] u] eqn:Hres.
  pose proof (resolve_tokens_dom true PluginID_ALL None
                (arg_plugin_list build_args) initial_plugins false) as Hd3.
  rewrite Hres in Hd3. simpl in Hd3.
  match goal with |- context [validate_plugins ?a ?w0] =>
    destruct (validate_plugins_result a w0 d v u Hres) as (b & Hb & Hvp) end.
  cbv zeta in Hvp. rewrite Hvp.
  match goal with |- context [validate_clean_actions ?a ?w0] =>
    destruct (validate_clean_actions_ok a w0) as (d4 & es4 & -> & Hd4) end.
  rewrite validate_unity_install_root_cases. simpl.
  assert (has_keys plugin_keys
            (if v
             then (if arg_build_tests build_args && negb b
                   then <[PluginID_CORE:=true]> d else d)
             else dict_fill true
                    (if arg_build_tests build_args && negb b
                     then <[PluginID_CORE:=true]> d else d))) as Hplugins.
  { apply (has_keys_dom _ _ initial_plugins initial_plugins_dom).
    assert (dom (<[PluginID_CORE:=true]> d) = dom d) as Hcore.
    { apply dom_insert_member, dict_contains_true, elem_of_dom. by eexists. }
    destruct v, (arg_build_tests build_args && negb b);
      rewrite ?dict_fill_dom, ?Hcore; done. }
  destruct (Path_is_dir _ _); simpl; intros Htrace; eexists _, es;
    (split; [done|]); simpl;
    (split; [by apply (has_keys_dom _ _ _ initial_build_actions_dom)|]);
    (split; [by apply (has_keys_dom _ _ _ initial_platforms_dom)|]);
    (split; [done|]);
    (split; [by apply (has_keys_dom _ _ _ initial_clean_actions_dom)|]);
    repeat split; done.
Qed.

(** X5.  Lines 268-272.  With neither "build" nor "pack" selected the
    step does nothing.  With one of them selected, it returns whenever the
    build path exists already or its parent is a directory, and then the
    build path exists, the context is unchanged and every path that
    existed keeps its kind.  When the path is missing and its parent is not
    a directory the step raises (the directory is not made recursively)
    and the filesystem is unchanged. *)
Theorem create_build_path_postcondition (w : World)
    (build_selected pack_selected : bool) :
  build_actions (CTX w) !! BuildActionID_BUILD = Some build_selected →
  build_actions (CTX w) !! BuildActionID_PACK = Some pack_selected →
  (build_selected || pack_selected = false → create_build_path w = Ok () w)
  ∧ (build_selected || pack_selected = true →
     Path_exists (fs w) (build_path (CTX w)) = true
     ∨ Path_is_dir (fs w) (Path_parent (build_path (CTX w))) = true →
     ∃ w', create_build_path w = Ok () w'
       ∧ Path_exists (fs w') (build_path (CTX w)) = true
       ∧ CTX w' = CTX w
       ∧ ∀ q, Path_exists (fs w) q = true →
              path_kind (fs w') q = path_kind (fs w) q)
  ∧ (build_selected || pack_selected = true →
     Path_exists (fs w) (build_path (CTX w)) = false →
     Path_is_dir (fs w) (Path_parent (build_path (CTX w))) = false →
     ∃ e w', create_build_path w = Raise e w'
       ∧ fs w' = fs w
       ∧ (e = FileNotFoundError (build_path (CTX w))
          ∨ e = NotADirectoryError (build_path (CTX w)))).
Proof.
  intros Hbuild Hpack.
  assert (create_build_path w =
          if (build_selected || pack_selected)
             && negb (Path_exists (fs w) (build_path (CTX w)))
          then Path_mkdir (build_path (CTX w))
                 (add_trace [Message "Build output path not found." nl;
                             StatusMessageWithContext "Creating: "
                               (Path_str (build_path (CTX w)))] w)
          else Ok () w) as Hrun.
  { unfold create_build_path, dict_getitem. run_step. rewrite Hbuild.
    destruct build_selected; run_step.
    - destruct (Path_exists _ _); simpl; [done|]. f_equal. same_world.
    - rewrite Hpack. destruct pack_selected; run_step; [|done].
      destruct (Path_exists _ _); simpl; [done|]. f_equal. same_world. }
  rewrite Hrun, Path_mkdir_cases. simpl. split; [by intros ->|]. split.
  - intros -> Hcan. simpl.
    destruct (Path_exists (fs w) (build_path (CTX w))) eqn:Hexists; simpl.
    { exists w. by rewrite Hexists. }
    destruct Hcan as [?|Hparent]; [done|].
    unfold Path_is_dir in Hparent. apply bool_decide_eq_true in Hparent.
    rewrite Hparent. eexists. split; [done|]. simpl. split; [|split; [done|]].
    + unfold Path_exists. apply bool_decide_eq_true.
      rewrite path_kind_app_new by done. by eexists.
    + intros q Hq. by apply path_kind_app_old.
  - intros -> Hexists Hparent. rewrite Hexists. simpl.
    unfold Path_is_dir in Hparent. apply bool_decide_eq_false in Hparent.
    destruct (path_kind _ _) as [[]|]; [done| |]; eexists _, _;
      (split; [done|]); split; auto.
Qed.

(** X6.  Lines 290-298 with the default [-to] ([-to] equal to
    [CTX.test_build_root]).  Without [-t] the step does nothing.  With
    [-t] and the root missing below an existing directory, the root is
    created and then the timestamped directory inside it, whose path is
    recorded in [CTX.test_build_output_path]. *)
Theorem prepare_test_build_default_root (build_args : BuildArgs)
    (invocation_time_string : string) (w : World) :
  let root := test_build_root (CTX w) in
  let run_path := Path_joinpath root ("TestBuild_" +:+ invocation_time_string) in
  (build_tests (CTX w) = false →
   prepare_test_build build_args invocation_time_string w = Ok () w)
  ∧ (build_tests (CTX w) = true →
     arg_test_output_path build_args = root →
     Path_exists (fs w) root = false →
     Path_is_dir (fs w) (Path_parent root) = true →
     Path_exists (fs w) run_path = false →
     ∃ w', prepare_test_build build_args invocation_time_string w = Ok () w'
       ∧ fs w' = fs w ++ [(root, Directory); (run_path, Directory)]
       ∧ Path_is_dir (fs w') root = true
       ∧ Path_is_dir (fs w') run_path = true
       ∧ test_build_output_path (CTX w') = run_path).
Proof.
  intros root run_path. split.
  - intros Htests. unfold prepare_test_build. run_step. by rewrite Htests.
  - intros Htests Harg Hroot Hparent Hrun.
    unfold prepare_test_build. run_step. rewrite Htests. run_step.
    fold root. rewrite Hroot, Harg. run_step.
    unfold mbind, M_bind. rewrite !Path_mkdir_cases. simpl. rewrite Hroot.
    unfold Path_is_dir in Hparent. apply bool_decide_eq_true in Hparent.
    rewrite Hparent. simpl. rewrite Path_mkdir_cases. simpl. fold run_path.
    assert (root ≠ run_path) as Hne.
    { unfold run_path, Path_joinpath. intros Heq.
      apply (f_equal length) in Heq. rewrite length_app in Heq. simpl in Heq.
      lia. }
    assert (Path_exists (fs w ++ [(root, Directory)]) run_path = false) as Hrun'.
    { unfold Path_exists in *. apply bool_decide_eq_false.
      apply bool_decide_eq_false in Hrun.
      by rewrite path_kind_app_other. }
    rewrite Hrun'.
    assert (Path_parent run_path = root) as ->
      by apply removelast_last.
    rewrite path_kind_app_new by done.
    eexists. split; [done|]. simpl. rewrite <- app_assoc. simpl.
    split; [done|]. split; [|split; [|done]].
    + unfold Path_is_dir. apply bool_decide_eq_true.
      change (fs w ++ [(root, Directory); (run_path, Directory)])
        with (fs w ++ [(root, Directory)] ++ [(run_path, Directory)]).
      rewrite app_assoc, path_kind_app_other by done.
      by apply path_kind_app_new.
    + unfold Path_is_dir. apply bool_decide_eq_true.
      change (fs w ++ [(root, Directory); (run_path, Directory)])
        with (fs w ++ [(root, Directory)] ++ [(run_path, Directory)]).
      rewrite app_assoc. by apply path_kind_app_new.
Qed.

(** X7.  Two test runs over the same test-output root.  After a first
    run made its timestamped directory, a run with the same time string
    raises FileExistsError on that directory, and a run with another time
    string makes a second directory beside the first one. *)
Theorem consecutive_test_runs (build_args : BuildArgs)
    (first_time second_time : string) (w : World) :
  let root := test_build_root (CTX w) in
  let first_run := Path_joinpath root ("TestBuild_" +:+ first_time) in
  let second_run := Path_joinpath root ("TestBuild_" +:+ second_time) in
  build_tests (CTX w) = true →
  Path_is_dir (fs w) root = true →
  Path_exists (fs w) first_run = false →
  ∃ w1, prepare_test_build build_args first_time w = Ok () w1
    ∧ Path_is_dir (fs w1) first_run = true
    ∧ (∃ w2, prepare_test_build build_args first_time w1
             = Raise (FileExistsError first_run) w2
         ∧ fs w2 = fs w1)
    ∧ (second_time ≠ first_time →
       Path_exists (fs w) second_run = false →
       ∃ w2, prepare_test_build build_args second_time w1 = Ok () w2
         ∧ first_run ≠ second_run
         ∧ Path_is_dir (fs w2) first_run = true
         ∧ Path_is_dir (fs w2) second_run = true).
Proof.
  intros root first_run second_run Htests Hroot Hfirst.
  pose proof (prepare_test_build_under_context_root build_args first_time w
                Htests Hroot) as Hrun1.
  cbv zeta in Hrun1. fold root first_run in Hrun1. rewrite Hfirst in Hrun1.
  eexists. split; [exact Hrun1|].
  set (w1 := set_fs (fs w ++ [(first_run, Directory)])
               (set_CTX (set_test_build_output_path first_run (CTX w)) w)).
  assert (Path_is_dir (fs w1) first_run = true) as Hdir1.
  { unfold Path_is_dir. apply bool_decide_eq_true. simpl.
    by apply path_kind_app_new. }
  assert (Path_is_dir (fs w1) root = true) as Hroot1.
  { unfold Path_is_dir in *. apply bool_decide_eq_true. simpl.
    apply bool_decide_eq_true in Hroot.
    rewrite path_kind_app_old; [done|].
    unfold Path_exists. apply bool_decide_eq_true. rewrite Hroot. by eexists. }
  assert (build_tests (CTX w1) = true) as Htests1 by done.
  split; [done|]. split.
  - pose proof (prepare_test_build_under_context_root build_args first_time w1
                  Htests1 Hroot1) as Hrun2.
    cbv zeta in Hrun2.
    change (test_build_root (CTX w1)) with root in Hrun2.
    fold first_run in Hrun2.
    rewrite (is_dir_exists _ _ Hdir1) in Hrun2.
    eexists. split; [exact Hrun2|done].
  - intros Htimes Hsecond.
    assert (first_run ≠ second_run) as Hne.
    { unfold first_run, second_run, Path_joinpath.
      intros Heq%app_inv_head. injection Heq as Heq.
      by apply string_app_inj in Heq. }
    pose proof (prepare_test_build_under_context_root build_args second_time w1
                  Htests1 Hroot1) as Hrun2.
    cbv zeta in Hrun2.
    change (test_build_root (CTX w1)) with root in Hrun2.
    fold second_run in Hrun2.
    assert (Path_exists (fs w1) second_run = false) as Hsecond1.
    { unfold Path_exists in *. apply bool_decide_eq_false.
      apply bool_decide_eq_false in Hsecond. simpl.
      by rewrite path_kind_app_other. }
    rewrite Hsecond1 in Hrun2.
    eexists. split; [exact Hrun2|]. split; [done|]. simpl. split.
    + unfold Path_is_dir. apply bool_decide_eq_true.
      rewrite path_kind_app_other by done. by apply path_kind_app_new.
    + unfold Path_is_dir. apply bool_decide_eq_true.
      apply path_kind_app_new.
      unfold Path_exists in *. apply bool_decide_eq_false.
      apply bool_decide_eq_false in Hsecond.
      by rewrite path_kind_app_other.
Qed.

(** X8.  The processing order is a rearrangement of the directories of
    the listing: every directory is in it as often as in the listing, and
    nothing that is not a directory is in it. *)
Theorem plugin_path_list_is_the_directories (fs0 : FileSystem)
    (listing : list Path) :
  plugin_path_list_loop fs0 listing [] ≡ₚ plugin_dirs fs0 listing.
Proof.
  rewrite plugin_path_list_loop_acc. simpl.
  rewrite reverse_Permutation. unfold core_dirs, other_dirs.
  apply (filter_app_complement (λ p, Path_name p = "Apple.Core")).
Qed.

(** ** The phases, when the collaborators return *)









(** ** What may be removed *)

Lemma final_world_bind {A B} (m : M A) (f : A → M B) (w : World) :
  final_world ((m ≫= f) w) =
  match m w with
  | Ok a w1 => final_world (f a w1)
  | Raise _ w1 => w1
  end.
Proof. unfold mbind, M_bind. by destruct (m w). Qed.

Lemma removes_targets_only_output (build_args : BuildArgs) (root : Path)
    (e : Event) :
  (∀ c, e ≠ Called c) → removes_targets_only build_args root e.
Proof. intros He folder prompt ->. by destruct (He (RemoveFolder folder prompt)). Qed.

Lemma removes_targets_only_call (build_args : BuildArgs) (root : Path)
    (c : Call) :
  (∀ p b, c ≠ RemoveFolder p b) → removes_targets_only build_args root (Called c).
Proof. intros Hc folder prompt [= ->]. by destruct (Hc folder prompt). Qed.

Lemma print_option_summary_ok (build_args : BuildArgs) (w : World) :
  ∃ es, print_option_summary build_args w = Ok () (add_trace es w)
    ∧ calls_of es = [].
Proof.
  unfold print_option_summary. run_step.
  destruct (arg_skip_codesign build_args), (arg_build_tests build_args);
    simpl; eexists; (split; [f_equal; same_world|done]).
Qed.

Lemma create_build_path_ctx (w : World) :
  CTX (final_world (create_build_path w)) = CTX w.
Proof.
  unfold create_build_path, dict_getitem. run_step.
  destruct (build_actions (CTX w) !! BuildActionID_BUILD) as [[]|]; run_step;
    [| |done].
  - destruct (Path_exists _ _); simpl; [done|].
    rewrite Path_mkdir_cases. simpl.
    destruct (Path_exists _ _); [done|]. by destruct (path_kind _ _) as [[]|].
  - destruct (build_actions (CTX w) !! BuildActionID_PACK) as [[]|]; run_step;
      [|done|done].
    destruct (Path_exists _ _); simpl; [done|].
    rewrite Path_mkdir_cases. simpl.
    destruct (Path_exists _ _); [done|]. by destruct (path_kind _ _) as [[]|].
Qed.

Lemma clean_packages_targets (build_args : BuildArgs) (root : Path) (w : World) :
  ∃ es,
    trace (final_world (clean_packages build_args w)) = trace w ++ es
    ∧ Forall (removes_targets_only build_args root) es
    ∧ plugin_root (CTX (final_world (clean_packages build_args w)))
      = plugin_root (CTX w).
Proof.
  unfold clean_packages, dict_getitem, call. run_step.
  destruct (clean_actions (CTX w) !! CleanActionID_PACKAGES) as [[]|]; run_step.
  - destruct (Path_exists _ _); simpl.
    + destruct (collaborator _ _ _); simpl; eexists;
        (split; [rewrite <- ?app_assoc; reflexivity|]);
        (split; [|done]);
        repeat (apply Forall_cons; split;
                [first [ by apply removes_targets_only_output
                       | intros ? ? [= <- _]; by left ]|]);
        apply Forall_nil_2.
    + exists []. by rewrite app_nil_r.
  - exists []. by rewrite app_nil_r.
  - exists []. by rewrite app_nil_r.
Qed.

Lemma clean_test_players_loop_targets (build_args : BuildArgs) (root : Path)
    (listing : list Path) (w : World) :
  Forall (λ q, q ≠ [] ∧ Path_parent q = root) listing →
  ∃ es,
    trace (final_world (clean_test_players_loop build_args listing w))
    = trace w ++ es
    ∧ Forall (removes_targets_only build_args root) es.
Proof.
  intros Hlisting. revert w.
  induction Hlisting as [|q rest [Hq Hparent] _ IH]; intros w.
  - exists []. simpl. by rewrite app_nil_r.
  - simpl. run_step. destruct (Path_is_dir (fs w) q); simpl; [|apply IH].
    destruct (Path_is_dir _ _ && Path_is_dir _ _); simpl; [|apply IH].
    unfold call. run_step. destruct (collaborator _ _ _) as [e|fs']; simpl.
    + eexists. split; [reflexivity|]. apply Forall_singleton.
      intros folder prompt [= <- _]. right. right. exists (Path_name q).
      unfold Path_joinpath, Path_name. rewrite <- Hparent.
      rewrite (app_removelast_last "" Hq) at 1. unfold Path_parent.
      by rewrite <- !app_assoc.
    + match goal with |- context [clean_test_players_loop _ rest ?w0] =>
        destruct (IH w0) as (es & -> & Hes) end.
      eexists. simpl. rewrite <- app_assoc. split; [reflexivity|].
      apply Forall_cons. split; [|done].
      intros folder prompt [= <- _]. right. right. exists (Path_name q).
      unfold Path_joinpath, Path_name. rewrite <- Hparent.
      rewrite (app_removelast_last "" Hq) at 1. unfold Path_parent.
      by rewrite <- !app_assoc.
Qed.

Lemma children_of_root (fs0 : FileSystem) (root : Path) :
  Forall (λ q, q ≠ [] ∧ Path_parent q = root) (fs_children fs0 root).
Proof.
  apply Forall_forall. intros q Hq. unfold fs_children in Hq.
  apply list_elem_of_fmap in Hq as ([q' k] & -> & Hq).
  by apply list_elem_of_filter in Hq as [Hq _].
Qed.

Lemma clean_tests_targets (build_args : BuildArgs) (w : World) :
  ∃ es,
    trace (final_world (clean_tests build_args w)) = trace w ++ es
    ∧ Forall (removes_targets_only build_args (plugin_root (CTX w))) es.
Proof.
  unfold clean_tests, dict_getitem, call, Path_iterdir. run_step.
  destruct (clean_actions (CTX w) !! CleanActionID_TESTS) as [[]|]; run_step;
    [| |].
  - destruct (Path_exists _ _); simpl.
    + destruct (collaborator _ _ _) as [e|fs']; simpl.
      * eexists. split; [rewrite <- ?app_assoc; reflexivity|].
        repeat (apply Forall_cons; split;
                [first [ by apply removes_targets_only_output
                       | intros ? ? [= <- _]; right; by left ]|]).
        apply Forall_nil_2.
      * destruct (path_kind fs' (plugin_root (CTX w))) as [[]|]; simpl.
        -- match goal with |- context [clean_test_players_loop _ ?l ?w0] =>
             destruct (clean_test_players_loop_targets build_args
                         (plugin_root (CTX w)) l w0) as (es & -> & Hes);
               [apply children_of_root|] end.
           eexists. simpl. rewrite <- !app_assoc. split; [reflexivity|].
           simpl.
           repeat (apply Forall_cons; split;
                   [first [ by apply removes_targets_only_output
                          | intros ? ? [= <- _]; right; by left ]|]).
           done.
        -- eexists. split; [rewrite <- ?app_assoc; reflexivity|].
           repeat (apply Forall_cons; split;
                   [first [ by apply removes_targets_only_output
                          | intros ? ? [= <- _]; right; by left ]|]).
           apply Forall_nil_2.
        -- eexists. split; [rewrite <- ?app_assoc; reflexivity|].
           repeat (apply Forall_cons; split;
                   [first [ by apply removes_targets_only_output
                          | intros ? ? [= <- _]; right; by left ]|]).
           apply Forall_nil_2.
    + exists []. by rewrite app_nil_r.
  - exists []. by rewrite app_nil_r.
  - exists []. by rewrite app_nil_r.
Qed.

Lemma emits_from_emits {A} (I : World → Prop) (P : Event → Prop) (m : M A) :
  emits P m → emits_from I P m.
Proof. intros Hm w _. apply Hm. Qed.

Lemma emits_from_bind {A B} (I J : World → Prop) (P : Event → Prop)
    (m : M A) (f : A → M B) :
  emits_between I J P m → (∀ a, emits_from J P (f a)) →
  emits_from I P (m ≫= f).
Proof.
  intros Hm Hf w Hw. rewrite final_world_bind.
  destruct (Hm w Hw) as (es1 & H1 & HP1 & HJ).
  destruct (m w) as [a w1|e w1]; simpl in *.
  - destruct (Hf a w1 HJ) as (es2 & H2 & HP2).
    exists (es1 ++ es2). rewrite H2, H1, app_assoc.
    split; [done|by apply Forall_app].
  - by exists es1.
Qed.

Lemma emits_from_then {A B} (I : World → Prop) (P : Event → Prop)
    (m : M A) (f : A → M B) :
  emits_from I P m → (∀ a, emits P (f a)) → emits_from I P (m ≫= f).
Proof.
  intros Hm Hf w Hw. rewrite final_world_bind.
  destruct (Hm w Hw) as (es1 & H1 & HP1).
  destruct (m w) as [a w1|e w1]; simpl in *.
  - destruct (Hf a w1) as (es2 & H2 & HP2).
    exists (es1 ++ es2). rewrite H2, H1, app_assoc.
    split; [done|by apply Forall_app].
  - by exists es1.
Qed.

Lemma configure_build_paths_targets (build_args : BuildArgs)
    (invocation_time_string : string) (root : Path) :
  emits_from (has_plugin_root root) (removes_targets_only build_args root)
    (configure_build_paths build_args invocation_time_string).
Proof.
  unfold configure_build_paths.
  apply (emits_from_bind _ (has_plugin_root root)).
  { intros w Hw. exists [SectionHeading "Configure Build Paths"].
    split; [done|]. split; [|done]. apply Forall_singleton.
    by apply removes_targets_only_output. }
  intros _. apply (emits_from_bind _ (has_plugin_root root)).
  { intros w Hw. destruct (clean_packages_targets build_args root w)
      as (es & Htrace & Hes & Hroot).
    exists es. split; [done|]. split; [done|].
    unfold has_plugin_root. by rewrite Hroot. }
  intros _. apply (emits_from_bind _ (has_plugin_root root)).
  { intros w Hw.
    destruct (emits_create_build_path (removes_targets_only build_args root)
                (removes_targets_only_output build_args root) w)
      as (es & Htrace & Hes).
    exists es. split; [done|]. split; [done|].
    unfold has_plugin_root. by rewrite create_build_path_ctx. }
  intros _. apply emits_from_then.
  { intros w Hw. destruct (clean_tests_targets build_args w) as (es & Htrace & Hes).
    exists es. by rewrite <- Hw. }
  intros _. apply emits_prepare_test_build.
  apply removes_targets_only_output.
Qed.

(** X10.  Whatever the options, the filesystem and the collaborators, and
    however the run ends, RemoveFolder is only ever called on the [-o]
    path, on the [-to] path, or on a folder
    [<plug-in root>/<name>/<name>_Unity/TestPlayers]. *)
Theorem remove_folder_targets (build_args : BuildArgs)
    (invocation_time : datetime) (w : World) :
  ∃ es,
    trace (final_world (Main build_args invocation_time w)) = trace w ++ es
    ∧ ∀ folder prompt, RemoveFolder folder prompt ∈ calls_of es →
        removal_target build_args (plugin_root (CTX w)) folder.
Proof.
  set (root := plugin_root (CTX w)).
  set (P := removes_targets_only build_args root).
  assert (emits_from (has_plugin_root root) P (Main build_args invocation_time))
    as HMain.
  { unfold Main. apply (emits_from_bind _ (has_plugin_root root)).
    { intros w0 Hw0.
      destruct (print_option_summary_ok build_args w0) as (es & -> & Hes).
      exists es. simpl. split; [done|]. split; [|done].
      apply Forall_forall. intros e He folder prompt ->.
      apply calls_of_elem in He. rewrite Hes in He. by apply elem_of_nil in He. }
    intros _. apply (emits_from_bind _ (has_plugin_root root)).
    { intros w0 Hw0.
      destruct (validate_input_quiet build_args w0)
        as (w' & es & -> & Hroot & Htrace & Hes).
      exists es. simpl. split; [done|]. split.
      - apply Forall_forall. intros e He folder prompt ->.
        apply calls_of_elem in He. rewrite Hes in He.
        by apply elem_of_nil in He.
      - unfold has_plugin_root. by rewrite Hroot. }
    intros _. apply emits_from_then.
    { apply configure_build_paths_targets. }
    intros _. apply emits_run_phases.
    - apply removes_targets_only_output.
    - apply removes_targets_only_call. }
  destruct (HMain w eq_refl) as (es & Htrace & Hes).
  exists es. split; [done|]. intros folder prompt Hin%calls_of_elem.
  rewrite Forall_forall in Hes. exact (Hes _ Hin folder prompt eq_refl).
Qed.

(** *** Runs that clean nothing *)

Lemma resolve_tokens_nothing_selected (all : string) (none : option string)
    (tokens : list string) (d : gmap string bool) (valid : bool) :
  Forall (λ t, dict_contains d t = false ∧ t ≠ all) tokens →
  (∀ k, d !! k ≠ Some true) →
  ∀ k, (resolve_tokens true all none tokens d valid).1.1 !! k ≠ Some true.
Proof.
  intros Htokens Hd. revert valid.
  induction Htokens as [|t rest [Ht Hall] _ IH]; intros valid k; [apply Hd|].
  simpl. unfold classify, sentinel_class. rewrite Ht.
  rewrite (bool_decide_eq_false_2 _ Hall).
  destruct (bool_decide (Some t = none)); simpl.
  - rewrite dict_fill_lookup. by destruct (d !! k).
  - specialize (IH valid k).
    by destruct (resolve_tokens true all none rest d valid) as [[d' v'] u'].
Qed.

Lemma validate_clean_actions_result (build_args : BuildArgs) (w : World)
    (d : gmap string bool) (valid : bool) (unknown : list string) :
  resolve_tokens true CleanActionID_ALL (Some CleanActionID_NONE)
    (arg_clean_actions build_args) initial_clean_actions false
  = (d, valid, unknown) →
  ∃ es,
    validate_clean_actions build_args w
    = Ok () (add_trace es
               (set_CTX (set_clean_actions
                           (if valid then d else dict_fill false d) (CTX w)) w)).
Proof.
  intros Hres. unfold validate_clean_actions, mbind, M_bind.
  rewrite resolve_clean_actions_fold, Hres.
  destruct valid; run_step; eexists; f_equal; same_world.
Qed.

Lemma validate_input_clean_actions (build_args : BuildArgs) (w : World)
    (d : gmap string bool) (valid : bool) (unknown : list string) :
  resolve_tokens true CleanActionID_ALL (Some CleanActionID_NONE)
    (arg_clean_actions build_args) initial_clean_actions false
  = (d, valid, unknown) →
  clean_actions (CTX (final_world (validate_input build_args w)))
  = (if valid then d else dict_fill false d).
Proof.
  intros Hres. unfold validate_input, mbind, M_bind. unfold emit at 1.
  destruct (validate_build_actions_ok build_args
              (add_trace [SectionHeading "Validate Input"] w))
    as (d1 & es1 & -> & Hd1).
  match goal with |- context [validate_platforms ?a ?w0] =>
    destruct (validate_platforms_ok a w0) as (d2 & es2 & -> & Hd2) end.
  destruct (resolve_tokens true PluginID_ALL None (arg_plugin_list build_args)
              initial_plugins false) as [[d3 v3] u3] eqn:Hres3.
  match goal with |- context [validate_plugins ?a ?w0] =>
    destruct (validate_plugins_result a w0 d3 v3 u3 Hres3) as (b & Hb & Hvp) end.
  cbv zeta in Hvp. rewrite Hvp.
  match goal with |- context [validate_clean_actions ?a ?w0] =>
    destruct (validate_clean_actions_result a w0 d valid unknown Hres)
      as (es4 & ->) end.
  rewrite validate_unity_install_root_cases.
  by destruct (Path_is_dir _ _).
Qed.

Lemma no_removal_output (e : Event) : (∀ c, e ≠ Called c) → no_removal e.
Proof. intros He folder prompt. apply He. Qed.

Lemma no_removal_call (c : Call) :
  (∀ p b, c ≠ RemoveFolder p b) → no_removal (Called c).
Proof. intros Hc folder prompt [= ->]. by destruct (Hc folder prompt). Qed.

Lemma clean_packages_nothing (build_args : BuildArgs) :
  emits_between nothing_to_clean nothing_to_clean no_removal
    (clean_packages build_args).
Proof.
  intros w Hw. unfold clean_packages, dict_getitem. run_step.
  pose proof (Hw CleanActionID_PACKAGES) as Hpackages.
  destruct (clean_actions (CTX w) !! CleanActionID_PACKAGES) as [[]|] eqn:E;
    [done| |]; run_step; exists []; rewrite app_nil_r;
    (split; [done|]); (split; [done|]); exact Hw.
Qed.

Lemma create_build_path_nothing :
  emits_between nothing_to_clean nothing_to_clean no_removal create_build_path.
Proof.
  intros w Hw.
  destruct (emits_create_build_path no_removal no_removal_output w)
    as (es & Htrace & Hes).
  exists es. split; [done|]. split; [done|].
  unfold nothing_to_clean. by rewrite create_build_path_ctx.
Qed.

Lemma clean_tests_nothing (build_args : BuildArgs) :
  emits_from nothing_to_clean no_removal (clean_tests build_args).
Proof.
  intros w Hw. unfold clean_tests, dict_getitem. run_step.
  specialize (Hw CleanActionID_TESTS).
  destruct (clean_actions (CTX w) !! CleanActionID_TESTS) as [[]|] eqn:E;
    [done| |]; run_step; exists []; by rewrite app_nil_r.
Qed.

Lemma configure_build_paths_nothing (build_args : BuildArgs)
    (invocation_time_string : string) :
  emits_from nothing_to_clean no_removal
    (configure_build_paths build_args invocation_time_string).
Proof.
  unfold configure_build_paths.
  apply (emits_from_bind _ nothing_to_clean).
  { intros w Hw. exists [SectionHeading "Configure Build Paths"].
    split; [done|]. split; [|done]. apply Forall_singleton.
    by apply no_removal_output. }
  intros _. apply (emits_from_bind _ nothing_to_clean);
    [apply clean_packages_nothing|].
  intros _. apply (emits_from_bind _ nothing_to_clean);
    [apply create_build_path_nothing|].
  intros _. apply emits_from_then; [apply clean_tests_nothing|].
  intros _. apply emits_prepare_test_build. apply no_removal_output.
Qed.

(** X11.  When no token of [-k] is a clean action or the ALL sentinel (the
    default [-k NONE], unknown words, the empty list), the run never calls
    RemoveFolder, whatever the other options, the filesystem and the
    collaborators, and however the run ends. *)
Theorem nothing_removed_without_clean_action (build_args : BuildArgs)
    (invocation_time : datetime) (w : World) :
  Forall (λ t, (t ∉ clean_action_keys) ∧ t ≠ CleanActionID_ALL)
    (arg_clean_actions build_args) →
  ∃ es,
    trace (final_world (Main build_args invocation_time w)) = trace w ++ es
    ∧ ∀ folder prompt, RemoveFolder folder prompt ∉ calls_of es.
Proof.
  intros Htokens.
  assert (emits_from (λ _, True) no_removal (Main build_args invocation_time))
    as HMain.
  { unfold Main. apply (emits_from_bind _ (λ _, True)).
    { intros w0 _.
      destruct (print_option_summary_ok build_args w0) as (es & -> & Hes).
      exists es. simpl. split; [done|]. split; [|done].
      apply Forall_forall. intros e He folder prompt ->.
      apply calls_of_elem in He. rewrite Hes in He. by apply elem_of_nil in He. }
    intros _. apply (emits_from_bind _ nothing_to_clean).
    { intros w0 _.
      destruct (resolve_tokens true CleanActionID_ALL (Some CleanActionID_NONE)
                  (arg_clean_actions build_args) initial_clean_actions false)
        as [[d valid] unknown] eqn:Hres.
      pose proof (resolve_tokens_nothing_selected CleanActionID_ALL
                    (Some CleanActionID_NONE) (arg_clean_actions build_args)
                    initial_clean_actions false) as Hd.
      rewrite Hres in Hd. simpl in Hd.
      pose proof (validate_input_clean_actions build_args w0 d valid unknown Hres)
        as Hclean.
      destruct (validate_input_quiet build_args w0)
        as (w' & es & Hvi & _ & Htrace & Hes).
      rewrite Hvi in Hclean |- *. simpl in Hclean |- *.
      exists es. split; [done|]. split.
      - apply Forall_forall. intros e He folder prompt ->.
        apply calls_of_elem in He. rewrite Hes in He.
        by apply elem_of_nil in He.
      - intros k. rewrite Hclean.
        assert (∀ k, d !! k ≠ Some true) as Hfalse.
        { apply Hd.
          - eapply Forall_impl; [exact Htokens|]. intros t [Hkey Hall].
            split; [|done].
            by apply (not_key_not_contained _ _ _ initial_clean_actions_dom).
          - intros k0 Hk0.
            assert (k0 ∈ clean_action_keys) as Hin.
            { apply initial_clean_actions_dom, elem_of_dom. by eexists. }
            by rewrite (initial_clean_actions_member k0 Hin) in Hk0. }
        destruct valid; [apply Hfalse|].
        rewrite dict_fill_lookup. by destruct (d !! k). }
    intros _. apply emits_from_then; [apply configure_build_paths_nothing|].
    intros _. apply emits_run_phases.
    - apply no_removal_output.
    - apply no_removal_call. }
  destruct (HMain w I) as (es & Htrace & Hes).
  exists es. split; [done|]. intros folder prompt Hin%calls_of_elem.
  rewrite Forall_forall in Hes. exact (Hes _ Hin folder prompt eq_refl).
Qed.

End RunProperties.

(** ** The run properties on the example tree *)

Section RunExamples.
Local Existing Instance example_ids.
Local Existing Instance example_collaborators.

(** Settles a disequality of two concrete strings. *)
Ltac differ := let H := fresh in intros H; vm_compute in H; discriminate H.

(** Settles that a concrete string is not in a concrete list. *)
Ltac absent := vm_compute; set_solver.

(** Settles that no token of a concrete list is a member or a sentinel. *)
Ltac unrecognized := repeat constructor; first [absent | differ].


(** X3 on [pack bogus tests core ios]. *)
Lemma members_accumulate_witness :
  accumulates_on resolve_build_actions build_actions build_action_keys
    (λ t, WarningMessage (unknown_build_action_warning t))
    ["pack"; "bogus"; "tests"; "core"; "ios"] example_world
  ∧ accumulates_on resolve_platforms platforms platform_keys
      (λ t, WarningMessage (unknown_platform_warning t))
      ["pack"; "bogus"; "tests"; "core"; "ios"] example_world
  ∧ accumulates_on resolve_plugins plugins plugin_keys
      (λ t, UtilityWarningMessage (unknown_plugin_warning t))
      ["pack"; "bogus"; "tests"; "core"; "ios"] example_world
  ∧ accumulates_on resolve_clean_actions clean_actions clean_action_keys
      (λ t, WarningMessage (unknown_clean_action_warning t))
      ["pack"; "bogus"; "tests"; "core"; "ios"] example_world.
Proof.
  destruct (members_accumulate ["pack"; "bogus"; "tests"; "core"; "ios"]
              example_world) as (H1 & H2 & H3 & H4).
  split; [apply H1; absent|]. split; [apply H2; absent|].
  split; [apply H3; absent|apply H4; absent].
Defined.

(** X4 on [-b bogus nope -m bogus nope -p bogus nope -k bogus nope]. *)
Lemma no_valid_token_applies_default_witness :
  (∃ w', validate_build_actions example_unknown_tokens_args example_world
         = Ok () w'
     ∧ build_actions (CTX w') = dict_fill true initial_build_actions)
  ∧ (∃ w', validate_platforms example_unknown_tokens_args example_world
           = Ok () w'
       ∧ platforms (CTX w') = dict_fill true initial_platforms)
  ∧ (∃ w', validate_plugins example_unknown_tokens_args example_world
           = Ok () w'
       ∧ plugins (CTX w') = dict_fill true initial_plugins)
  ∧ (∃ w', validate_clean_actions example_unknown_tokens_args example_world
           = Ok () w'
       ∧ clean_actions (CTX w') = dict_fill false initial_clean_actions).
Proof.
  destruct (no_valid_token_applies_default example_unknown_tokens_args
              example_world) as (H1 & H2 & H3 & H4).
  destruct H1 as [H1 _]; [unrecognized|].
  destruct H2 as [H2 _]; [unrecognized|].
  destruct H3 as [H3 _]; [reflexivity|unrecognized|].
  destruct H4 as [H4 _]; [unrecognized|].
  split; [|split; [|split]]; eexists; (split; [eassumption|reflexivity]).
Defined.

(** X5 on the default invocation: repo/Build is missing and is made. *)
Lemma create_build_path_postcondition_witness :
  ∃ w', create_build_path example_configured_world = Ok () w'
    ∧ Path_exists (fs w') (build_path (CTX example_configured_world)) = true
    ∧ CTX w' = CTX example_configured_world.
Proof.
  destruct (create_build_path_postcondition example_configured_world true true)
    as (_ & Hmade & _); [vm_compute; reflexivity|vm_compute; reflexivity|].
  destruct Hmade as (w' & Hrun & Hexists & Hctx & _);
    [reflexivity|right; vm_compute; reflexivity|].
  exists w'. split; [exact Hrun|]. split; [exact Hexists|exact Hctx].
Defined.

(** X6 on [-t -p accessibility] with repo/TestBuilds missing. *)
Lemma prepare_test_build_default_root_witness :
  ∃ w', prepare_test_build example_tests_accessibility_args
          "2024-03-07_09-05-42" example_tests_world = Ok () w'
    ∧ Path_is_dir (fs w') (test_build_root (CTX example_tests_world)) = true
    ∧ test_build_output_path (CTX w')
      = Path_joinpath (test_build_root (CTX example_tests_world))
          ("TestBuild_" +:+ "2024-03-07_09-05-42").
Proof.
  destruct (prepare_test_build_default_root example_tests_accessibility_args
              "2024-03-07_09-05-42" example_tests_world) as [_ Hmade].
  destruct Hmade as (w' & Hrun & _ & Hroot & _ & Hpath);
    [vm_compute; reflexivity|vm_compute; reflexivity|vm_compute; reflexivity
    |vm_compute; reflexivity|vm_compute; reflexivity|].
  exists w'. split; [exact Hrun|]. split; [exact Hroot|exact Hpath].
Defined.

(** X7 on [-t -p accessibility] with repo/TestBuilds present. *)
Lemma consecutive_test_runs_witness :
  ∃ w1, prepare_test_build example_tests_accessibility_args
          "2024-03-07_09-05-42" example_tests_world_with_root = Ok () w1
    ∧ (∃ w2, prepare_test_build example_tests_accessibility_args
               "2024-03-07_09-05-42" w1
             = Raise (FileExistsError
                        (Path_joinpath
                           (test_build_root (CTX example_tests_world_with_root))
                           ("TestBuild_" +:+ "2024-03-07_09-05-42"))) w2)
    ∧ (∃ w2, prepare_test_build example_tests_accessibility_args
               "2024-03-07_09-05-43" w1 = Ok () w2).
Proof.
  destruct (consecutive_test_runs example_tests_accessibility_args
              "2024-03-07_09-05-42" "2024-03-07_09-05-43"
              example_tests_world_with_root)
    as (w1 & Hrun & _ & Hagain & Hnext);
    [vm_compute; reflexivity|vm_compute; reflexivity|vm_compute; reflexivity|].
  exists w1. split; [exact Hrun|]. split.
  - destruct Hagain as (w2 & Hraise & _). by exists w2.
  - destruct Hnext as (w2 & Hok & _); [differ|vm_compute; reflexivity|].
    by exists w2.
Defined.


(** X11 on the default invocation, whose [-k] is [NONE]. *)
Lemma nothing_removed_without_clean_action_witness :
  ∃ es,
    trace (final_world (Main example_args example_time example_world))
    = trace example_world ++ es
    ∧ ∀ folder prompt, RemoveFolder folder prompt ∉ calls_of es.
Proof.
  apply (nothing_removed_without_clean_action example_args example_time
           example_world).
  unrecognized.
Defined.

End RunExamples.
